(** * Smart Home IoT frontend: the MQTT router and the dashboard reducer

  A shallow embedding of [SmartHomeMQTT] (the MQTT WebSocket client that
  decodes inbound messages, splits batches and fans events out to the
  registered callbacks), of [Dashboard] (the observer that reduces sensor
  items into display state and tracks when each PI was last seen) and of
  [CONFIG], followed by the properties of the design document that are
  settled against them.

  JavaScript values are modelled with a store of objects, so that the
  in-place update of a batch item is visible to every holder of the
  reference; numbers are IEEE 754 binary64 values ([spec_float] with
  precision 53 and maximal exponent 1024); strings are sequences of 8-bit
  characters.  What the language defines on the characters of the ASCII
  range is modelled here; where a result depends on characters outside
  that range (the case mapping of such a text, white space outside ASCII
  in front of a numeral) it is the browser's, like the digits of a number
  that is no whole number below 2^53.  A handler runs to completion at
  one reading of the clock. *)

From Stdlib Require Import ZArith Bool Ascii String List Lia SpecFloat DecimalString.
From stdpp Require Import base option list gmap strings.

Set Warnings "-register-all".
Open Scope string_scope.
Open Scope list_scope.
Open Scope Z_scope.

(** ** Numbers *)

Module Number.

Abbreviation number := spec_float.

Definition prec : Z := 53.
Definition emax : Z := 1024.

Definition of_Z (z : Z) : number := binary_normalize prec emax z 0 false.
Definition mul (x y : number) : number := SFmul prec emax x y.

Definition nan : number := S754_nan.

Definition is_nan (x : number) : bool :=
  match x with S754_nan => true | _ => false end.

Definition is_finite (x : number) : bool :=
  match x with S754_zero _ | S754_finite _ _ _ => true | _ => false end.


(** [x === y] on numbers: NaN differs from itself, the two zeros agree. *)
Definition eqb (x y : number) : bool := SFeqb x y.
Definition ltb (x y : number) : bool := SFltb x y.

(** The integer a number is equal to, when it is one. *)
Definition to_integer (x : number) : option Z :=
  match x with
  | S754_zero _ => Some 0
  | S754_finite s m e =>
      let n := if s then Z.neg m else Z.pos m in
      if 0 <=? e then Some (n * 2 ^ e)
      else if Z.pos m mod 2 ^ (- e) =? 0 then Some (n / 2 ^ (- e)) else None
  | _ => None
  end.

(** [Math.round]: the nearest integer, a tie going towards +Infinity;
    a result of magnitude zero keeps the sign of the argument. *)
Definition Math_round (x : number) : number :=
  match x with
  | S754_finite s m e =>
      if 0 <=? e then x
      else
        let d := 2 ^ (- e) in
        let n := if s then Z.neg m else Z.pos m in
        let r := (2 * n + d) / (2 * d) in
        if r =? 0 then S754_zero s else of_Z r
  | _ => x
  end.

Definition Z_to_string (z : Z) : string := NilZero.string_of_int (Z.to_int z).

Definition zero : number := S754_zero false.


End Number.
Export Number.

(** ** Values, the object store, and the state of the page *)

Module Js.

Abbreviation loc := nat.

Inductive Val :=
| VUndefined
| VNull
| VBool (b : bool)
| VNum (n : number)
| VStr (s : string)
| VRef (l : loc).

(** An object of the store: its own named properties in creation order,
    and its elements when it is an array. *)
Record Obj := mkObj { elems : option (list Val); props : list (string * Val) }.

Abbreviation Heap := (list Obj).

(** The tree that [JSON.parse] builds from a JSON text. *)
Inductive Json :=
| JNull
| JBool (b : bool)
| JNum (n : number)
| JStr (s : string)
| JArr (items : list Json)
| JObj (members : list (string * Json)).

Inductive Exn := TypeError | SyntaxError | Thrown (v : Val).

(** A registered callback is a function reference. *)
Abbreviation cbid := nat.

(** What the client does to the outside, in order; [EInvoke] records a
    callback being called by a fan-out, with the argument it was given,
    the store as it was on entry, and what the callback did in turn. *)
Inductive Event :=
| EConsole (level msg : string)
| EMqttConnect (url : string) (keepalive reconnectPeriod : Z) (clean : bool)
| ESubscribe (topic : string)
| EPublish (topic payload : string)
| EInvoke (cb : cbid) (payload : Val) (seen : Heap) (inner : list Event).

(** *** CONFIG *)

Record Endpoint := { host : string; port : Z }.

Record Topics := {
  sensors : string;
  alarmState : string;
  personCount : string;
  webCommand : string }.

Record Config := {
  mqtt : Endpoint;
  grafana : Endpoint;
  camera : Endpoint;
  topics : Topics }.

(** [hostname] is [window.location.hostname]. *)
Definition CONFIG (hostname : string) : Config :=
  let h := if String.eqb hostname "" then "localhost" else hostname in
  {| mqtt := {| host := h; port := 9001 |};
     grafana := {| host := h; port := 3000 |};
     camera := {| host := h; port := 8081 |};
     topics := {| sensors := "iot/sensors";
                  alarmState := "iot/alarm/state";
                  personCount := "iot/home/person_count";
                  webCommand := "iot/web/command" |} |}.

(** *** The SmartHomeMQTT instance *)

Record MqttState := {
  config : Config;
  client : bool;               (* [this.client] is not null *)
  connected : bool;
  _callbacks : gmap string (list cbid) }.

(** *** The page *)

Record Element := {
  textContent : string;
  className : string;
  backgroundColor : string;                (* [style.backgroundColor] *)
  icon : option string }.    (* class of the first [i] element inside *)

Record World := {
  router : MqttState;
  heap : Heap;
  lastUpdate : gmap string (option Z);     (* [Dashboard.lastUpdate] *)
  document : gmap string Element;
  clock : Z }.                            (* [Date.now()], milliseconds *)

Definition set_router (r : MqttState) (w : World) : World :=
  {| router := r; heap := heap w; lastUpdate := lastUpdate w;
     document := document w; clock := clock w |}.
Definition set_heap (h : Heap) (w : World) : World :=
  {| router := router w; heap := h; lastUpdate := lastUpdate w;
     document := document w; clock := clock w |}.
Definition set_lastUpdate (m : gmap string (option Z)) (w : World) : World :=
  {| router := router w; heap := heap w; lastUpdate := m;
     document := document w; clock := clock w |}.
Definition set_document (d : gmap string Element) (w : World) : World :=
  {| router := router w; heap := heap w; lastUpdate := lastUpdate w;
     document := d; clock := clock w |}.
Definition set_clock (t : Z) (w : World) : World :=
  {| router := router w; heap := heap w; lastUpdate := lastUpdate w;
     document := document w; clock := t |}.

(** *** Computations: state, exceptions and the trace of events *)

Inductive Outcome (A : Type) := Ret (a : A) | Throw (e : Exn).
Arguments Ret {A} a.
Arguments Throw {A} e.

Definition M (A : Type) : Type := World → Outcome A * World * list Event.

Definition ret {A} (a : A) : M A := λ w, (Ret a, w, []).
Definition throw {A} (e : Exn) : M A := λ w, (Throw e, w, []).
Definition bind {A B} (m : M A) (k : A → M B) : M B :=
  λ w, let '(o, w1, t1) := m w in
       match o with
       | Ret a => let '(o2, w2, t2) := k a w1 in (o2, w2, t1 ++ t2)
       | Throw e => (Throw e, w1, t1)
       end.

Definition get : M World := λ w, (Ret w, w, []).
Definition modify (f : World → World) : M unit := λ w, (Ret tt, f w, []).
Definition emit (e : Event) : M unit := λ w, (Ret tt, w, [e]).
Definition lift {A} (o : Outcome A) : M A := λ w, (o, w, []).

(** [try { m } catch (e) { handler e }] *)
Definition try_catch {A} (m : M A) (handler : Exn → M A) : M A :=
  λ w, let '(o, w1, t1) := m w in
       match o with
       | Ret a => (Ret a, w1, t1)
       | Throw e => let '(o2, w2, t2) := handler e w1 in (o2, w2, t1 ++ t2)
       end.

Declare Scope js_scope.
Delimit Scope js_scope with js.
Notation "x <- m ;; k" := (bind m (λ x, k))
  (at level 100, m at next level, k at level 200, right associativity) : js_scope.
Notation "m ;;; k" := (bind m (λ _, k))
  (at level 100, k at level 200, right associativity) : js_scope.
Open Scope js_scope.

(** [Array.prototype.forEach]: the length is read once, each element is
    read when its turn comes, and an index that is no longer present is
    skipped. *)
Fixpoint forEach_from {A} (read : nat → World → option A) (f : A → M unit)
    (i n : nat) : M unit :=
  match n with
  | O => ret tt
  | S n' =>
      w <- get ;;
      match read i w with
      | Some a => f a
      | None => ret tt
      end ;;;
      forEach_from read f (S i) n'
  end.

Definition forEach {A} (len : nat) (read : nat → World → option A)
    (f : A → M unit) : M unit :=
  forEach_from read f O len.

End Js.
Export Js.

(** ** The language's built-in operations *)

(** The library functions whose algorithm the page takes from the browser:
  the JSON parser, the numeric value of a string, the decimal rendering
  of a number that is not a whole number below 2^53, and what
  [toLowerCase] and [parseInt] do with characters outside ASCII. *)
Class Platform := {
  JSON_parse : string → option Json;      (* [None]: SyntaxError *)
  StringToNumber : string → number;
  Number_toString_other : number → string;
  Number_toFixed : number → Z → string;
  String_toLowerCase_other : string → string;
  parseInt_other : string → number }.

Module Builtin.
Section Builtin.
Context {platform : Platform}.

(** *** Strings *)

Definition is_white_space (a : ascii) : bool :=
  let n := nat_of_ascii a in
  ((9 <=? n) && (n <=? 13))%nat || (n =? 32)%nat.

Definition digit_of (a : ascii) : option Z :=
  let n := nat_of_ascii a in
  if ((48 <=? n) && (n <=? 57))%nat then Some (Z.of_nat n - 48) else None.

Definition lower_ascii (a : ascii) : ascii :=
  let n := nat_of_ascii a in
  if ((65 <=? n) && (n <=? 90))%nat then ascii_of_nat (n + 32) else a.

Fixpoint lower_string (s : string) : string :=
  match s with
  | EmptyString => EmptyString
  | String a s' => String (lower_ascii a) (lower_string s')
  end.

(** A character, and a text, of the ASCII range. *)
Definition is_ascii (a : ascii) : bool := (nat_of_ascii a <? 128)%nat.

Definition ascii_text (s : string) : bool :=
  forallb is_ascii (list_ascii_of_string s).

(** [s.toLowerCase()]: in an ASCII text the letters A to Z are mapped;
    the case mapping of any other text is the browser's. *)
Definition toLowerCase_string (s : string) : string :=
  if ascii_text s then lower_string s else String_toLowerCase_other s.

Fixpoint join (sep : string) (l : list string) : string :=
  match l with
  | [] => ""
  | [x] => x
  | x :: l' => x +:+ sep +:+ join sep l'
  end.

(** *** Numbers and strings *)

Definition Number_toString (x : number) : string :=
  match x with
  | S754_nan => "NaN"
  | S754_zero _ => "0"
  | S754_infinity s => if s then "-Infinity" else "Infinity"
  | S754_finite _ _ _ =>
      match to_integer x with
      | Some z => if Z.abs z <? 2 ^ 53 then Z_to_string z
                  else Number_toString_other x
      | None => Number_toString_other x
      end
  end.

Fixpoint skip_white_space (s : string) : string :=
  match s with
  | String a s' => if is_white_space a then skip_white_space s' else s
  | EmptyString => s
  end.

Fixpoint digits_prefix (s : string) (acc : option Z) : option Z :=
  match s with
  | String a s' =>
      match digit_of a with
      | Some d => digits_prefix s' (Some (10 * default 0 acc + d))
      | None => acc
      end
  | EmptyString => acc
  end.

(** The text goes on with a character outside ASCII. *)
Definition outside_ascii_first (s : string) : bool :=
  match s with
  | String a _ => negb (is_ascii a)
  | EmptyString => false
  end.

(** [parseInt(s, 10)] on a string: the white space in front is skipped,
    then a sign and the decimal digits are read, up to the first
    character that is no digit.  When the ASCII white space in front is
    followed by a character outside ASCII, which may be white space too,
    the result is the browser's. *)
Definition parseInt_string (s : string) : number :=
  let s1 := skip_white_space s in
  if outside_ascii_first s1 then parseInt_other s
  else
    let '(neg, s2) :=
      match s1 with
      | String "-" r => (true, r)
      | String "+" r => (false, r)
      | _ => (false, s1)
      end in
    match digits_prefix s2 None with
    | None => nan
    | Some 0 => S754_zero neg
    | Some n => of_Z (if neg then - n else n)
    end.

(** *** Values *)

Definition typeof (v : Val) : string :=
  match v with
  | VUndefined => "undefined"
  | VNull => "object"
  | VBool _ => "boolean"
  | VNum _ => "number"
  | VStr _ => "string"
  | VRef _ => "object"
  end.

(** ToBoolean *)
Definition truthy (v : Val) : bool :=
  match v with
  | VUndefined | VNull => false
  | VBool b => b
  | VNum (S754_zero _) | VNum S754_nan => false
  | VNum _ => true
  | VStr s => negb (String.eqb s "")
  | VRef _ => true
  end.

(** [a || b] *)
Definition or_else (a b : Val) : Val := if truthy a then a else b.

(** [v != null] *)
Definition not_nullish (v : Val) : bool :=
  match v with VUndefined | VNull => false | _ => true end.

(** [a === b] *)
Definition strict_eq (a b : Val) : bool :=
  match a, b with
  | VUndefined, VUndefined | VNull, VNull => true
  | VBool x, VBool y => Bool.eqb x y
  | VNum x, VNum y => Number.eqb x y
  | VStr x, VStr y => String.eqb x y
  | VRef x, VRef y => Nat.eqb x y
  | _, _ => false
  end.

Definition assoc_get (k : string) (ps : list (string * Val)) : option Val :=
  snd <$> List.find (λ p, String.eqb (fst p) k) ps.

Fixpoint assoc_set (k : string) (v : Val) (ps : list (string * Val))
    : list (string * Val) :=
  match ps with
  | [] => [(k, v)]
  | (k', v') :: ps' =>
      if String.eqb k' k then (k, v) :: ps' else (k', v') :: assoc_set k v ps'
  end.

(** [v.k] for a key [k] that no prototype defines and that is neither an
    array index nor [length]: the keys this program reads. *)
Definition get_prop (h : Heap) (v : Val) (k : string) : Outcome Val :=
  match v with
  | VUndefined | VNull => Throw TypeError
  | VBool _ | VNum _ | VStr _ => Ret VUndefined
  | VRef l =>
      match h !! l with
      | Some o => Ret (default VUndefined (assoc_get k (props o)))
      | None => Throw TypeError
      end
  end.

(** [v.k = x] in strict code (a class body): writing through a primitive
    raises. *)
Definition set_prop (h : Heap) (v : Val) (k : string) (x : Val) : Outcome Heap :=
  match v with
  | VRef l =>
      match h !! l with
      | Some o => Ret (<[l := mkObj (elems o) (assoc_set k x (props o))]> h)
      | None => Throw TypeError
      end
  | _ => Throw TypeError
  end.

Definition GetV (v : Val) (k : string) : M Val :=
  w <- get ;; lift (get_prop (heap w) v k).

Definition PutV (v : Val) (k : string) (x : Val) : M unit :=
  w <- get ;;
  h <- lift (set_prop (heap w) v k x) ;;
  modify (set_heap h).

(** [new] object: the fresh reference is the next free cell. *)
Definition alloc (o : Obj) : M Val :=
  w <- get ;;
  modify (set_heap (heap w ++ [o])) ;;;
  ret (VRef (length (heap w))).

(** ToString, given the rendering [inner] of the elements of an array. *)
Definition ToString_with (inner : Val → string) (h : Heap) (v : Val) : string :=
  match v with
  | VUndefined => "undefined"
  | VNull => "null"
  | VBool b => if b then "true" else "false"
  | VNum n => Number_toString n
  | VStr s => s
  | VRef l =>
      match h !! l with
      | Some (mkObj (Some es) _) =>
          join "," (List.map (λ e, match e with
                                   | VUndefined | VNull => ""
                                   | _ => inner e
                                   end) es)
      | _ => "[object Object]"
      end
  end.

(** An array nested deeper than the store has cells renders as empty. *)
Fixpoint ToString_fuel (fuel : nat) (h : Heap) (v : Val) : string :=
  match fuel with
  | O => ToString_with (λ _, "") h v
  | S f => ToString_with (ToString_fuel f h) h v
  end.

Definition ToString (h : Heap) (v : Val) : string :=
  ToString_with (ToString_fuel (length h) h) h v.

(** ToNumber *)
Definition ToNumber (h : Heap) (v : Val) : number :=
  match v with
  | VUndefined => nan
  | VNull => S754_zero false
  | VBool b => if b then of_Z 1 else S754_zero false
  | VNum n => n
  | VStr s => StringToNumber s
  | VRef l =>
      match h !! l with
      | Some (mkObj (Some _) _) => StringToNumber (ToString h v)
      | _ => nan
      end
  end.

Definition isNaN (h : Heap) (v : Val) : bool := is_nan (ToNumber h v).

(** [parseInt(v, 10)] *)
Definition parseInt (h : Heap) (v : Val) : number :=
  parseInt_string (ToString h v).

(** [v.toLowerCase()] *)
Definition toLowerCase (v : Val) : Outcome string :=
  match v with
  | VStr s => Ret (toLowerCase_string s)
  | _ => Throw TypeError
  end.

(** The keys that an object literal inherits: reading one of them from
    a table gives a value that is not missing, and is no array. *)
Definition inherited_keys : list string :=
  ["constructor"; "__proto__"; "hasOwnProperty"; "isPrototypeOf";
   "propertyIsEnumerable"; "toLocaleString"; "toString"; "valueOf";
   "__defineGetter__"; "__defineSetter__"; "__lookupGetter__"; "__lookupSetter__"].

Definition one_of (s : string) (l : list string) : bool :=
  existsb (String.eqb s) l.

Definition inherited (key : string) : bool := one_of key inherited_keys.

(** *** Building the value of a JSON tree in the store *)

Fixpoint alloc_json (j : Json) (h : Heap) : Val * Heap :=
  match j with
  | JNull => (VNull, h)
  | JBool b => (VBool b, h)
  | JNum n => (VNum n, h)
  | JStr s => (VStr s, h)
  | JArr js =>
      let '(vs, h1) :=
        (fix go (js : list Json) (h : Heap) : list Val * Heap :=
           match js with
           | [] => ([], h)
           | j :: js' =>
               let '(v, h1) := alloc_json j h in
               let '(vs, h2) := go js' h1 in
               (v :: vs, h2)
           end) js h in
      (VRef (length h1), h1 ++ [mkObj (Some vs) []])
  | JObj ms =>
      let '(ps, h1) :=
        (fix go (ms : list (string * Json)) (h : Heap)
           : list (string * Val) * Heap :=
           match ms with
           | [] => ([], h)
           | (k, j) :: ms' =>
               let '(v, h1) := alloc_json j h in
               let '(ps, h2) := go ms' h1 in
               ((k, v) :: ps, h2)
           end) ms h in
      (VRef (length h1),
       h1 ++ [mkObj None (fold_left (λ acc p, assoc_set (fst p) (snd p) acc) ps [])])
  end.

End Builtin.
End Builtin.
Export Builtin.

(** ** JSON.stringify *)

Module JSON.
Section JSON.
Context {platform : Platform}.

Definition hex_digit (n : nat) : ascii :=
  nth n (list_ascii_of_string "0123456789abcdef") "0"%char.

Definition quote_char (a : ascii) : string :=
  let n := nat_of_ascii a in
  if (n =? 34)%nat then String "\" (String a "")
  else if (n =? 92)%nat then "\\"
  else if (n =? 8)%nat then "\b"
  else if (n =? 12)%nat then "\f"
  else if (n =? 10)%nat then "\n"
  else if (n =? 13)%nat then "\r"
  else if (n =? 9)%nat then "\t"
  else if (n <? 32)%nat then
    "\u00" +:+ String (hex_digit (n / 16)) (String (hex_digit (n mod 16)) "")
  else String a "".

Fixpoint quote_chars (s : string) : string :=
  match s with
  | EmptyString => ""
  | String a s' => quote_char a +:+ quote_chars s'
  end.

Definition QuoteJSONString (s : string) : string :=
  String (ascii_of_nat 34) (quote_chars s +:+ String (ascii_of_nat 34) "").

(** A key that is an array index: a canonical decimal numeral up to
    2^32 - 2.  Such keys are enumerated first, in increasing order. *)
Definition array_index (k : string) : option Z :=
  match k with
  | "" => None
  | String "0" "" => Some 0
  | String "0" _ => None
  | _ =>
      if forallb (λ a, bool_decide (is_Some (digit_of a))) (list_ascii_of_string k)
      then match digits_prefix k None with
           | Some n => if n <=? 2 ^ 32 - 2 then Some n else None
           | None => None
           end
      else None
  end.

Fixpoint insert_by_index (x : Z * (string * Val))
    (l : list (Z * (string * Val))) : list (Z * (string * Val)) :=
  match l with
  | [] => [x]
  | y :: l' => if fst x <=? fst y then x :: l else y :: insert_by_index x l'
  end.

Definition own_properties (ps : list (string * Val)) : list (string * Val) :=
  let indexed := omap (λ p, (λ i, (i, p)) <$> array_index (fst p)) ps in
  (snd <$> foldr insert_by_index [] indexed)
    ++ List.filter (λ p, bool_decide (array_index (fst p) = None)) ps.

Fixpoint mapM_outcome {A B} (f : A → Outcome B) (l : list A) : Outcome (list B) :=
  match l with
  | [] => Ret []
  | a :: l' =>
      match f a with
      | Ret b => match mapM_outcome f l' with
                 | Ret bs => Ret (b :: bs)
                 | Throw e => Throw e
                 end
      | Throw e => Throw e
      end
  end.

(** The text of a value, [None] for a value that has none (undefined);
    a structure nested deeper than the store has cells is cyclic, and
    raises. *)
Fixpoint SerializeJSONProperty (fuel : nat) (h : Heap) (v : Val)
    : Outcome (option string) :=
  match v with
  | VUndefined => Ret None
  | VNull => Ret (Some "null")
  | VBool b => Ret (Some (if b then "true" else "false"))
  | VNum n => Ret (Some (if is_finite n then Number_toString n else "null"))
  | VStr s => Ret (Some (QuoteJSONString s))
  | VRef l =>
      match fuel with
      | O => Throw TypeError
      | S f =>
          match h !! l with
          | None => Throw TypeError
          | Some (mkObj (Some es) _) =>
              match mapM_outcome (SerializeJSONProperty f h) es with
              | Ret parts =>
                  Ret (Some ("[" +:+ join "," (default "null" <$> parts) +:+ "]"))
              | Throw e => Throw e
              end
          | Some (mkObj None ps) =>
              match mapM_outcome
                      (λ p, match SerializeJSONProperty f h (snd p) with
                            | Ret o => Ret ((λ t, QuoteJSONString (fst p) +:+ ":" +:+ t) <$> o)
                            | Throw e => Throw e
                            end) (own_properties ps) with
              | Ret parts => Ret (Some ("{" +:+ join "," (omap id parts) +:+ "}"))
              | Throw e => Throw e
              end
          end
      end
  end.

Definition stringify (h : Heap) (v : Val) : Outcome (option string) :=
  SerializeJSONProperty (length h) h v.

End JSON.
End JSON.

(** ** SmartHomeMQTT *)

(** The bodies of the functions passed to [on]. *)
Class Listeners := call_listener : cbid → Val → M unit.

Module SmartHomeMQTT.
Section SmartHomeMQTT.
Context {platform : Platform} {listeners : Listeners}.

Definition constructor (config : Config) : MqttState :=
  {| config := config;
     client := false;
     connected := false;
     _callbacks :=
       list_to_map [("onConnect", []); ("onDisconnect", []); ("onSensorData", []);
                    ("onAlarmState", []); ("onPersonCount", [])] |}.

Definition set_client (b : bool) (r : MqttState) : MqttState :=
  {| config := config r; client := b; connected := connected r;
     _callbacks := _callbacks r |}.
Definition set_connected (b : bool) (r : MqttState) : MqttState :=
  {| config := config r; client := client r; connected := b;
     _callbacks := _callbacks r |}.
Definition set_callbacks (c : gmap string (list cbid)) (r : MqttState) : MqttState :=
  {| config := config r; client := client r; connected := connected r;
     _callbacks := c |}.

(** *** event helpers *)

Definition on (event : string) (callback : cbid) : M unit :=
  w <- get ;;
  match _callbacks (router w) !! event with
  | Some cbs =>
      modify (set_router (set_callbacks (<[event := cbs ++ [callback]]> (_callbacks (router w)))
                            (router w)))
  | None => if inherited event then throw TypeError else ret tt
  end.

(** The call [cb(data)] inside a fan-out. *)
Definition invoke (cb : cbid) (data : Val) : M unit :=
  λ w, let '(o, w', t) := call_listener cb data w in
       (o, w', [EInvoke cb data (heap w) t]).

Definition _fire (event : string) (data : Val) : M unit :=
  w <- get ;;
  match _callbacks (router w) !! event with
  | Some cbs =>
      forEach (length cbs)
              (λ i w, cbs' ← _callbacks (router w) !! event; cbs' !! i)
              (λ cb, invoke cb data)
  | None => if inherited event then throw TypeError else ret tt
  end.

(** *** incoming *)

(** [items.forEach(f)] on a value. *)
Definition Array_forEach (items : Val) (f : Val → M unit) : M unit :=
  w <- get ;;
  match items with
  | VRef l =>
      match heap w !! l with
      | Some (mkObj (Some es) _) =>
          forEach (length es)
                  (λ i w, o ← heap w !! l; es' ← elems o; es' !! i)
                  f
      | _ => throw TypeError
      end
  | _ => throw TypeError
  end.

(** The body of the loop over the items of a batch. *)
Definition each_item (device : Val) (item : Val) : M unit :=
  d <- GetV item "device" ;;
  PutV item "device" (or_else d device) ;;;
  _fire "onSensorData" item.

Definition _handleMessage (topic : string) (data : Val) : M unit :=
  w <- get ;;
  let t := topics (config (router w)) in
  if String.eqb topic (sensors t) then
    its <- GetV data "items" ;;
    items <- (if truthy its then ret its else alloc (mkObj (Some [data]) [])) ;;
    device <- GetV data "device" ;;
    Array_forEach items (each_item device)
  else if String.eqb topic (alarmState t) then
    _fire "onAlarmState" data
  else if String.eqb topic (personCount t) then
    _fire "onPersonCount" data
  else ret tt.

(** *** connection *)

Definition connect : M unit :=
  w <- get ;;
  let m := mqtt (config (router w)) in
  let url := "ws://" +:+ host m +:+ ":" +:+ Z_to_string (port m) in
  emit (EConsole "log" "[MQTT] Connecting to") ;;;
  emit (EMqttConnect url 30 3000 true) ;;;
  modify (λ w, set_router (set_client true (router w)) w).

(** [this.client.subscribe(topic)] *)
Definition client_subscribe (topic : string) : M unit :=
  w <- get ;;
  if client (router w) then emit (ESubscribe topic) else throw TypeError.

(** [this.client.publish(topic, payload)] *)
Definition client_publish (topic payload : string) : M unit :=
  w <- get ;;
  if client (router w) then emit (EPublish topic payload) else throw TypeError.

(** The handlers that [connect] installs on the client, for the events
    "connect", "close", "error" and "message" of the transport. *)
Definition client_on_connect : M unit :=
  emit (EConsole "log" "[MQTT] Connected") ;;;
  modify (λ w, set_router (set_connected true (router w)) w) ;;;
  w <- get ;;
  let t := topics (config (router w)) in
  client_subscribe (sensors t) ;;;
  client_subscribe (alarmState t) ;;;
  client_subscribe (personCount t) ;;;
  _fire "onConnect" VUndefined.

Definition client_on_close : M unit :=
  emit (EConsole "log" "[MQTT] Disconnected") ;;;
  modify (λ w, set_router (set_connected false (router w)) w) ;;;
  _fire "onDisconnect" VUndefined.

Definition client_on_error : M unit :=
  emit (EConsole "error" "[MQTT] Error:").

Definition client_on_message (topic payload : string) : M unit :=
  try_catch
    (match JSON_parse payload with
     | Some j =>
         w <- get ;;
         let '(data, h) := alloc_json j (heap w) in
         modify (set_heap h) ;;;
         _handleMessage topic data
     | None => throw SyntaxError
     end)
    (λ e, emit (EConsole "warn" "[MQTT] Parse error:")).

(** *** outgoing *)

Definition publishCommand (target command params : Val) : M unit :=
  w <- get ;;
  if negb (client (router w)) || negb (connected (router w)) then
    emit (EConsole "warn" "[MQTT] Not connected, cannot send command")
  else
    p <- (if truthy params then ret params else alloc (mkObj None [])) ;;
    o <- alloc (mkObj None [("target", target); ("command", command); ("params", p)]) ;;
    w1 <- get ;;
    payload <- lift (JSON.stringify (heap w1) o) ;;
    match payload with
    | Some text => client_publish (webCommand (topics (config (router w)))) text
    | None => throw TypeError
    end ;;;
    emit (EConsole "log" ("[MQTT] Command -> " +:+ ToString (heap w1) target +:+ ": "
                            +:+ ToString (heap w1) command)).

End SmartHomeMQTT.
End SmartHomeMQTT.

(** ** The page's elements *)

Module Dom.
Section Dom.
Context {platform : Platform}.

Definition set_textContent (t : string) (e : Element) : Element :=
  {| textContent := t; className := className e;
     backgroundColor := backgroundColor e; icon := icon e |}.
Definition set_className (c : string) (e : Element) : Element :=
  {| textContent := textContent e; className := c;
     backgroundColor := backgroundColor e; icon := icon e |}.
Definition set_backgroundColor (c : string) (e : Element) : Element :=
  {| textContent := textContent e; className := className e;
     backgroundColor := c; icon := icon e |}.
Definition set_icon (c : string) (e : Element) : Element :=
  {| textContent := textContent e; className := className e;
     backgroundColor := backgroundColor e; icon := (λ _, c) <$> icon e |}.

Definition getElementById (id : string) : M (option Element) :=
  w <- get ;; ret (document w !! id).

Definition update_element (id : string) (f : Element → Element) : M unit :=
  modify (λ w, set_document (alter f id (document w)) w).

(** The string that [el.textContent = v] stores. *)
Definition text_of (h : Heap) (v : Val) : string :=
  match v with
  | VUndefined | VNull => ""
  | _ => ToString h v
  end.

(** [classList]: the class names of [className], split at ASCII white
    space, each once, in order. *)
Definition is_ascii_whitespace (a : ascii) : bool :=
  one_of (String a "") [String (ascii_of_nat 9) ""; String (ascii_of_nat 10) "";
                        String (ascii_of_nat 12) ""; String (ascii_of_nat 13) ""; " "].

Fixpoint split_with (sep : ascii → bool) (s : string) (cur : string) : list string :=
  match s with
  | EmptyString => [cur]
  | String a s' =>
      if sep a then cur :: split_with sep s' ""
      else split_with sep s' (cur +:+ String a "")
  end.

Fixpoint dedup_strings (l : list string) : list string :=
  match l with
  | [] => []
  | x :: l' => x :: List.filter (λ y, negb (String.eqb x y)) (dedup_strings l')
  end.

Definition tokens (c : string) : list string :=
  dedup_strings (List.filter (λ t, negb (String.eqb t "")) (split_with is_ascii_whitespace c "")).

Definition classList_add (c : string) (cn : string) : string :=
  let ts := tokens cn in
  join " " (if one_of c ts then ts else ts ++ [c]).

Definition classList_remove (c : string) (cn : string) : string :=
  join " " (List.filter (λ t, negb (String.eqb t c)) (tokens cn)).

Definition classList_toggle (c : string) (force : bool) (cn : string) : string :=
  let ts := tokens cn in
  if one_of c ts then (if force then cn else classList_remove c cn)
  else (if force then join " " (ts ++ [c]) else cn).

(** [s.split(" ")] *)
Definition split_space (s : string) : list string :=
  split_with (λ a, Ascii.eqb a " ") s "".

End Dom.
End Dom.
Export Dom.

(** ** Dashboard *)

Module Dashboard.
Section Dashboard.
Context {platform : Platform}.

(** [this.lastUpdate]: [None] is [null], [Some t] a Date at time [t]. *)
Definition constructor : gmap string (option Z) :=
  list_to_map [("PI1", None); ("PI2", None); ("PI3", None)].

Definition Date_now : M Z := w <- get ;; ret (clock w).

(** [this.lastUpdate[key] = new Date()]; the key [__proto__] names the
    prototype, and creates no entry. *)
Definition lastUpdate_set (key : string) (t : Z) : M unit :=
  if String.eqb key "__proto__" then ret tt
  else modify (λ w, set_lastUpdate (<[key := Some t]> (lastUpdate w)) w).

(** [this.lastUpdate[key]], when it holds a Date. *)
Definition lastUpdate_get (key : string) : M (option Z) :=
  w <- get ;; ret (mjoin (lastUpdate w !! key)).

(** *** helpers *)

Definition _setText (id : string) (text : Val) : M unit :=
  el <- getElementById id ;;
  match el with
  | Some _ =>
      w <- get ;;
      update_element id (set_textContent (text_of (heap w) text))
  | None => ret tt
  end.

(** Times are integers far below 2^53, for which the floor of the
    floating-point quotient is the integer quotient. *)
Definition _timeAgo (date : option Z) : M string :=
  match date with
  | None => ret "No data"
  | Some t =>
      now <- Date_now ;;
      let s := (now - t) / 1000 in
      if s <? 5 then ret "Just now"
      else if s <? 60 then ret (Z_to_string s +:+ "s ago")
      else ret (Z_to_string (s / 60) +:+ "m ago")
  end.

(** *** PI status *)

Definition _updatePiStatus (device : Val) (online : bool) : M unit :=
  id <- lift (toLowerCase device) ;;
  statusEl <- getElementById (id +:+ "-status") ;;
  match statusEl with
  | Some _ =>
      update_element (id +:+ "-status")
        (λ e, set_className ("badge mt-1 " +:+ (if online then "bg-success" else "bg-secondary"))
                (set_textContent (if online then "Online" else "Offline") e))
  | None => ret tt
  end.

(** *** sensor-specific updaters *)

(** [value === 1 || value === true] *)
Definition active (value : Val) : bool :=
  strict_eq value (VNum (of_Z 1)) || strict_eq value (VBool true).

Definition _updateDHT (sensor value : Val) : M unit :=
  p <- lift (toLowerCase sensor) ;;
  if String.eqb (typeof value) "object" && negb (strict_eq value VNull) then
    temperature <- GetV value "temperature" ;;
    (if not_nullish temperature then
       w <- get ;;
       _setText (p +:+ "-temp") (VStr (Number_toFixed (ToNumber (heap w) temperature) 1))
     else ret tt) ;;;
    humidity <- GetV value "humidity" ;;
    (if not_nullish humidity then
       w <- get ;;
       _setText (p +:+ "-hum") (VStr (Number_toFixed (ToNumber (heap w) humidity) 1))
     else ret tt)
  else ret tt.

Definition _updateMotion (sensor value : Val) : M unit :=
  id <- lift (toLowerCase sensor) ;;
  let detected := active value in
  stateEl <- getElementById (id +:+ "-state") ;;
  cardEl <- getElementById ("card-" +:+ id) ;;
  match stateEl with
  | Some _ =>
      update_element (id +:+ "-state")
        (λ e, set_className ("badge mt-1 " +:+ (if detected then "bg-danger" else "bg-secondary"))
                (set_textContent (if detected then "MOTION" else "CLEAR") e))
  | None => ret tt
  end ;;;
  match cardEl with
  | Some _ =>
      update_element ("card-" +:+ id)
        (λ e, set_className (classList_toggle "sensor-active" detected (className e)) e)
  | None => ret tt
  end.

Definition _updateDoor (sensor value : Val) : M unit :=
  id <- lift (toLowerCase sensor) ;;
  let isOpen := active value in
  el <- getElementById (id +:+ "-state") ;;
  match el with
  | Some _ =>
      update_element (id +:+ "-state")
        (λ e, set_className ("badge mt-1 " +:+ (if isOpen then "bg-danger" else "bg-success"))
                (set_textContent (if isOpen then "OPEN" else "CLOSED") e))
  | None => ret tt
  end ;;;
  card <- getElementById ("card-" +:+ id) ;;
  match card with
  | Some _ =>
      update_element ("card-" +:+ id)
        (set_icon ("bi " +:+ (if isOpen then "bi-door-open" else "bi-door-closed") +:+ " fs-3"))
  | None => ret tt
  end.

Definition _updateDistance (sensor value : Val) : M unit :=
  id <- lift (toLowerCase sensor) ;;
  el <- getElementById (id +:+ "-value") ;;
  match el, value with
  | Some _, VNum n => update_element (id +:+ "-value") (set_textContent (Number_toFixed n 1))
  | _, _ => ret tt
  end.

Definition _updateOnOff (elementId : string) (value : Val) : M unit :=
  el <- getElementById elementId ;;
  match el with
  | None => ret tt
  | Some _ =>
      let isOn := active value in
      update_element elementId
        (λ e, set_className ("badge mt-1 " +:+ (if isOn then "bg-success" else "bg-secondary"))
                (set_textContent (if isOn then "ON" else "OFF") e))
  end.

(** [Math.round((c || 0) * 255)] *)
Definition channel (h : Heap) (c : Val) : number :=
  Math_round (mul (ToNumber h (or_else c (VNum (S754_zero false)))) (of_Z 255)).

Definition _updateRGB (value : Val) : M unit :=
  preview <- getElementById "rgb-preview" ;;
  match preview with
  | None => ret tt
  | Some _ =>
      if negb (String.eqb (typeof value) "object") then ret tt
      else
        w <- get ;;
        vr <- GetV value "r" ;;
        let r := channel (heap w) vr in
        vg <- GetV value "g" ;;
        let g := channel (heap w) vg in
        vb <- GetV value "b" ;;
        let b := channel (heap w) vb in
        update_element "rgb-preview"
          (set_backgroundColor
             ("rgb(" +:+ Number_toString r +:+ "," +:+ Number_toString g +:+ ","
                     +:+ Number_toString b +:+ ")"))
  end.

Definition _updateGyroscope (item : Val) : M unit :=
  el <- getElementById "gsg-value" ;;
  match el with
  | None => ret tt
  | Some _ =>
      ax <- GetV item "ax" ;;
      if not_nullish ax then
        ay <- GetV item "ay" ;;
        az <- GetV item "az" ;;
        w <- get ;;
        let fixed v := Number_toFixed (ToNumber (heap w) v) 2 in
        update_element "gsg-value"
          (set_textContent ("x:" +:+ fixed ax +:+ "  y:" +:+ fixed ay +:+ "  z:" +:+ fixed az))
      else ret tt
  end.

Definition _updateTimer (item : Val) : M unit :=
  el <- getElementById "timer-display" ;;
  match el with
  | None => ret tt
  | Some _ =>
      action <- GetV item "action" ;;
      if strict_eq action (VStr "show_time") then
        display <- GetV item "display" ;;
        w <- get ;;
        update_element "timer-display"
          (λ e, set_className (classList_remove "timer-blink" (className e))
                  (set_textContent (text_of (heap w) (or_else display (VStr "00:00"))) e))
      else if strict_eq action (VStr "blink_start") then
        update_element "timer-display"
          (λ e, set_className (classList_add "timer-blink" (className e))
                  (set_textContent "00:00" e))
      else if strict_eq action (VStr "blink_stop") then
        update_element "timer-display"
          (λ e, set_className (classList_remove "timer-blink" (className e))
                  (set_textContent "00:00" e))
      else ret tt
  end.

(** *** main dispatcher *)

(** The [switch (sensor)] of [updateSensor]. *)
Definition dispatch (item sensor value : Val) : M unit :=
  match sensor with
  | VStr s =>
      if one_of s ["DHT1"; "DHT2"; "DHT3"] then _updateDHT sensor value
      else if one_of s ["DPIR1"; "DPIR2"; "DPIR3"] then _updateMotion sensor value
      else if one_of s ["DS1"; "DS2"] then _updateDoor sensor value
      else if one_of s ["DUS1"; "DUS2"] then _updateDistance sensor value
      else if String.eqb s "DL" then _updateOnOff "dl-state" value
      else if String.eqb s "DB" then _updateOnOff "db-state" value
      else if String.eqb s "BRGB" then _updateRGB value
      else if String.eqb s "GSG" then _updateGyroscope item
      else if String.eqb s "4SD" then _updateTimer item
      else ret tt
  | _ => ret tt
  end.

(** The [if (device) { ... }] of [updateSensor]. *)
Definition touch (device : Val) : M unit :=
  if truthy device then
    now <- Date_now ;;
    w <- get ;;
    lastUpdate_set (ToString (heap w) device) now ;;;
    id <- lift (toLowerCase device) ;;
    ago <- _timeAgo (Some now) ;;
    _setText (id +:+ "-last-update") (VStr ago) ;;;
    _updatePiStatus device true
  else ret tt.

Definition updateSensor (item : Val) : M unit :=
  sensor <- GetV item "sensor" ;;
  device <- GetV item "device" ;;
  value <- GetV item "value" ;;
  touch device ;;;
  dispatch item sensor value.

(** *** system overview *)

Definition alarm_map : list (string * (string * string)) :=
  [("DISARMED", ("bg-success", "alarm-disarmed"));
   ("ARMING", ("bg-warning text-dark", "alarm-arming"));
   ("ARMED", ("bg-primary", "alarm-armed"));
   ("GRACE", ("bg-warning text-dark", "alarm-grace"));
   ("ALARMING", ("bg-danger", "alarm-alarming"))].

Definition updateAlarmState (data : Val) : M unit :=
  state <- (if String.eqb (typeof data) "string" then ret data
            else s <- GetV data "state" ;; ret (or_else s data)) ;;
  el <- getElementById "alarm-state" ;;
  card <- getElementById "alarm-card" ;;
  match el with
  | None => ret tt
  | Some _ =>
      w <- get ;;
      update_element "alarm-state"
        (λ e, set_className "badge fs-6" (set_textContent (text_of (heap w) state) e)) ;;;
      match card with
      | Some _ => update_element "alarm-card" (set_className "card h-100")
      | None => throw TypeError
      end ;;;
      let key := ToString (heap w) state in
      styles <- match snd <$> List.find (λ p, String.eqb (fst p) key) alarm_map with
                | Some p => ret p
                | None => if inherited key then throw TypeError
                          else ret ("bg-secondary", "")
                end ;;
      let '(badge, border) := styles in
      update_element "alarm-state"
        (λ e, set_className (fold_left (λ cn c, classList_add c cn) (split_space badge)
                               (className e)) e) ;;;
      if negb (String.eqb border "") then
        update_element "alarm-card"
          (λ e, set_className (classList_add border (className e)) e)
      else ret tt
  end.

(** The [let count; if ... else ...] of [updatePersonCount]. *)
Definition count_of (data : Val) : M Val :=
  w <- get ;;
  if String.eqb (typeof data) "number" then ret data
  else if String.eqb (typeof data) "object" && negb (strict_eq data VNull) then
    c <- GetV data "count" ;;
    if not_nullish c then ret c else ret (VNum (parseInt (heap w) data))
  else ret (VNum (parseInt (heap w) data)).

Definition updatePersonCount (data : Val) : M unit :=
  count <- count_of data ;;
  w <- get ;;
  _setText "person-count" (if isNaN (heap w) count then VStr "?" else count).

(** The body of the loop of [refreshTimestamps], for one PI. *)
Definition refresh (pi : string) : M unit :=
  last <- lastUpdate_get pi ;;
  match last with
  | Some t =>
      now <- Date_now ;;
      let secAgo := (now - t) / 1000 in
      ago <- _timeAgo (Some t) ;;
      _setText (toLowerCase_string pi +:+ "-last-update") (VStr ago) ;;;
      _updatePiStatus (VStr pi) (secAgo <? 30)
  | None => ret tt
  end.

(** Called from [setInterval] to keep the "last update" labels fresh. *)
Definition refreshTimestamps : M unit :=
  let pis := ["PI1"; "PI2"; "PI3"] in
  forEach (length pis) (λ i _, pis !! i) refresh.

End Dashboard.
End Dashboard.

(** ** The main application: wiring of the client and the dashboard *)

Module App.
Section App.
Context {platform : Platform}.

(** The status badge handlers registered for "onConnect" and
    "onDisconnect". *)
Definition show_connection (text cls : string) : M unit :=
  el <- getElementById "mqtt-status" ;;
  match el with
  | Some _ => update_element "mqtt-status" (λ e, set_className cls (set_textContent text e))
  | None => throw TypeError
  end.

(** The five functions that the application registers, in the order of
    registration. *)
Definition listeners : Listeners :=
  λ cb data,
    match cb with
    | 0%nat => show_connection "Connected" "badge bg-success"
    | 1%nat => show_connection "Disconnected" "badge bg-danger"
    | 2%nat => Dashboard.updateSensor data
    | 3%nat => Dashboard.updateAlarmState data
    | 4%nat => Dashboard.updatePersonCount data
    | _ => ret tt
    end.

Definition register : M unit :=
  SmartHomeMQTT.on "onConnect" 0%nat ;;;
  SmartHomeMQTT.on "onDisconnect" 1%nat ;;;
  SmartHomeMQTT.on "onSensorData" 2%nat ;;;
  SmartHomeMQTT.on "onAlarmState" 3%nat ;;;
  SmartHomeMQTT.on "onPersonCount" 4%nat.

(** The page when the application starts: a fresh client and a fresh
    dashboard. *)
Definition start (hostname : string) (page : gmap string Element) (now : Z) : World :=
  {| router := SmartHomeMQTT.constructor (CONFIG hostname);
     heap := [];
     lastUpdate := Dashboard.constructor;
     document := page;
     clock := now |}.

(** The timer callback: the clock has advanced to [now]. *)
Definition tick (now : Z) : M unit :=
  modify (set_clock now) ;;;
  Dashboard.refreshTimestamps.

End App.
End App.

(** ** Vocabulary of the properties *)

Module Spec.
Section Spec.
Context {platform : Platform} {listeners : Listeners}.

Definition outcome_of {A} (r : Outcome A * World * list Event) : Outcome A := fst (fst r).
Definition world_of {A} (r : Outcome A * World * list Event) : World := snd (fst r).
Definition trace_of {A} (r : Outcome A * World * list Event) : list Event := snd r.

(** The callbacks that a fan-out called, in order, each with its argument
    and the store it saw. *)
Definition invocations (t : list Event) : list (cbid * Val * Heap) :=
  omap (λ e, match e with
             | EInvoke cb v h _ => Some (cb, v, h)
             | _ => None
             end) t.

Definition invoked (t : list Event) : list cbid :=
  (λ i, fst (fst i)) <$> invocations t.

Definition subscriptions (t : list Event) : list string :=
  omap (λ e, match e with ESubscribe topic => Some topic | _ => None end) t.

Definition published (t : list Event) : list (string * string) :=
  omap (λ e, match e with EPublish topic text => Some (topic, text) | _ => None end) t.

(** An event that is a callback being called with [data]. *)
Definition calls_with (data : Val) (e : Event) : Prop :=
  match e with
  | EInvoke _ v _ _ => v = data
  | _ => False
  end.

(** The calls [cb(data)] for the callbacks of [cbs], one after the other. *)
Fixpoint invoke_all (cbs : list cbid) (data : Val) : M unit :=
  match cbs with
  | [] => ret tt
  | cb :: cbs' => SmartHomeMQTT.invoke cb data ;;; invoke_all cbs' data
  end.

(** A listener that returns, and leaves the client and the store as they
    are: an observer of the item it is given. *)
Definition observer (cb : cbid) : Prop :=
  ∀ data w, ∃ w' t,
    call_listener cb data w = (Ret tt, w', t)
    ∧ router w' = router w ∧ heap w' = heap w.

(** The listeners keep the client's registrations. *)
Definition keeps_registry (cb : cbid) : Prop :=
  ∀ data w, router (world_of (call_listener cb data w)) = router w.

(** The value of the property [k] of an object. *)
Definition field (o : Obj) (k : string) : Val :=
  default VUndefined (assoc_get k (props o)).

(** The property [k] of the object at [l]. *)
Definition field_at (h : Heap) (l : loc) (k : string) : Val :=
  match h !! l with
  | Some o => field o k
  | None => VUndefined
  end.

(** [item.device = item.device || device] on the object at [l]. *)
Definition resolve (device : Val) (h : Heap) (l : loc) : Heap :=
  match h !! l with
  | Some o =>
      <[l := mkObj (elems o)
                   (assoc_set "device" (or_else (field o "device") device) (props o))]> h
  | None => h
  end.

Fixpoint refs_of (es : list Val) : option (list loc) :=
  match es with
  | [] => Some []
  | VRef l :: es' => (λ ls, l :: ls) <$> refs_of es'
  | _ :: _ => None
  end.

(** The items of the decoded envelope at [ld], [data.items || [data]],
    when they are objects: their references in array order, and the store
    once the one-item array of a flat envelope has been built. *)
Definition envelope_items (h : Heap) (ld : loc) : option (list loc * Heap) :=
  match h !! ld with
  | Some od =>
      if truthy (field od "items") then
        match field od "items" with
        | VRef la =>
            match h !! la with
            | Some (mkObj (Some es) _) =>
                match refs_of es with
                | Some ls =>
                    if forallb (λ l, bool_decide (is_Some (h !! l))) ls
                    then Some (ls, h) else None
                | None => None
                end
            | _ => None
            end
        | _ => None
        end
      else Some ([ld], h ++ [mkObj (Some [VRef ld]) []])
  | None => None
  end.

(** What a batch is to produce: for each item in turn, its device is
    resolved in the store, and each callback is called with the item. *)
Fixpoint batch_invocations (cbs : list cbid) (device : Val) (h : Heap) (ls : list loc)
    : list (cbid * Val * Heap) :=
  match ls with
  | [] => []
  | l :: ls' =>
      let h1 := resolve device h l in
      ((λ cb, (cb, VRef l, h1)) <$> cbs) ++ batch_invocations cbs device h1 ls'
  end.

(** One notification per item and listener: the items in array order,
    and for each item the listeners in registration order. *)
Definition notifications (cbs : list cbid) (ls : list loc) : list (cbid * Val) :=
  flat_map (λ l, (λ cb, (cb, VRef l)) <$> cbs) ls.

Definition resolve_all (device : Val) (h : Heap) (ls : list loc) : Heap :=
  fold_left (resolve device) ls h.

(** The listeners leave the store as it is. *)
Definition keeps_store (cb : cbid) : Prop :=
  ∀ data w, heap (world_of (call_listener cb data w)) = heap w.

(** The listeners of [cbs] called with [data], one after the other, until
    one raises: each call is recorded with the store that the listener
    was given and with what the listener did. *)
Fixpoint call_each (cbs : list cbid) (data : Val) (w : World)
    : Outcome unit * World * list Event :=
  match cbs with
  | [] => (Ret tt, w, [])
  | cb :: cbs' =>
      let '(o, w1, t) := call_listener cb data w in
      match o with
      | Ret _ =>
          let '(o2, w2, t2) := call_each cbs' data w1 in
          (o2, w2, EInvoke cb data (heap w) t :: t2)
      | Throw e => (Throw e, w1, [EInvoke cb data (heap w) t])
      end
  end.

(** What the handling of a batch comes to: for each item in array order,
    its device is resolved in the store and the listeners are called with
    the item; the first listener that raises ends the batch. *)
Fixpoint deliver (cbs : list cbid) (device : Val) (ls : list loc) (w : World)
    : Outcome unit * World * list Event :=
  match ls with
  | [] => (Ret tt, w, [])
  | l :: ls' =>
      let '(o, w1, t1) :=
        call_each cbs (VRef l) (set_heap (resolve device (heap w) l) w) in
      match o with
      | Ret _ =>
          let '(o2, w2, t2) := deliver cbs device ls' w1 in (o2, w2, t1 ++ t2)
      | Throw e => (Throw e, w1, t1)
      end
  end.

(** The device of the item at [l] is in [h] as the batch came with it in
    [h1], or is already the one that the item ends up with: its own when
    that is truthy, and the device of the envelope when it is not. *)
Definition pending (device : Val) (h1 : Heap) (l : loc) (h : Heap) : Prop :=
  is_Some (h !! l)
  ∧ (field_at h l "device" = field_at h1 l "device"
     ∨ field_at h l "device"
       = (if truthy (field_at h1 l "device") then field_at h1 l "device" else device)).

(** A call of the listener [cb] with the item at [l], as a fan-out
    records it: the listener was run in a world whose store is [h], and
    the record holds what it did there. *)
Definition call_of (cb : cbid) (l : loc) (h : Heap) (e : Event) : Prop :=
  ∃ w, heap w = h
       ∧ e = EInvoke cb (VRef l) h (trace_of (call_listener cb (VRef l) w)).

(** A device that is a string with at least one character. *)
Definition named (device : Val) : Prop :=
  ∃ s, device = VStr s ∧ s ≠ "".

(** A device that is a string, or none at all (absent or null). *)
Definition string_or_missing (device : Val) : Prop :=
  device = VUndefined ∨ device = VNull ∨ ∃ s, device = VStr s.

(** The object [{ target, command, params: params || {} }], built in the
    store [h]: its reference and the store that holds it. *)
Definition command_object (target command params : Val) (h : Heap) : Val * Heap :=
  let '(p, h1) := if truthy params then (params, h)
                  else (VRef (length h), h ++ [mkObj None []]) in
  (VRef (length h1),
   h1 ++ [mkObj None [("target", target); ("command", command); ("params", p)]]).




(** The status badge of a PI. *)
Definition show_status (online : bool) (e : Element) : Element :=
  set_className ("badge mt-1 " +:+ (if online then "bg-success" else "bg-secondary"))
    (set_textContent (if online then "Online" else "Offline") e).

(** The text of [_timeAgo] for a Date at [t], read at [now]. *)
Definition ago (now t : Z) : string :=
  let s := (now - t) / 1000 in
  if s <? 5 then "Just now"
  else if s <? 60 then Z_to_string s +:+ "s ago"
  else Z_to_string (s / 60) +:+ "m ago".

(** What a tick at [now] writes for the PI named [pi]: nothing when it
    was never seen, and otherwise its age and whether it was seen less
    than 30 seconds ago. *)
Definition refresh_pi (now : Z) (last : gmap string (option Z)) (pi : string)
    (page : gmap string Element) : gmap string Element :=
  match mjoin (last !! pi) with
  | Some t =>
      alter (show_status ((now - t) / 1000 <? 30)) (toLowerCase_string pi +:+ "-status")
        (alter (set_textContent (ago now t)) (toLowerCase_string pi +:+ "-last-update") page)
  | None => page
  end.

Definition refresh_page (now : Z) (last : gmap string (option Z))
    (page : gmap string Element) : gmap string Element :=
  refresh_pi now last "PI3" (refresh_pi now last "PI2" (refresh_pi now last "PI1" page)).

(** The elements that a tick can write to. *)
Definition refreshed_ids : list string :=
  ["pi1-last-update"; "pi1-status"; "pi2-last-update"; "pi2-status";
   "pi3-last-update"; "pi3-status"].

(** What seeing the device [d] at the clock's time does to the dashboard. *)
Definition seen (d : string) (w : World) : World :=
  set_document
    (alter (show_status true) (toLowerCase_string d +:+ "-status")
       (alter (set_textContent "Just now") (toLowerCase_string d +:+ "-last-update")
          (document w)))
    (set_lastUpdate (<[d := Some (clock w)]> (lastUpdate w)) w).




(** The sensor kinds that the dashboard's dispatcher knows. *)
Definition known_kinds : list string :=
  ["DHT1"; "DHT2"; "DHT3"; "DPIR1"; "DPIR2"; "DPIR3"; "DS1"; "DS2";
   "DUS1"; "DUS2"; "DL"; "DB"; "BRGB"; "GSG"; "4SD"].

Definition known_kind (sensor : Val) : bool :=
  match sensor with
  | VStr s => one_of s known_kinds
  | _ => false
  end.

End Spec.
End Spec.
Export Spec.

(** ** Concrete pages, listeners and a browser reduced to a few texts *)

Module Sample.

(** A browser that parses the texts of [texts] and rejects every other
    one; its other conversions are never consulted below. *)
Definition texts : list (string * Json) :=
  [("7", JNum (of_Z 7));
   ("[1,2]", JArr [JNum (of_Z 1); JNum (of_Z 2)])].

Definition platform : Platform :=
  {| JSON_parse := λ text, snd <$> List.find (λ p, String.eqb (fst p) text) texts;
     StringToNumber := λ _, nan;
     Number_toString_other := λ _, "<number>";
     Number_toFixed := λ _ _, "<number>";
     String_toLowerCase_other := λ s, s;
     parseInt_other := λ _, nan |}.


(** Listeners that only log. *)
Definition loggers : Listeners := λ cb data, emit (EConsole "log" "seen").

Definition blank : Element :=
  {| textContent := ""; className := ""; backgroundColor := ""; icon := None |}.

(** A page with the elements that the dashboard writes to. *)
Definition page : gmap string Element :=
  list_to_map ((λ id, (id, blank)) <$>
    ["mqtt-status"; "person-count"; "rgb-preview";
     "pi1-status"; "pi1-last-update"; "pi4-status"; "pi4-last-update";
     "ds1-state"; "card-ds1"]).

(** The application after its start: the five listeners registered, the
    client created. *)
Definition started : World :=
  world_of ((App.register ;;; SmartHomeMQTT.connect) (App.start "" page 0)).

(** A client with three listeners registered for sensor data, in the
    order 0, 1, 2. *)
Definition three_listeners : World :=
  let w := App.start "" ∅ 0 in
  set_router (SmartHomeMQTT.set_callbacks
                (<["onSensorData" := [0%nat; 1%nat; 2%nat]]> (_callbacks (router w)))
                (router w)) w.

(** A batch from PI1: an item of an unknown kind, and a door sensor
    whose own device is the empty string. *)
Definition batch : Json :=
  JObj [("device", JStr "PI1");
        ("items", JArr [JObj [("sensor", JStr "ZZZ"); ("value", JNum (of_Z 1))];
                        JObj [("sensor", JStr "DS1"); ("value", JNum (of_Z 1));
                              ("device", JStr "")]])].

(** The decoded batch in the store of [w]. *)
Definition decoded (j : Json) (w : World) : Val * World :=
  let '(data, h) := alloc_json j (heap w) in (data, set_heap h w).

(** The client with three listeners and the decoded batch: the items at
    the references 0 and 1, the envelope at 3. *)
Definition with_batch : World := snd (decoded batch three_listeners).

Definition envelope : Obj :=
  mkObj None [("device", VStr "PI1"); ("items", VRef 2%nat)].

(** The application once the transport has reported "connected". *)
Definition online : World :=
  world_of (SmartHomeMQTT.client_on_connect (listeners := App.listeners (platform := platform))
              started).

End Sample.

From Stdlib Require Decimal DecimalPos.

(** ** Controls *)

(** The buttons of the page: alarm arm and disarm, the RGB light and the
    kitchen timer.  Each handler is given the state of the elements that
    only the controls use, and returns it. *)
Module Controls.
Section Controls.
Context {platform : Platform}.

(** A toast of the container: the classes and the role of its element,
    the message in its body (the markup around the message is fixed), and
    the delay of the timer that removes it. *)
Record Toast := {
  toast_className : string;
  toast_role : string;
  toast_message : string;
  toast_timeout : Z }.

Record Ui := {
  alarm_pin : option string;       (* [value] of the PIN field, when the page has it *)
  timer_minutes : option string;   (* [value] of the minutes field *)
  toasts : option (list Toast) }.  (* the children of the toast container *)

Definition set_alarm_pin (v : string) (ui : Ui) : Ui :=
  {| alarm_pin := (λ _, v) <$> alarm_pin ui; timer_minutes := timer_minutes ui;
     toasts := toasts ui |}.
Definition set_toasts (ts : list Toast) (ui : Ui) : Ui :=
  {| alarm_pin := alarm_pin ui; timer_minutes := timer_minutes ui; toasts := Some ts |}.

(** *** Toast notifications *)

Definition _showToast (message type : string) (ui : Ui) : Ui :=
  match toasts ui with
  | None => ui
  | Some ts =>
      set_toasts
        (ts ++ [{| toast_className := "toast align-items-center text-bg-" +:+ type
                                        +:+ " border-0 show";
                   toast_role := "alert";
                   toast_message := message;
                   toast_timeout := 3000 |}]) ui
  end.

(** *** Alarm *)

Definition is_digit (a : ascii) : bool := bool_decide (is_Some (digit_of a)).

(** [/^\d{4}$/.test(pin)] *)
Definition four_digits (pin : string) : bool :=
  match pin with
  | String a (String b (String c (String d EmptyString))) =>
      is_digit a && is_digit b && is_digit c && is_digit d
  | _ => false
  end.

Definition _validatePin (pin : string) (ui : Ui) : bool * Ui :=
  if negb (truthy (VStr pin)) || negb (String.length pin =? 4)%nat || negb (four_digits pin)
  then (false, _showToast "Enter a 4-digit PIN" "warning" ui)
  else (true, ui).

(** The click handlers of the buttons "disarm" and "arm". *)
Definition alarm_click (command : string) (ui : Ui) : M Ui :=
  match alarm_pin ui with
  | None => throw TypeError
  | Some pin =>
      let '(ok, ui1) := _validatePin pin ui in
      if negb ok then ret ui1
      else
        params <- alloc (mkObj None [("pin", VStr pin)]) ;;
        SmartHomeMQTT.publishCommand (VStr "PI1") (VStr command) params ;;;
        ret (set_alarm_pin "" ui1)
  end.

(** *** RGB light *)

(** The click handler of the button "off". *)
Definition rgb_off_click (ui : Ui) : M Ui :=
  params <- alloc (mkObj None []) ;;
  SmartHomeMQTT.publishCommand (VStr "PI3") (VStr "rgb_off") params ;;;
  preview <- getElementById "rgb-preview" ;;
  match preview with
  | Some _ => update_element "rgb-preview" (set_backgroundColor "#000")
  | None => ret tt
  end ;;;
  ret ui.

(** *** Kitchen timer *)

(** [parseInt(value, 10) || 5] *)
Definition minutes_of (value : string) : Val :=
  or_else (VNum (parseInt_string value)) (VNum (of_Z 5)).

Definition timer_start_click (ui : Ui) : M Ui :=
  match timer_minutes ui with
  | None => throw TypeError
  | Some value =>
      let minutes := minutes_of value in
      params <- alloc (mkObj None [("minutes", minutes)]) ;;
      SmartHomeMQTT.publishCommand (VStr "PI2") (VStr "timer_start") params ;;;
      w <- get ;;
      ret (_showToast ("Timer started: " +:+ ToString (heap w) minutes +:+ " min")
             "success" ui)
  end.

Definition timer_add_click (ui : Ui) : M Ui :=
  params <- alloc (mkObj None [("seconds", VNum (of_Z 30))]) ;;
  SmartHomeMQTT.publishCommand (VStr "PI2") (VStr "timer_add") params ;;;
  ret (_showToast "Added 30 seconds" "info" ui).

Definition timer_stop_click (ui : Ui) : M Ui :=
  params <- alloc (mkObj None []) ;;
  SmartHomeMQTT.publishCommand (VStr "PI2") (VStr "timer_stop") params ;;;
  ret (_showToast "Timer stopped" "warning" ui).

End Controls.
End Controls.

(** ** Vocabulary of the further properties *)

Module Terms.
Section Terms.
Context {platform : Platform} {listeners : Listeners}.

(** The calls [on(event, callback)] of a list, one after the other. *)
Fixpoint on_each (regs : list (string * cbid)) : M unit :=
  match regs with
  | [] => ret tt
  | r :: regs' => SmartHomeMQTT.on (fst r) (snd r) ;;; on_each regs'
  end.

(** The event kinds that the constructor creates. *)
Definition kinds : list string :=
  ["onConnect"; "onDisconnect"; "onSensorData"; "onAlarmState"; "onPersonCount"].

(** The callbacks that a list of registrations gives to a kind, in the
    order of the registrations. *)
Definition registered (kind : string) (regs : list (string * cbid)) : list cbid :=
  snd <$> List.filter (λ r, String.eqb (fst r) kind) regs.

(** A computation that writes to elements of the page and to the
    dashboard's record of times, and does nothing else: the client, the
    store and the clock are as before, the page has the same elements,
    and nothing is logged, subscribed to or published. *)
Definition page_only {A} (m : M A) : Prop :=
  ∀ w,
    router (world_of (m w)) = router w
    ∧ heap (world_of (m w)) = heap w
    ∧ clock (world_of (m w)) = clock w
    ∧ dom (document (world_of (m w))) = dom (document w)
    ∧ trace_of (m w) = [].

(** A listener that returns when it is given [data], and leaves the
    store as it is. *)
Definition returns_on (cb : cbid) (data : Val) : Prop :=
  ∀ w, ∃ w' t, call_listener cb data w = (Ret tt, w', t) ∧ heap w' = heap w.

(** A value that is no object of the store [h]: a primitive, or a
    reference that [h] does not hold. *)
Definition no_object (h : Heap) (v : Val) : Prop :=
  ∀ l, v = VRef l → h !! l = None.

(** The index-th element of the array at [la], as the loop over a batch
    reads it. *)
Definition item_at (la : loc) (i : nat) (w : World) : option Val :=
  o ← heap w !! la; es ← elems o; es !! i.

(** [v] is an array of the store [h]. *)
Definition is_array (h : Heap) (v : Val) : bool :=
  match v with
  | VRef la =>
      match h !! la with
      | Some (mkObj (Some _) _) => true
      | _ => false
      end
  | _ => false
  end.

(** A decoded payload that the sensor branch cannot process: it is no
    object, or its [items] are truthy without being an array. *)
Definition malformed_envelope (h : Heap) (data : Val) : Prop :=
  no_object h data
  ∨ ∃ ld od, data = VRef ld ∧ h !! ld = Some od
             ∧ truthy (field od "items") = true
             ∧ is_array h (field od "items") = false.

(** A class name: not empty, and without white space. *)
Definition is_token (t : string) : bool :=
  negb (String.eqb t "")
  && forallb (λ a, negb (is_ascii_whitespace a)) (list_ascii_of_string t).

(** The element carries the class [c]. *)
Definition has_class (c : string) (e : Element) : bool :=
  one_of c (tokens (className e)).

(** A computation that writes to no element of the page but those
    named in [ids]. *)
Definition writes_only {A} (ids : list string) (m : M A) : Prop :=
  ∀ w id, ¬ In id ids → document (world_of (m w)) !! id = document w !! id.

(** The elements that belong to a device: its status badge and the label
    of its last update. *)
Definition device_elements (device : Val) : list string :=
  match device with
  | VStr d => [toLowerCase_string d +:+ "-last-update"; toLowerCase_string d +:+ "-status"]
  | _ => []
  end.

(** The elements that belong to a sensor, by its kind. *)
Definition sensor_elements (sensor : Val) : list string :=
  match sensor with
  | VStr s =>
      let p := toLowerCase_string s in
      if one_of s ["DHT1"; "DHT2"; "DHT3"] then [p +:+ "-temp"; p +:+ "-hum"]
      else if one_of s ["DPIR1"; "DPIR2"; "DPIR3"] then [p +:+ "-state"; "card-" +:+ p]
      else if one_of s ["DS1"; "DS2"] then [p +:+ "-state"; "card-" +:+ p]
      else if one_of s ["DUS1"; "DUS2"] then [p +:+ "-value"]
      else if String.eqb s "DL" then ["dl-state"]
      else if String.eqb s "DB" then ["db-state"]
      else if String.eqb s "BRGB" then ["rgb-preview"]
      else if String.eqb s "GSG" then ["gsg-value"]
      else if String.eqb s "4SD" then ["timer-display"]
      else []
  | _ => []
  end.

(** The number that the decimal digits [d] denote after the digits
    already read, which denote [a]. *)
Fixpoint uint_value (d : Decimal.uint) (a : Z) : Z :=
  match d with
  | Decimal.Nil => a
  | Decimal.D0 l => uint_value l (10 * a)
  | Decimal.D1 l => uint_value l (10 * a + 1)
  | Decimal.D2 l => uint_value l (10 * a + 2)
  | Decimal.D3 l => uint_value l (10 * a + 3)
  | Decimal.D4 l => uint_value l (10 * a + 4)
  | Decimal.D5 l => uint_value l (10 * a + 5)
  | Decimal.D6 l => uint_value l (10 * a + 6)
  | Decimal.D7 l => uint_value l (10 * a + 7)
  | Decimal.D8 l => uint_value l (10 * a + 8)
  | Decimal.D9 l => uint_value l (10 * a + 9)
  end.

(** A text that does not go on with a decimal digit. *)
Definition no_digit_first (rest : string) : Prop :=
  match rest with
  | String c _ => digit_of c = None
  | EmptyString => True
  end.

(** A value that is no reference: undefined, null, a boolean, a number
    or a string. *)
Definition primitive (v : Val) : Prop := ∀ l, v ≠ VRef l.

(** An object literal whose members are primitive, as the controls pass
    for the parameters of a command. *)
Definition flat_object (h : Heap) (l : loc) : Prop :=
  ∃ ps, h !! l = Some (mkObj None ps) ∧ Forall (λ p, primitive (snd p)) ps.

(** The text of the object [{ target, command, params }] around the text
    of its parameters. *)
Definition command_text (target command params_text : string) : string :=
  "{" +:+ join "," [JSON.QuoteJSONString "target" +:+ ":" +:+ JSON.QuoteJSONString target;
                    JSON.QuoteJSONString "command" +:+ ":" +:+ JSON.QuoteJSONString command;
                    JSON.QuoteJSONString "params" +:+ ":" +:+ params_text]
      +:+ "}".

End Terms.
End Terms.
Export Terms.

(** ** Further concrete cases *)

Module Cases.

(** A batch from PI1 whose second element is the number 5. *)
Definition broken_batch : Json :=
  JObj [("device", JStr "PI1");
        ("items", JArr [JObj [("sensor", JStr "DS1"); ("value", JNum (of_Z 1))];
                        JNum (of_Z 5);
                        JObj [("sensor", JStr "DS2"); ("value", JNum (of_Z 1))]])].

(** The client with three listeners and the decoded broken batch: the
    objects at the references 0 and 1, the array at 2, the envelope at 3. *)
Definition with_broken_batch : World :=
  snd (Sample.decoded broken_batch Sample.three_listeners).

(** Listeners that log, except that listener 1 raises on the object at
    the reference 1. *)
Definition picky : Listeners :=
  λ cb data,
    match cb, data with
    | 1%nat, VRef 1%nat => throw (Thrown (VStr "boom"))
    | _, _ => emit (EConsole "log" "seen")
    end.

(** A browser that parses one more text: a string where an object is
    expected. *)
Definition platform : Platform :=
  {| JSON_parse := λ text, if String.eqb text "5" then Some (JNum (of_Z 5))
                            else JSON_parse (Platform := Sample.platform) text;
     StringToNumber := λ _, nan;
     Number_toString_other := λ _, "<number>";
     Number_toFixed := λ _ _, "<number>";
     String_toLowerCase_other := λ s, s;
     parseInt_other := λ _, nan |}.

(** The application with the decoded batch of [Sample.batch]: the items
    at the references 0 and 1, the array at 2, the envelope at 3. *)
Definition app_with_batch : World :=
  snd (Sample.decoded Sample.batch Sample.started).

(** A batch from PI1 whose first item is a colour without a value, and
    whose second is a door sensor. *)
Definition stalled_batch : Json :=
  JObj [("device", JStr "PI1");
        ("items", JArr [JObj [("sensor", JStr "BRGB"); ("value", JNull)];
                        JObj [("sensor", JStr "DS1"); ("value", JNum (of_Z 1))]])].

(** A batch from PI1 whose first item, with an empty device, is a colour
    without a value, and whose second, a motion sensor, has the device
    null. *)
Definition halted_batch : Json :=
  JObj [("device", JStr "PI1");
        ("items", JArr [JObj [("sensor", JStr "BRGB"); ("value", JNull);
                              ("device", JStr "")];
                        JObj [("sensor", JStr "DPIR1"); ("value", JNum (of_Z 1));
                              ("device", JNull)]])].

End Cases.

Module Desk.

(** A page with the alarm badge and card, the timer display and the
    elements of the door sensor DS1, the badge and the display carrying
    classes of an earlier state. *)
Definition panel : gmap string Element :=
  list_to_map
    [("alarm-state", {| textContent := "ARMED"; className := "badge fs-6 bg-primary";
                        backgroundColor := ""; icon := None |});
     ("alarm-card", Sample.blank);
     ("timer-display", {| textContent := "00:00"; className := "display-6 timer-blink";
                          backgroundColor := ""; icon := None |});
     ("ds1-state", Sample.blank);
     ("card-ds1", Sample.blank);
     ("pi1-status", Sample.blank);
     ("mqtt-status", Sample.blank)].

(** A timer item, an alarm payload, and a reading whose device is the
    number 5. *)
Definition objects : Heap :=
  [mkObj None [("sensor", VStr "4SD"); ("action", VStr "blink_stop")];
   mkObj None [("state", VStr "GRACE")];
   mkObj None [("device", VNum (of_Z 5)); ("sensor", VStr "DS1"); ("value", VNum (of_Z 1))]].

Definition world : World := set_heap objects (App.start "" panel 0).

(** The fields of the controls, with a toast container that is empty. *)
Definition form (pin minutes : string) : Controls.Ui :=
  {| Controls.alarm_pin := Some pin; Controls.timer_minutes := Some minutes;
     Controls.toasts := Some [] |}.

(** A person count as an object, alone in the store. *)
Definition counted : World :=
  set_heap [mkObj None [("count", VNum (of_Z 42))]] world.

(** The panel with a reading of the door sensor from PI1, alone in the
    store. *)
Definition reading : World :=
  set_heap [mkObj None [("device", VStr "PI1"); ("sensor", VStr "DS1");
                        ("value", VNum (of_Z 1))]] world.

(** The connected application with the parameters of a command, an
    object literal, alone in the store. *)
Definition ordering : World :=
  set_heap [mkObj None [("seconds", VNum (of_Z 30))]] Sample.online.

End Desk.

(** * Properties *)

(** ** Computations *)

Section MonadFacts.

Lemma bind_run {A B} (m : M A) (k : A → M B) (w : World) :
  bind m k w =
    match m w with
    | (Ret a, w1, t1) => let '(o2, w2, t2) := k a w1 in (o2, w2, t1 ++ t2)
    | (Throw e, w1, t1) => (Throw e, w1, t1)
    end.
Proof. unfold bind. destruct (m w) as [[[a|e] w1] t1]; reflexivity. Qed.

Lemma bind_get {A} (g : World → M A) (w : World) : bind get g w = g w w.
Proof. unfold bind, get. destruct (g w w) as [[o w'] t]; reflexivity. Qed.

Lemma bind_ret {A B} (a : A) (k : A → M B) (w : World) : bind (ret a) k w = k a w.
Proof. unfold bind, ret. destruct (k a w) as [[o w'] t]; reflexivity. Qed.

Lemma set_document_id (w : World) : set_document (document w) w = w.
Proof. destruct w; reflexivity. Qed.

Lemma set_heap_id (w : World) : set_heap (heap w) w = w.
Proof. destruct w; reflexivity. Qed.

End MonadFacts.

Ltac run :=
  repeat (unfold bind, ret, get, modify, emit, lift, throw, try_catch; simpl).

(** Reduce the plumbing of a computation, and nothing else. *)
Ltac mstep := cbn [bind ret get modify emit lift throw try_catch app].

(** Run the first computation of a sequence by its equation [L]. *)
Ltac mrun L := rewrite bind_run, L; mstep.

(** ** C1: the fan-out *)

Section FanOut.
Context {listeners : Listeners}.

Lemma invoke_run (cb : cbid) (data : Val) (w : World) :
  SmartHomeMQTT.invoke cb data w =
    (outcome_of (call_listener cb data w), world_of (call_listener cb data w),
     [EInvoke cb data (heap w) (trace_of (call_listener cb data w))]).
Proof.
  unfold SmartHomeMQTT.invoke, outcome_of, world_of, trace_of.
  destruct (call_listener cb data w) as [[o w'] t]; reflexivity.
Qed.

(** A fan-out over callbacks that keep the registry reads, at each index,
    the callback that was registered there when it began. *)
Lemma forEach_from_invoke_all (event : string) (data : Val) (rest : list cbid) :
  ∀ (i : nat) (w : World) (cbs : list cbid),
    _callbacks (router w) !! event = Some cbs →
    drop i cbs = rest →
    Forall keeps_registry rest →
    forEach_from (λ i w, cbs' ← _callbacks (router w) !! event; cbs' !! i)
                 (λ cb, SmartHomeMQTT.invoke cb data) i (length rest) w
    = invoke_all rest data w.
Proof.
  induction rest as [|cb rest IH]; intros i w cbs Hreg Hdrop Hkeep.
  - reflexivity.
  - assert (Hi : cbs !! i = Some cb).
    { pose proof (lookup_drop cbs i 0) as H. rewrite Hdrop, Nat.add_0_r in H.
      symmetry. exact H. }
    assert (Hd : drop (S i) cbs = rest).
    { replace (S i) with (i + 1)%nat by lia.
      rewrite <- drop_drop, Hdrop. reflexivity. }
    apply Forall_cons in Hkeep as [Hcb Hrest].
    simpl. unfold bind at 1 2. simpl. rewrite Hreg. simpl. rewrite Hi.
    rewrite invoke_run. unfold bind at 1.
    rewrite invoke_run.
    destruct (outcome_of (call_listener cb data w)) as [[]|e] eqn:Ho.
    + specialize (Hcb data w).
      rewrite (IH (S i) (world_of (call_listener cb data w)) cbs);
        [ | rewrite Hcb; exact Hreg | exact Hd | exact Hrest ].
      destruct (invoke_all rest data (world_of (call_listener cb data w))) as [[o2 w2] t2].
      reflexivity.
    + reflexivity.
Qed.

Lemma fire_invoke_all (event : string) (data : Val) (w : World) (cbs : list cbid) :
  _callbacks (router w) !! event = Some cbs →
  Forall keeps_registry cbs →
  SmartHomeMQTT._fire event data w = invoke_all cbs data w.
Proof.
  intros Hreg Hkeep. unfold SmartHomeMQTT._fire, forEach.
  unfold bind at 1. simpl. rewrite Hreg.
  rewrite (forEach_from_invoke_all event data cbs 0 w cbs Hreg (drop_0 cbs) Hkeep).
  destruct (invoke_all cbs data w) as [[o w'] t]. reflexivity.
Qed.

Lemma invoke_all_cons (cb : cbid) (cbs : list cbid) (data : Val) (w : World) :
  invoke_all (cb :: cbs) data w =
    match outcome_of (call_listener cb data w) with
    | Ret _ =>
        let r := invoke_all cbs data (world_of (call_listener cb data w)) in
        (outcome_of r, world_of r,
         EInvoke cb data (heap w) (trace_of (call_listener cb data w)) :: trace_of r)
    | Throw e =>
        (Throw e, world_of (call_listener cb data w),
         [EInvoke cb data (heap w) (trace_of (call_listener cb data w))])
    end.
Proof.
  simpl. rewrite bind_run, invoke_run.
  destruct (outcome_of (call_listener cb data w)) as [[]|e]; [|reflexivity].
  destruct (invoke_all cbs data _) as [[o2 w2] t2]. reflexivity.
Qed.



(** The listeners of [pre] return, the next one raises: the loop ends
    there. *)
Lemma forEach_from_raise (event : string) (data : Val) (c : cbid) (post : list cbid)
    (e : Exn) (w2 : World) (t2 : list Event) (pre : list cbid) :
  ∀ (i : nat) (w w1 : World) (t1 : list Event) (cbs : list cbid),
    _callbacks (router w) !! event = Some cbs →
    drop i cbs = pre ++ c :: post →
    Forall keeps_registry pre →
    invoke_all pre data w = (Ret tt, w1, t1) →
    call_listener c data w1 = (Throw e, w2, t2) →
    forEach_from (λ i w, cbs' ← _callbacks (router w) !! event; cbs' !! i)
                 (λ cb, SmartHomeMQTT.invoke cb data) i (length (pre ++ c :: post)) w
    = (Throw e, w2, t1 ++ [EInvoke c data (heap w1) t2]).
Proof.
  induction pre as [|cb pre IH]; intros i w w1 t1 cbs Hreg Hdrop Hkeep Hpre Hc.
  - simpl in Hpre. unfold ret in Hpre. injection Hpre as <- <-.
    assert (Hi : cbs !! i = Some c).
    { pose proof (lookup_drop cbs i 0) as H. rewrite Hdrop, Nat.add_0_r in H.
      symmetry. exact H. }
    simpl. unfold bind at 1 2. simpl. rewrite Hreg. simpl. rewrite Hi.
    rewrite invoke_run, Hc. reflexivity.
  - assert (Hi : cbs !! i = Some cb).
    { pose proof (lookup_drop cbs i 0) as H. rewrite Hdrop, Nat.add_0_r in H.
      symmetry. exact H. }
    assert (Hd : drop (S i) cbs = pre ++ c :: post).
    { replace (S i) with (i + 1)%nat by lia.
      rewrite <- drop_drop, Hdrop. reflexivity. }
    apply Forall_cons in Hkeep as [Hcb Hrest].
    rewrite invoke_all_cons in Hpre.
    simpl. unfold bind at 1 2. simpl. rewrite Hreg. simpl. rewrite Hi.
    rewrite invoke_run.
    destruct (outcome_of (call_listener cb data w)) as [[]|e'] eqn:Ho; [|discriminate].
    destruct (invoke_all pre data _) as [[o3 w3] t3] eqn:Hrun.
    unfold outcome_of at 1, world_of at 1, trace_of at 2 in Hpre. simpl in Hpre.
    injection Hpre as -> -> <-.
    specialize (Hcb data w).
    rewrite (IH (S i) (world_of (call_listener cb data w)) w1 t3 cbs);
      [ reflexivity | rewrite Hcb; exact Hreg | exact Hd | exact Hrest | exact Hrun | exact Hc ].
Qed.


(** A fan-out does nothing but call callbacks with its payload. *)
Lemma forEach_from_calls_with {A} (f : A → cbid) (data : Val)
    (read : nat → World → option A) (n : nat) :
  ∀ (i : nat) (w : World),
    Forall (calls_with data)
      (trace_of (forEach_from read (λ a, SmartHomeMQTT.invoke (f a) data) i n w)).
Proof.
  induction n as [|n IH]; intros i w.
  - constructor.
  - simpl. rewrite bind_run. unfold bind at 1. simpl.
    destruct (read i w) as [a|].
    + rewrite invoke_run.
      destruct (outcome_of (call_listener (f a) data w)) as [[]|e].
      * specialize (IH (S i) (world_of (call_listener (f a) data w))).
        destruct (forEach_from _ _ _ _ _) as [[o2 w2] t2].
        unfold trace_of in *. simpl in *. constructor; [reflexivity|exact IH].
      * unfold trace_of. simpl. constructor; [reflexivity|constructor].
    + unfold ret at 1. specialize (IH (S i) w).
      destruct (forEach_from _ _ _ _ _) as [[o2 w2] t2]. exact IH.
Qed.

Lemma fire_calls_with (event : string) (data : Val) (w : World) :
  Forall (calls_with data) (trace_of (SmartHomeMQTT._fire event data w)).
Proof.
  unfold SmartHomeMQTT._fire, forEach. rewrite bind_run. simpl.
  destruct (_callbacks (router w) !! event) as [cbs|].
  - pose proof (forEach_from_calls_with (λ cb, cb) data
                  (λ i w, cbs' ← _callbacks (router w) !! event; cbs' !! i)
                  (length cbs) 0 w) as H.
    destruct (forEach_from _ _ _ _ _) as [[o2 w2] t2]. exact H.
  - destruct (inherited event); constructor.
Qed.

Lemma calls_with_subscriptions (data : Val) (t : list Event) :
  Forall (calls_with data) t → subscriptions t = [].
Proof.
  induction 1 as [|e t He _ IH]; [reflexivity|].
  destruct e; try contradiction. exact IH.
Qed.

Lemma calls_with_invocations (data : Val) (t : list Event) :
  Forall (calls_with data) t → Forall (λ i, snd (fst i) = data) (invocations t).
Proof.
  induction 1 as [|e t He _ IH]; [constructor|].
  destruct e; try contradiction. unfold invocations. simpl.
  constructor; [exact He|exact IH].
Qed.

End FanOut.



(** ** C5: the transport reports "connected" *)

Section Connected.
Context {listeners : Listeners}.

(** C5 (as the code has it): on "connect" the client subscribes to exactly
    three topics (sensors, alarm state, person count; the fourth configured
    topic is the one it publishes commands to) and then fans out
    "onConnect" with no payload. *)
Theorem connect_subscribes_three_topics (w : World) :
  client (router w) = true →
  let t := topics (config (router w)) in
  let w1 := set_router (SmartHomeMQTT.set_connected true (router w)) w in
  let fan := SmartHomeMQTT._fire "onConnect" VUndefined w1 in
  SmartHomeMQTT.client_on_connect w
  = (outcome_of fan, world_of fan,
     [EConsole "log" "[MQTT] Connected";
      ESubscribe (sensors t); ESubscribe (alarmState t); ESubscribe (personCount t)]
       ++ trace_of fan)
  ∧ subscriptions (trace_of (SmartHomeMQTT.client_on_connect w))
    = [sensors t; alarmState t; personCount t]
  ∧ Forall (λ i, snd (fst i) = VUndefined)
      (invocations (trace_of (SmartHomeMQTT.client_on_connect w))).
Proof.
  intros Hclient t w1 fan.
  assert (Hrun : SmartHomeMQTT.client_on_connect w
                 = (outcome_of fan, world_of fan,
                    [EConsole "log" "[MQTT] Connected";
                     ESubscribe (sensors t); ESubscribe (alarmState t);
                     ESubscribe (personCount t)] ++ trace_of fan)).
  { subst fan w1 t.
    unfold SmartHomeMQTT.client_on_connect, SmartHomeMQTT.client_subscribe.
    repeat (run; rewrite ?Hclient).
    destruct (SmartHomeMQTT._fire _ _ _) as [[o2 w2] t2]. reflexivity. }
  pose proof (fire_calls_with "onConnect" VUndefined w1) as Hfan. fold fan in Hfan.
  split; [exact Hrun|]. rewrite Hrun. unfold trace_of at 1 3. simpl. split.
  - rewrite (calls_with_subscriptions _ _ Hfan). reflexivity.
  - apply (calls_with_invocations _ _ Hfan).
Qed.

End Connected.

Lemma connect_subscribes_three_topics_witness :
  client (router Sample.started) = true
  ∧ subscriptions
      (trace_of (SmartHomeMQTT.client_on_connect
                   (listeners := App.listeners (platform := Sample.platform))
                   Sample.started))
    = ["iot/sensors"; "iot/alarm/state"; "iot/home/person_count"].
Proof.
  split; [vm_compute; reflexivity|].
  exact (proj1 (proj2 (connect_subscribes_three_topics
                         (listeners := App.listeners (platform := Sample.platform))
                         Sample.started eq_refl))).
Defined.

(** C5 as stated fails: the client of the application, once connected,
    has subscribed to three topics, and not to the command topic. *)
Lemma connect_does_not_subscribe_four :
  length (subscriptions
            (trace_of (SmartHomeMQTT.client_on_connect
                         (listeners := App.listeners (platform := Sample.platform))
                         Sample.started))) ≠ 4%nat
  ∧ ¬ In (webCommand (topics (config (router Sample.started))))
        (subscriptions
           (trace_of (SmartHomeMQTT.client_on_connect
                        (listeners := App.listeners (platform := Sample.platform))
                        Sample.started))).
Proof.
  split.
  - vm_compute. discriminate.
  - vm_compute. intros [H|[H|[H|[]]]]; discriminate H.
Qed.

(** ** C4: a payload that is not JSON *)

Section Malformed.
Context {platform : Platform} {listeners : Listeners}.

Lemma try_catch_log_returns (m : M unit) (ev : Event) (w : World) :
  outcome_of (try_catch m (λ _, emit ev) w) = Ret tt.
Proof.
  unfold try_catch, outcome_of. destruct (m w) as [[[[]|e] w1] t1]; reflexivity.
Qed.

Lemma message_handler_returns (topic payload : string) (w : World) :
  outcome_of (SmartHomeMQTT.client_on_message topic payload w) = Ret tt.
Proof. apply try_catch_log_returns. Qed.

(** C4: when the bytes of a message do not parse, the handler returns
    without raising, having only logged a warning; the client, the store
    and the page are as before, so that the next message, on any topic, is
    processed as if the malformed one had not arrived.  The handler raises
    for no message at all. *)
Theorem malformed_message_is_dropped (topic payload : string) (w : World) :
  JSON_parse payload = None →
  SmartHomeMQTT.client_on_message topic payload w
  = (Ret tt, w, [EConsole "warn" "[MQTT] Parse error:"])
  ∧ (∀ topic' payload',
       (SmartHomeMQTT.client_on_message topic payload ;;;
        SmartHomeMQTT.client_on_message topic' payload') w
       = let next := SmartHomeMQTT.client_on_message topic' payload' w in
         (outcome_of next, world_of next,
          EConsole "warn" "[MQTT] Parse error:" :: trace_of next))
  ∧ (∀ topic' payload' w',
       outcome_of (SmartHomeMQTT.client_on_message topic' payload' w') = Ret tt).
Proof.
  intros Hbad.
  assert (Hrun : SmartHomeMQTT.client_on_message topic payload w
                 = (Ret tt, w, [EConsole "warn" "[MQTT] Parse error:"])).
  { unfold SmartHomeMQTT.client_on_message. rewrite Hbad. reflexivity. }
  split; [exact Hrun|]. split.
  - intros topic' payload'. rewrite bind_run, Hrun.
    destruct (SmartHomeMQTT.client_on_message topic' payload' w) as [[o2 w2] t2].
    reflexivity.
  - intros topic' payload' w'. apply message_handler_returns.
Qed.

End Malformed.

Lemma malformed_message_is_dropped_witness :
  JSON_parse (Platform := Sample.platform) "{oops" = None
  ∧ SmartHomeMQTT.client_on_message (platform := Sample.platform)
      (listeners := App.listeners (platform := Sample.platform))
      "iot/sensors" "{oops" Sample.started
    = (Ret tt, Sample.started, [EConsole "warn" "[MQTT] Parse error:"]).
Proof.
  split; [reflexivity|].
  exact (proj1 (malformed_message_is_dropped (platform := Sample.platform)
                  (listeners := App.listeners (platform := Sample.platform))
                  "iot/sensors" "{oops" Sample.started eq_refl)).
Defined.

(** ** C8: publishing a command *)

Section Commands.
Context {platform : Platform}.



End Commands.


(** ** The dashboard's writes to the page *)

Section DashboardFacts.
Context {platform : Platform}.

(** Writing to an element that the page does not have changes nothing, so
    a guarded write is the update of the page at that identifier. *)
Lemma update_absent (id : string) (f : Element → Element) (w : World) :
  document w !! id = None →
  set_document (alter f id (document w)) w = w.
Proof. intros H. rewrite (alter_id' f _ _ H). apply set_document_id. Qed.

Lemma setText_run (id : string) (text : Val) (w : World) :
  Dashboard._setText id text w
  = (Ret tt,
     set_document (alter (set_textContent (text_of (heap w) text)) id (document w)) w,
     []).
Proof.
  unfold Dashboard._setText, getElementById, update_element. run.
  destruct (document w !! id) eqn:Hel; run; [reflexivity|].
  rewrite (update_absent _ _ _ Hel). reflexivity.
Qed.

Lemma updatePiStatus_run (device : string) (online : bool) (w : World) :
  Dashboard._updatePiStatus (VStr device) online w
  = (Ret tt,
     set_document
       (alter (show_status online) (toLowerCase_string device +:+ "-status") (document w)) w,
     []).
Proof.
  unfold Dashboard._updatePiStatus, getElementById, update_element. run.
  destruct (document w !! _) eqn:Hel; run; [reflexivity|].
  rewrite (update_absent _ _ _ Hel). reflexivity.
Qed.

End DashboardFacts.

(** ** C7: the person count *)

Section PersonCount.
Context {platform : Platform}.

Lemma lookup_fresh {A} (h : list A) (x : A) : (h ++ [x]) !! length h = Some x.
Proof. rewrite lookup_app_r by lia. rewrite Nat.sub_diag. reflexivity. Qed.

Lemma updatePersonCount_run (data count : Val) (w : World) :
  Dashboard.count_of data w = (Ret count, w, []) →
  Dashboard.updatePersonCount data w
  = (Ret tt,
     set_document
       (alter (set_textContent
                 (text_of (heap w) (if isNaN (heap w) count then VStr "?" else count)))
              "person-count" (document w)) w,
     []).
Proof.
  intros H. unfold Dashboard.updatePersonCount, bind. rewrite H.
  unfold get. rewrite setText_run. reflexivity.
Qed.

(** C7: the number 7, the string "7" and the object with count 7 all give
    the count 7, which is shown as "7"; the string "abc" gives NaN, which
    is shown as "?"; none of them raises. *)
Theorem person_count_normalized (w : World) :
  let seven := VNum (of_Z 7) in
  let '(wrapped, h) := alloc_json (JObj [("count", JNum (of_Z 7))]) (heap w) in
  let shows (text : string) (w : World) :=
    (Ret tt, set_document (alter (set_textContent text) "person-count" (document w)) w,
     @nil Event) in
  Dashboard.count_of seven w = (Ret seven, w, [])
  ∧ Dashboard.count_of (VStr "7") w = (Ret seven, w, [])
  ∧ Dashboard.count_of wrapped (set_heap h w) = (Ret seven, set_heap h w, [])
  ∧ Dashboard.count_of (VStr "abc") w = (Ret (VNum nan), w, [])
  ∧ Dashboard.updatePersonCount seven w = shows "7" w
  ∧ Dashboard.updatePersonCount (VStr "7") w = shows "7" w
  ∧ Dashboard.updatePersonCount wrapped (set_heap h w) = shows "7" (set_heap h w)
  ∧ Dashboard.updatePersonCount (VStr "abc") w = shows "?" w.
Proof.
  change (alloc_json (JObj [("count", JNum (of_Z 7))]) (heap w))
    with (VRef (length (heap w)), heap w ++ [mkObj None [("count", VNum (of_Z 7))]]).
  cbv zeta beta iota.
  assert (H1 : Dashboard.count_of (VNum (of_Z 7)) w = (Ret (VNum (of_Z 7)), w, []))
    by reflexivity.
  assert (H2 : Dashboard.count_of (VStr "7") w = (Ret (VNum (of_Z 7)), w, []))
    by reflexivity.
  assert (H3 : Dashboard.count_of (VRef (length (heap w)))
                 (set_heap (heap w ++ [mkObj None [("count", VNum (of_Z 7))]]) w)
               = (Ret (VNum (of_Z 7)),
                  set_heap (heap w ++ [mkObj None [("count", VNum (of_Z 7))]]) w, [])).
  { unfold Dashboard.count_of, GetV. run. rewrite lookup_fresh. reflexivity. }
  assert (H4 : Dashboard.count_of (VStr "abc") w = (Ret (VNum nan), w, []))
    by reflexivity.
  repeat split; try assumption.
  - rewrite (updatePersonCount_run _ _ _ H1). reflexivity.
  - rewrite (updatePersonCount_run _ _ _ H2). reflexivity.
  - rewrite (updatePersonCount_run _ _ _ H3). reflexivity.
  - rewrite (updatePersonCount_run _ _ _ H4). reflexivity.
Qed.

End PersonCount.

(** ** C9: the colour of the RGB light *)

Section Colour.
Context {platform : Platform}.


End Colour.

(** *** Rounding the product of a fraction and 255 *)

Section Rescaling.
Context {platform : Platform}.

Lemma digits2_pos_bounds (m : positive) :
  2 ^ (Z.pos (digits2_pos m) - 1) <= Z.pos m < 2 ^ Z.pos (digits2_pos m).
Proof.
  induction m as [m IH|m IH|]; simpl digits2_pos.
  - rewrite Pos2Z.inj_succ.
    replace (Z.succ (Z.pos (digits2_pos m)) - 1) with (Z.succ (Z.pos (digits2_pos m) - 1)) by lia.
    rewrite !Z.pow_succ_r by lia. lia.
  - rewrite Pos2Z.inj_succ.
    replace (Z.succ (Z.pos (digits2_pos m)) - 1) with (Z.succ (Z.pos (digits2_pos m) - 1)) by lia.
    rewrite !Z.pow_succ_r by lia. lia.
  - simpl. lia.
Qed.















(** *** How far the channel is from the exact product *)










End Rescaling.



(** ** C6: liveness of the PIs *)

Section Liveness.
Context {platform : Platform}.

Lemma timeAgo_run (t : Z) (w : World) :
  Dashboard._timeAgo (Some t) w = (Ret (ago (clock w) t), w, []).
Proof.
  unfold Dashboard._timeAgo, Dashboard.Date_now, ago. run.
  destruct (_ <? 5); [reflexivity|]. destruct (_ <? 60); reflexivity.
Qed.

(** Seeing a device: its time is recorded, its labels are refreshed. *)
Lemma touch_run (d : string) (w : World) :
  d ≠ "" → d ≠ "__proto__" →
  Dashboard.touch (VStr d) w = (Ret tt, seen d w, []).
Proof.
  intros Hd Hproto. unfold Dashboard.touch, Dashboard.lastUpdate_set, Dashboard.Date_now.
  assert (Ht : truthy (VStr d) = true).
  { simpl. destruct (String.eqb_spec d ""); [contradiction|reflexivity]. }
  rewrite Ht.
  assert (Hp : String.eqb (ToString (heap w) (VStr d)) "__proto__" = false).
  { simpl. destruct (String.eqb_spec d "__proto__"); [contradiction|reflexivity]. }
  mstep. change (ToString (heap w) (VStr d)) with d in *. rewrite Hp.
  mstep. unfold toLowerCase. mstep.
  mrun timeAgo_run. mrun setText_run. rewrite updatePiStatus_run.
  unfold seen, ago. simpl. rewrite Z.sub_diag. reflexivity.
Qed.

Lemma refresh_step (pi : string) (w : World) :
  Dashboard.refresh pi w
  = (Ret tt, set_document (refresh_pi (clock w) (lastUpdate w) pi (document w)) w, []).
Proof.
  unfold Dashboard.refresh, refresh_pi, Dashboard.lastUpdate_get, Dashboard.Date_now. mstep.
  destruct (mjoin (lastUpdate w !! pi)) as [t|]; mstep.
  - mrun timeAgo_run. mrun setText_run. rewrite updatePiStatus_run. reflexivity.
  - rewrite set_document_id. reflexivity.
Qed.

Lemma refreshTimestamps_run (w : World) :
  Dashboard.refreshTimestamps w
  = (Ret tt, set_document (refresh_page (clock w) (lastUpdate w) (document w)) w, []).
Proof.
  unfold Dashboard.refreshTimestamps, forEach, refresh_page. cbn [forEach_from length].
  rewrite bind_get. simpl (_ !! _). mrun (refresh_step "PI1" w).
  simpl (_ !! _). mrun (refresh_step "PI2").
  simpl (_ !! _). mrun (refresh_step "PI3").
  reflexivity.
Qed.

Lemma tick_run (now : Z) (w : World) :
  App.tick now w
  = (Ret tt, set_document (refresh_page now (lastUpdate w) (document w)) (set_clock now w), []).
Proof.
  unfold App.tick. rewrite bind_run. unfold modify. rewrite refreshTimestamps_run.
  reflexivity.
Qed.

Lemma refresh_pi_frame (now : Z) (last : gmap string (option Z)) (pi id : string)
    (page : gmap string Element) :
  id ≠ toLowerCase_string pi +:+ "-status" →
  id ≠ toLowerCase_string pi +:+ "-last-update" →
  refresh_pi now last pi page !! id = page !! id.
Proof.
  intros H1 H2. unfold refresh_pi. destruct (mjoin (last !! pi)); [|reflexivity].
  rewrite lookup_alter_ne by congruence. rewrite lookup_alter_ne by congruence.
  reflexivity.
Qed.

Lemma refresh_pi_status (now : Z) (last : gmap string (option Z)) (pi : string)
    (page : gmap string Element) :
  toLowerCase_string pi +:+ "-status" ≠ toLowerCase_string pi +:+ "-last-update" →
  refresh_pi now last pi page !! (toLowerCase_string pi +:+ "-status")
  = match mjoin (last !! pi) with
    | Some t => show_status ((now - t) / 1000 <? 30)
                  <$> page !! (toLowerCase_string pi +:+ "-status")
    | None => page !! (toLowerCase_string pi +:+ "-status")
    end.
Proof.
  intros Hne. unfold refresh_pi. destruct (mjoin (last !! pi)); [|reflexivity].
  rewrite lookup_alter_eq. rewrite lookup_alter_ne by congruence. reflexivity.
Qed.

Lemma not_refreshed (id : string) :
  ¬ In id refreshed_ids →
  id ≠ "pi1-last-update" ∧ id ≠ "pi1-status" ∧ id ≠ "pi2-last-update"
  ∧ id ≠ "pi2-status" ∧ id ≠ "pi3-last-update" ∧ id ≠ "pi3-status".
Proof.
  intros H. repeat split; intros ->; apply H; simpl; tauto.
Qed.

Lemma refresh_page_frame (now : Z) (last : gmap string (option Z)) (id : string)
    (page : gmap string Element) :
  ¬ In id refreshed_ids → refresh_page now last page !! id = page !! id.
Proof.
  intros H. apply not_refreshed in H as (H1 & H2 & H3 & H4 & H5 & H6).
  unfold refresh_page.
  rewrite !refresh_pi_frame by assumption. reflexivity.
Qed.

(** C6 (as the code has it): a PI of the dashboard's list that was seen
    at [t0] is shown offline by a tick 31 seconds later and online by a
    tick 10 seconds later, the threshold being 30 whole seconds; a tick
    re-evaluates the PIs of the fixed list PI1, PI2, PI3 that have been
    seen, and writes to no other element of the page. *)
Theorem tick_refreshes_the_three_pis (d : string) (t0 : Z) (w : World) :
  In d ["PI1"; "PI2"; "PI3"] →
  let at_t0 := world_of (Dashboard.touch (VStr d) (set_clock t0 w)) in
  let status_id := toLowerCase_string d +:+ "-status" in
  let status_after (now : Z) :=
    textContent <$> document (world_of (App.tick now at_t0)) !! status_id in
  lastUpdate at_t0 !! d = Some (Some t0)
  ∧ status_after (t0 + 31000) = (λ _, "Offline") <$> document w !! status_id
  ∧ status_after (t0 + 10000) = (λ _, "Online") <$> document w !! status_id
  ∧ (∀ now, status_after now
            = (λ _, if (now - t0) / 1000 <? 30 then "Online" else "Offline")
                <$> document w !! status_id)
  ∧ (∀ now id, ¬ In id refreshed_ids →
       document (world_of (App.tick now at_t0)) !! id = document at_t0 !! id)
  ∧ (∀ now, outcome_of (App.tick now at_t0) = Ret tt
            ∧ lastUpdate (world_of (App.tick now at_t0)) = lastUpdate at_t0).
Proof.
  intros Hin at_t0 status_id status_after.
  assert (Hd : d ≠ "" ∧ d ≠ "__proto__").
  { destruct Hin as [<-|[<-|[<-|[]]]]; split; discriminate. }
  destruct Hd as [Hd Hproto].
  assert (Hseen : at_t0 = seen d (set_clock t0 w)).
  { unfold at_t0. rewrite (touch_run d _ Hd Hproto). reflexivity. }
  assert (Hgen : ∀ now, status_after now
            = (λ _, if (now - t0) / 1000 <? 30 then "Online" else "Offline")
                <$> document w !! status_id).
  { intros now. unfold status_after, status_id. rewrite tick_run, Hseen.
    unfold world_of, seen, refresh_page. simpl.
    destruct Hin as [<-|[<-|[<-|[]]]]; simpl.
    - rewrite !(refresh_pi_frame _ _ "PI3"), !(refresh_pi_frame _ _ "PI2") by discriminate.
      rewrite (refresh_pi_status _ _ "PI1") by discriminate.
      rewrite lookup_insert_eq. simpl.
      rewrite lookup_alter_eq, lookup_alter_ne by discriminate.
      destruct (document w !! _) as [el|]; simpl; [|reflexivity].
      destruct (_ <? 30); reflexivity.
    - rewrite !(refresh_pi_frame _ _ "PI3") by discriminate.
      rewrite (refresh_pi_status _ _ "PI2") by discriminate.
      rewrite lookup_insert_eq. simpl.
      rewrite !(refresh_pi_frame _ _ "PI1") by discriminate.
      rewrite lookup_alter_eq, lookup_alter_ne by discriminate.
      destruct (document w !! _) as [el|]; simpl; [|reflexivity].
      destruct (_ <? 30); reflexivity.
    - rewrite (refresh_pi_status _ _ "PI3") by discriminate.
      rewrite lookup_insert_eq. simpl.
      rewrite !(refresh_pi_frame _ _ "PI2"), !(refresh_pi_frame _ _ "PI1") by discriminate.
      rewrite lookup_alter_eq, lookup_alter_ne by discriminate.
      destruct (document w !! _) as [el|]; simpl; [|reflexivity].
      destruct (_ <? 30); reflexivity. }
  split; [rewrite Hseen; unfold seen; simpl; apply lookup_insert_eq|].
  split.
  { rewrite Hgen. replace (t0 + 31000 - t0) with 31000 by lia. reflexivity. }
  split.
  { rewrite Hgen. replace (t0 + 10000 - t0) with 10000 by lia. reflexivity. }
  split; [exact Hgen|]. split.
  - intros now id Hid. rewrite tick_run. unfold world_of. simpl.
    apply refresh_page_frame. exact Hid.
  - intros now. rewrite tick_run. split; reflexivity.
Qed.

End Liveness.

Lemma tick_refreshes_the_three_pis_witness :
  In "PI1" ["PI1"; "PI2"; "PI3"]
  ∧ textContent <$>
      document (world_of (App.tick (platform := Sample.platform) (1000 + 31000)
                            (world_of (Dashboard.touch (platform := Sample.platform)
                                         (VStr "PI1") (set_clock 1000 Sample.started)))))
        !! "pi1-status"
    = Some "Offline"
  ∧ textContent <$>
      document (world_of (App.tick (platform := Sample.platform) (1000 + 10000)
                            (world_of (Dashboard.touch (platform := Sample.platform)
                                         (VStr "PI1") (set_clock 1000 Sample.started)))))
        !! "pi1-status"
    = Some "Online".
Proof.
  pose proof (tick_refreshes_the_three_pis (platform := Sample.platform)
                "PI1" 1000 Sample.started (or_introl eq_refl)) as (_ & H31 & H10 & _).
  split; [left; reflexivity|]. split; [exact H31 | exact H10].
Defined.

(** C6 as stated fails for a device outside the fixed list: PI4 is seen
    at time 0 and shown online; the tick 31 seconds later leaves it
    online. *)
Lemma tick_ignores_other_devices :
  let '(item, h) :=
    alloc_json (JObj [("device", JStr "PI4"); ("sensor", JStr "DS1");
                      ("value", JNum (of_Z 1))]) (heap Sample.started) in
  let at_0 := world_of (Dashboard.updateSensor (platform := Sample.platform) item
                          (set_heap h Sample.started)) in
  let later := world_of (App.tick (platform := Sample.platform) 31000 at_0) in
  lastUpdate at_0 !! "PI4" = Some (Some 0)
  ∧ textContent <$> document at_0 !! "pi4-status" = Some "Online"
  ∧ clock later = 31000
  ∧ textContent <$> document later !! "pi4-status" = Some "Online".
Proof. vm_compute. repeat split; reflexivity. Qed.

(** ** Batches of sensor items *)

Section Batches.
Context {listeners : Listeners}.

Lemma observer_keeps_registry (cb : cbid) : observer cb → keeps_registry cb.
Proof.
  intros H data w. destruct (H data w) as (w' & t & Hrun & Hr & _).
  rewrite Hrun. exact Hr.
Qed.

Lemma invoke_all_observers (data : Val) (cbs : list cbid) :
  Forall observer cbs →
  ∀ w, ∃ w' T,
    invoke_all cbs data w = (Ret tt, w', T)
    ∧ router w' = router w ∧ heap w' = heap w
    ∧ invocations T = (λ cb, (cb, data, heap w)) <$> cbs.
Proof.
  induction cbs as [|cb cbs IH]; intros Hobs w.
  - exists w, []. repeat split.
  - apply Forall_cons in Hobs as [Hcb Hrest].
    destruct (Hcb data w) as (w1 & t1 & Hrun & Hr1 & Hh1).
    destruct (IH Hrest w1) as (w2 & T2 & Hrun2 & Hr2 & Hh2 & Hinv).
    exists w2, (EInvoke cb data (heap w) t1 :: T2).
    rewrite invoke_all_cons, Hrun. unfold outcome_of, world_of, trace_of. simpl.
    rewrite Hrun2. simpl.
    repeat split; [congruence | congruence |].
    unfold invocations in *. simpl. rewrite Hinv, Hh1. reflexivity.
Qed.

Lemma fire_observers (event : string) (data : Val) (cbs : list cbid) (w : World) :
  _callbacks (router w) !! event = Some cbs →
  Forall observer cbs →
  ∃ w' T,
    SmartHomeMQTT._fire event data w = (Ret tt, w', T)
    ∧ router w' = router w ∧ heap w' = heap w
    ∧ invocations T = (λ cb, (cb, data, heap w)) <$> cbs.
Proof.
  intros Hreg Hobs.
  rewrite (fire_invoke_all event data w cbs Hreg).
  - apply invoke_all_observers. exact Hobs.
  - eapply Forall_impl; [exact Hobs|]. apply observer_keeps_registry.
Qed.

Lemma GetV_run (l : loc) (o : Obj) (k : string) (w : World) :
  heap w !! l = Some o →
  GetV (VRef l) k w = (Ret (field o k), w, []).
Proof. intros Hl. unfold GetV, get_prop. mstep. rewrite Hl. reflexivity. Qed.

Lemma PutV_run (l : loc) (o : Obj) (k : string) (x : Val) (w : World) :
  heap w !! l = Some o →
  PutV (VRef l) k x w
  = (Ret tt, set_heap (<[l := mkObj (elems o) (assoc_set k x (props o))]> (heap w)) w, []).
Proof. intros Hl. unfold PutV, set_prop. mstep. rewrite Hl. reflexivity. Qed.

Lemma resolve_keeps_elems (device : Val) (h : Heap) (l la : loc) (es : list Val) :
  (∃ aps, h !! la = Some (mkObj (Some es) aps)) →
  ∃ aps, resolve device h l !! la = Some (mkObj (Some es) aps).
Proof.
  intros [aps Hla]. unfold resolve. destruct (h !! l) as [o|] eqn:Hl; [|eauto].
  destruct (decide (l = la)) as [->|Hne].
  - rewrite list_lookup_insert_eq by (eapply lookup_lt_Some; eassumption).
    rewrite Hla in Hl. injection Hl as <-. simpl. eauto.
  - rewrite list_lookup_insert_ne by assumption. eauto.
Qed.

Lemma resolve_keeps_allocated (device : Val) (h : Heap) (l l' : loc) :
  is_Some (h !! l') → is_Some (resolve device h l !! l').
Proof.
  intros Hl'. unfold resolve. destruct (h !! l) as [o|] eqn:Hl; [|assumption].
  destruct (decide (l = l')) as [->|Hne].
  - rewrite list_lookup_insert_eq by (eapply lookup_lt_Some; eassumption). eauto.
  - rewrite list_lookup_insert_ne by assumption. assumption.
Qed.

Lemma invocations_app (t1 t2 : list Event) :
  invocations (t1 ++ t2) = invocations t1 ++ invocations t2.
Proof. unfold invocations. apply omap_app. Qed.

Lemma refs_of_Some (es : list Val) (ls : list loc) :
  refs_of es = Some ls → es = VRef <$> ls.
Proof.
  revert ls. induction es as [|v es IH]; intros ls H.
  - injection H as <-. reflexivity.
  - destruct v; try discriminate. simpl in H.
    destruct (refs_of es) as [ls'|]; [|discriminate].
    injection H as <-. simpl. f_equal. apply IH. reflexivity.
Qed.

Lemma alloc_run (o : Obj) (w : World) :
  alloc o w = (Ret (VRef (length (heap w))), set_heap (heap w ++ [o]) w, []).
Proof. reflexivity. Qed.

(** *** The store after [resolve] *)

Lemma assoc_get_set_eq (k : string) (v : Val) (ps : list (string * Val)) :
  assoc_get k (assoc_set k v ps) = Some v.
Proof.
  unfold assoc_get. induction ps as [|[k' v'] ps IH]; simpl.
  - rewrite String.eqb_refl. reflexivity.
  - destruct (String.eqb k' k) eqn:Hk; simpl.
    + rewrite String.eqb_refl. reflexivity.
    + rewrite Hk. exact IH.
Qed.

Lemma field_at_resolve_same (device : Val) (h : Heap) (l : loc) :
  is_Some (h !! l) →
  field_at (resolve device h l) l "device" = or_else (field_at h l "device") device.
Proof.
  intros [o Hl]. unfold resolve, field_at. rewrite Hl.
  rewrite list_lookup_insert_eq by (eapply lookup_lt_Some; eassumption).
  unfold field. simpl. rewrite assoc_get_set_eq. reflexivity.
Qed.

Lemma field_at_resolve_other (device : Val) (h : Heap) (l l' : loc) (k : string) :
  l ≠ l' → field_at (resolve device h l) l' k = field_at h l' k.
Proof.
  intros Hne. unfold resolve, field_at. destruct (h !! l) as [o|]; [|reflexivity].
  rewrite list_lookup_insert_ne by assumption. reflexivity.
Qed.

(** *** What a batch produces *)

Lemma batch_invocations_notifications (cbs : list cbid) (device : Val) (ls : list loc) :
  ∀ h, fst <$> batch_invocations cbs device h ls = notifications cbs ls.
Proof.
  induction ls as [|l ls IH]; intros h; [reflexivity|].
  simpl. rewrite fmap_app, IH. f_equal.
  rewrite <- list_fmap_compose. reflexivity.
Qed.

Lemma resolve_all_inv (P : Heap → Prop) (device : Val) (ls : list loc) :
  (∀ h l, P h → P (resolve device h l)) →
  ∀ h, P h → P (resolve_all device h ls).
Proof.
  intros Hstep. unfold resolve_all.
  induction ls as [|l ls IH]; intros h Hh; [exact Hh|].
  simpl. apply IH, Hstep, Hh.
Qed.

Lemma envelope_items_allocated (h h1 : Heap) (ld : loc) (ls : list loc) :
  envelope_items h ld = Some (ls, h1) →
  Forall (λ l, is_Some (h1 !! l)) ls.
Proof.
  unfold envelope_items. destruct (h !! ld) as [od|] eqn:Hld; [|discriminate].
  destruct (truthy (field od "items")).
  - destruct (field od "items") as [| | | | |la]; try discriminate.
    destruct (h !! la) as [[[es|] aps]|]; try discriminate.
    destruct (refs_of es) as [ls'|]; [|discriminate].
    destruct (forallb _ ls') eqn:Hall; [|discriminate].
    intros H. injection H as Hls Hh1. subst ls' h1.
    apply Forall_forall. intros l Hl. rewrite forallb_forall in Hall.
    apply list_elem_of_In in Hl. specialize (Hall l Hl).
    apply bool_decide_eq_true in Hall. exact Hall.
  - intros H. injection H as Hls Hh1. subst ls h1.
    constructor; [|constructor].
    rewrite lookup_app_l by (eapply lookup_lt_Some; eassumption). eauto.
Qed.

Lemma envelope_items_flat (h h1 : Heap) (ld : loc) (od : Obj) (ls : list loc) :
  h !! ld = Some od →
  envelope_items h ld = Some (ls, h1) →
  truthy (field od "items") = false →
  ls = [ld].
Proof.
  intros Hld Henv Hflat. unfold envelope_items in Henv.
  rewrite Hld, Hflat in Henv. injection Henv as Hls _. symmetry. exact Hls.
Qed.

Lemma or_else_named (x : Val) (d : string) :
  string_or_missing x → d ≠ "" → named (or_else x (VStr d)).
Proof.
  intros [->|[->|[s ->]]] Hd; unfold or_else; simpl.
  - exists d. split; [reflexivity|exact Hd].
  - exists d. split; [reflexivity|exact Hd].
  - destruct (String.eqb_spec s "") as [->|Hs]; simpl.
    + exists d. split; [reflexivity|exact Hd].
    + exists s. split; [reflexivity|exact Hs].
Qed.



End Batches.

(** ** C2: items of an unknown kind *)

Section UnknownKind.
Context {platform : Platform} {listeners : Listeners}.

Lemma dispatch_unknown (item sensor value : Val) (w : World) :
  known_kind sensor = false →
  Dashboard.dispatch item sensor value w = (Ret tt, w, []).
Proof.
  intros Hk. destruct sensor as [| | | |s|]; try reflexivity.
  unfold known_kind, known_kinds, one_of in Hk. unfold Dashboard.dispatch, one_of.
  simpl in *.
  repeat match goal with
         | |- context [String.eqb s ?k] =>
             destruct (String.eqb s k); simpl in *; try discriminate
         end.
  reflexivity.
Qed.

Lemma updateSensor_unknown (l : loc) (o : Obj) (w : World) :
  heap w !! l = Some o →
  known_kind (field o "sensor") = false →
  Dashboard.updateSensor (VRef l) w = Dashboard.touch (field o "device") w.
Proof.
  intros Hl Hk. unfold Dashboard.updateSensor.
  mrun (GetV_run l o "sensor" w Hl). mrun (GetV_run l o "device" w Hl).
  mrun (GetV_run l o "value" w Hl).
  rewrite bind_run.
  destruct (Dashboard.touch (field o "device") w) as [[[[]|e] w1] t1]; [|reflexivity].
  rewrite (dispatch_unknown _ _ _ _ Hk). rewrite app_nil_r. reflexivity.
Qed.


End UnknownKind.

(** ** Instances of the batch theorems *)

Lemma loggers_observe (cbs : list cbid) : Forall (observer (listeners := Sample.loggers)) cbs.
Proof.
  apply Forall_forall. intros cb _ data w.
  exists w, [EConsole "log" "seen"]. repeat split.
Qed.




(** C2 as stated fails: in the application, the item of the unknown kind
    "ZZZ" (at the reference 0) is passed to the sensor-data listener like
    its sibling; what the dashboard then does with it is to mark PI1 as
    seen.  The sibling door sensor is shown open. *)
Lemma unknown_kind_is_notified :
  let '(data, w) := Sample.decoded Sample.batch Sample.started in
  let run := SmartHomeMQTT._handleMessage
               (listeners := App.listeners (platform := Sample.platform))
               "iot/sensors" data w in
  field_at (heap w) 0%nat "sensor" = VStr "ZZZ"
  ∧ _callbacks (router w) !! "onSensorData" = Some [2%nat]
  ∧ fst <$> invocations (trace_of run) = [(2%nat, VRef 0%nat); (2%nat, VRef 1%nat)]
  ∧ length (List.filter (λ i, strict_eq (snd (fst i)) (VRef 0%nat))
                        (invocations (trace_of run))) ≠ 0%nat
  ∧ textContent <$> document (world_of run) !! "ds1-state" = Some "OPEN".
Proof. vm_compute. repeat split; try reflexivity. discriminate. Qed.

(** * Further properties of the client and of the dashboard *)

(** ** Registration *)

Section Registration.
Context {listeners : Listeners}.

Lemma on_run_known (event : string) (cb : cbid) (w : World) (cbs : list cbid) :
  _callbacks (router w) !! event = Some cbs →
  SmartHomeMQTT.on event cb w
  = (Ret tt,
     set_router (SmartHomeMQTT.set_callbacks
                   (<[event := cbs ++ [cb]]> (_callbacks (router w))) (router w)) w,
     []).
Proof. intros H. unfold SmartHomeMQTT.on. rewrite bind_get, H. reflexivity. Qed.

Lemma on_run_unknown (event : string) (cb : cbid) (w : World) :
  _callbacks (router w) !! event = None →
  inherited event = false →
  SmartHomeMQTT.on event cb w = (Ret tt, w, []).
Proof. intros H Hi. unfold SmartHomeMQTT.on. rewrite bind_get, H, Hi. reflexivity. Qed.

Lemma one_of_In (s : string) (l : list string) : one_of s l = true ↔ In s l.
Proof.
  unfold one_of. rewrite existsb_exists. split.
  - intros (x & Hx & Heq). apply String.eqb_eq in Heq. subst. exact Hx.
  - intros H. exists s. split; [exact H|apply String.eqb_refl].
Qed.

Lemma constructor_kinds (config : Config) (k : string) :
  _callbacks (SmartHomeMQTT.constructor config) !! k
  = if one_of k kinds then Some [] else None.
Proof.
  destruct (one_of k kinds) eqn:Hk.
  - apply one_of_In in Hk. simpl in Hk.
    destruct Hk as [<-|[<-|[<-|[<-|[<-|[]]]]]]; vm_compute; reflexivity.
  - assert (Hn : ¬ In k kinds) by (rewrite <- one_of_In, Hk; discriminate).
    simpl in Hn. unfold SmartHomeMQTT.constructor. simpl.
    rewrite !lookup_insert_ne by (intros <-; apply Hn; tauto).
    apply lookup_empty.
Qed.

Lemma registered_cons (k : string) (r : string * cbid) (regs : list (string * cbid)) :
  registered k (r :: regs)
  = if String.eqb (fst r) k then snd r :: registered k regs else registered k regs.
Proof. unfold registered. simpl. destruct (String.eqb (fst r) k); reflexivity. Qed.

(** The registry after a list of registrations: each known kind has got
    the callbacks registered for it, in order, after those it had. *)
Lemma on_each_run (regs : list (string * cbid)) :
  ∀ (w : World) (acc : string → list cbid),
    (∀ k, _callbacks (router w) !! k = if one_of k kinds then Some (acc k) else None) →
    Forall (λ r, inherited (fst r) = false) regs →
    ∃ c,
      on_each regs w = (Ret tt, set_router (SmartHomeMQTT.set_callbacks c (router w)) w, [])
      ∧ ∀ k, c !! k = if one_of k kinds then Some (acc k ++ registered k regs) else None.
Proof.
  induction regs as [|[e cb] regs IH]; intros w acc Hinv Hok.
  - exists (_callbacks (router w)). split.
    + simpl. unfold ret. destruct w as [[] ? ? ? ?]; reflexivity.
    + intros k. rewrite Hinv. unfold registered. simpl. rewrite app_nil_r. reflexivity.
  - apply Forall_cons in Hok as [He Hok]. simpl in He.
    cbn [on_each fst snd]. rewrite bind_run.
    destruct (one_of e kinds) eqn:Hk.
    + pose proof (Hinv e) as Hreg. rewrite Hk in Hreg.
      rewrite (on_run_known e cb w (acc e) Hreg).
      set (w1 := set_router _ w).
      destruct (IH w1 (λ k, if String.eqb e k then acc e ++ [cb] else acc k)) as (c & Hrun & Hc).
      * intros k.
        change (_callbacks (router w1)) with (<[e := acc e ++ [cb]]> (_callbacks (router w))).
        destruct (String.eqb_spec e k) as [Heq|Hne].
        -- subst k. rewrite lookup_insert_eq, Hk. reflexivity.
        -- rewrite lookup_insert_ne by exact Hne. apply Hinv.
      * exact Hok.
      * exists c. rewrite Hrun. split; [reflexivity|].
        intros k. rewrite Hc, registered_cons. simpl fst. simpl snd.
        destruct (one_of k kinds); [|reflexivity].
        destruct (String.eqb_spec e k) as [Heq|Hne]; [|reflexivity].
        subst k. rewrite <- app_assoc. reflexivity.
    + pose proof (Hinv e) as Hreg. rewrite Hk in Hreg.
      rewrite (on_run_unknown e cb w Hreg He).
      destruct (IH w acc Hinv Hok) as (c & Hrun & Hc).
      exists c. rewrite Hrun. split; [reflexivity|].
      intros k. rewrite Hc, registered_cons. simpl fst.
      destruct (one_of k kinds) eqn:Hk'; [|reflexivity].
      destruct (String.eqb_spec e k) as [->|Hne]; [congruence|reflexivity].
Qed.

(** X1: registrations accumulate per kind.  From a fresh client, after
    any list of calls of [on] (none of them for a name that an object
    inherits), each of the five kinds holds the callbacks registered for
    it, in the order of the calls and with repetitions, a registration for
    any other name has been dropped without an error, and nothing else of the state has
    changed; a fan-out for a kind then calls exactly those callbacks, in
    that order, when they observe. *)
Theorem listeners_are_called_in_registration_order (config : Config)
    (regs : list (string * cbid)) (w : World) (kind : string) (data : Val) :
  router w = SmartHomeMQTT.constructor config →
  Forall (λ r, inherited (fst r) = false) regs →
  Forall observer (registered kind regs) →
  ∃ c,
    on_each regs w = (Ret tt, set_router (SmartHomeMQTT.set_callbacks c (router w)) w, [])
    ∧ (∀ k, c !! k = if one_of k kinds then Some (registered k regs) else None)
    ∧ invoked (trace_of (SmartHomeMQTT._fire kind data
                           (set_router (SmartHomeMQTT.set_callbacks c (router w)) w)))
      = if one_of kind kinds then registered kind regs else [].
Proof.
  intros Hfresh Hok Hobs.
  destruct (on_each_run regs w (λ _, [])) as (c & Hrun & Hc).
  - intros k. rewrite Hfresh. apply constructor_kinds.
  - exact Hok.
  - exists c. split; [exact Hrun|]. split; [exact Hc|].
    set (w' := set_router _ w).
    pose proof (Hc kind) as Hreg.
    change (c !! kind) with (_callbacks (router w') !! kind) in Hreg.
    change ([] ++ registered kind regs) with (registered kind regs) in Hreg.
    destruct (one_of kind kinds).
    + destruct (fire_observers kind data _ w' Hreg Hobs) as (w2 & T & Hfire & _ & _ & Hinv).
      rewrite Hfire. unfold trace_of, invoked. simpl. rewrite Hinv.
      rewrite <- list_fmap_compose. apply list_fmap_id.
    + unfold SmartHomeMQTT._fire. rewrite bind_get, Hreg.
      destruct (inherited kind); reflexivity.
Qed.

End Registration.

Lemma listeners_are_called_in_registration_order_witness :
  let regs := [("onSensorData", 7%nat); ("onNothing", 8%nat); ("onSensorData", 9%nat);
               ("onAlarmState", 3%nat); ("onSensorData", 7%nat)] in
  Forall (λ r, inherited (fst r) = false) regs
  ∧ registered "onSensorData" regs = [7%nat; 9%nat; 7%nat]
  ∧ ∃ c,
      on_each regs (App.start "" ∅ 0)
      = (Ret tt,
         set_router (SmartHomeMQTT.set_callbacks c (router (App.start "" ∅ 0)))
           (App.start "" ∅ 0), [])
      ∧ (∀ k, c !! k = if one_of k kinds then Some (registered k regs) else None)
      ∧ invoked (trace_of (SmartHomeMQTT._fire (listeners := Sample.loggers) "onSensorData"
                             VNull
                             (set_router (SmartHomeMQTT.set_callbacks c
                                            (router (App.start "" ∅ 0)))
                                (App.start "" ∅ 0))))
        = if one_of "onSensorData" kinds then registered "onSensorData" regs else [].
Proof.
  intros regs.
  assert (Hok : Forall (λ r, inherited (fst r) = false) regs)
    by (repeat constructor).
  split; [exact Hok|]. split; [reflexivity|].
  apply (listeners_are_called_in_registration_order (listeners := Sample.loggers)
           (CONFIG "") regs (App.start "" ∅ 0) "onSensorData" VNull eq_refl Hok).
  apply loggers_observe.
Defined.

(** ** What the dashboard leaves alone *)

Section PageOnly.
Context {platform : Platform}.

Lemma page_only_ret {A} (a : A) : page_only (ret a).
Proof. intros w. repeat split. Qed.

Lemma page_only_throw {A} (e : Exn) : page_only (throw (A := A) e).
Proof. intros w. repeat split. Qed.

Lemma page_only_get : page_only get.
Proof. intros w. repeat split. Qed.

Lemma page_only_lift {A} (o : Outcome A) : page_only (lift o).
Proof. intros w. repeat split. Qed.

Lemma page_only_bind {A B} (m : M A) (k : A → M B) :
  page_only m → (∀ a, page_only (k a)) → page_only (bind m k).
Proof.
  intros Hm Hk w. specialize (Hm w). rewrite bind_run.
  destruct (m w) as [[[a|e] w1] t1]; unfold world_of, trace_of in *; simpl in *.
  - specialize (Hk a w1). destruct (k a w1) as [[o2 w2] t2].
    unfold world_of, trace_of in *; simpl in *.
    destruct Hm as (H1 & H2 & H3 & H4 & ->). destruct Hk as (K1 & K2 & K3 & K4 & ->).
    repeat split; congruence.
  - exact Hm.
Qed.

Lemma page_only_update (id : string) (f : Element → Element) :
  page_only (update_element id f).
Proof.
  intros w. unfold update_element, modify, world_of, trace_of. simpl.
  repeat split. apply dom_alter_L.
Qed.

Lemma page_only_lastUpdate_set (key : string) (t : Z) :
  page_only (Dashboard.lastUpdate_set key t).
Proof.
  intros w. unfold Dashboard.lastUpdate_set.
  destruct (String.eqb key "__proto__"); repeat split.
Qed.

End PageOnly.

Create HintDb page.

#[local] Hint Resolve page_only_ret page_only_throw page_only_get page_only_lift
  page_only_update page_only_lastUpdate_set : page.

(** Decompose a sequence into its steps, and a choice into its cases. *)
Ltac page_step :=
  match goal with
  | |- page_only (bind _ _) => apply page_only_bind; [|intros]
  | |- page_only (match ?x with _ => _ end) => destruct x
  | |- page_only _ => solve [auto with page]
  end.

Ltac page_steps := repeat page_step.

Section Observers.
Context {platform : Platform}.

Lemma page_only_getElementById (id : string) : page_only (getElementById id).
Proof. unfold getElementById. page_steps. Qed.

Lemma page_only_GetV (v : Val) (k : string) : page_only (GetV v k).
Proof. unfold GetV. page_steps. Qed.

Lemma page_only_Date_now : page_only Dashboard.Date_now.
Proof. unfold Dashboard.Date_now. page_steps. Qed.

End Observers.

#[local] Hint Resolve page_only_getElementById page_only_GetV page_only_Date_now : page.

Section Reducers.
Context {platform : Platform}.

Lemma page_only_setText (id : string) (text : Val) : page_only (Dashboard._setText id text).
Proof. unfold Dashboard._setText. page_steps. Qed.

Lemma page_only_timeAgo (date : option Z) : page_only (Dashboard._timeAgo date).
Proof. unfold Dashboard._timeAgo. page_steps. Qed.

Lemma page_only_updatePiStatus (device : Val) (online : bool) :
  page_only (Dashboard._updatePiStatus device online).
Proof. unfold Dashboard._updatePiStatus. page_steps. Qed.

End Reducers.

#[local] Hint Resolve page_only_setText page_only_timeAgo page_only_updatePiStatus : page.

Section Listeners.
Context {platform : Platform}.

Lemma page_only_dispatch (item sensor value : Val) :
  page_only (Dashboard.dispatch item sensor value).
Proof.
  unfold Dashboard.dispatch.
  destruct sensor as [| | | |s|]; auto with page.
  repeat match goal with
         | |- page_only (if ?b then _ else _) => destruct b
         end.
  - unfold Dashboard._updateDHT. page_steps.
  - unfold Dashboard._updateMotion. page_steps.
  - unfold Dashboard._updateDoor. page_steps.
  - unfold Dashboard._updateDistance. page_steps.
  - unfold Dashboard._updateOnOff. page_steps.
  - unfold Dashboard._updateOnOff. page_steps.
  - unfold Dashboard._updateRGB. page_steps.
  - unfold Dashboard._updateGyroscope. page_steps.
  - unfold Dashboard._updateTimer. page_steps.
  - auto with page.
Qed.

Lemma page_only_touch (device : Val) : page_only (Dashboard.touch device).
Proof. unfold Dashboard.touch. page_steps. Qed.

Lemma page_only_updateSensor (item : Val) : page_only (Dashboard.updateSensor item).
Proof.
  unfold Dashboard.updateSensor.
  do 3 (apply page_only_bind; [solve [auto with page]|intros]).
  apply page_only_bind; [apply page_only_touch|intros]. apply page_only_dispatch.
Qed.

Lemma page_only_updateAlarmState (data : Val) : page_only (Dashboard.updateAlarmState data).
Proof. unfold Dashboard.updateAlarmState. page_steps. Qed.

Lemma page_only_updatePersonCount (data : Val) :
  page_only (Dashboard.updatePersonCount data).
Proof. unfold Dashboard.updatePersonCount, Dashboard.count_of. page_steps. Qed.

Lemma page_only_show_connection (text cls : string) :
  page_only (App.show_connection text cls).
Proof. unfold App.show_connection. page_steps. Qed.

Lemma application_listeners_page_only (cb : cbid) (data : Val) :
  page_only (call_listener (Listeners := App.listeners) cb data).
Proof.
  unfold call_listener, App.listeners.
  do 5 (destruct cb as [|cb];
        [first [ apply page_only_show_connection | apply page_only_updateSensor
               | apply page_only_updateAlarmState | apply page_only_updatePersonCount ]|]).
  apply page_only_ret.
Qed.

(** X2: the five functions that the application registers with the
    client only write to elements of the page and to the dashboard's
    record of times.  Whatever they are given, and whether they return or
    raise, they leave the client (its registrations and its connection
    state) and the objects of the store as they were, they add no element
    to the page and remove none, and they log, subscribe to and publish
    nothing. *)
Theorem application_listeners_only_write_to_the_page (cb : cbid) (data : Val) (w : World) :
  let run := call_listener (Listeners := App.listeners) cb data w in
  router (world_of run) = router w
  ∧ heap (world_of run) = heap w
  ∧ clock (world_of run) = clock w
  ∧ dom (document (world_of run)) = dom (document w)
  ∧ trace_of run = [].
Proof.
  revert w. change (page_only (call_listener (Listeners := App.listeners) cb data)).
  unfold call_listener, App.listeners.
  destruct cb as [|[|[|[|[|cb]]]]].
  - apply page_only_show_connection.
  - apply page_only_show_connection.
  - apply page_only_updateSensor.
  - apply page_only_updateAlarmState.
  - apply page_only_updatePersonCount.
  - apply page_only_ret.
Qed.

End Listeners.

(** ** The connection state *)

Section Lifecycle.
Context {platform : Platform} {listeners : Listeners}.

Lemma forEach_from_keeps_router {A} (read : nat → World → option A) (f : A → M unit) :
  (∀ a w, router (world_of (f a w)) = router w) →
  ∀ n i w, router (world_of (forEach_from read f i n w)) = router w.
Proof.
  intros Hf. induction n as [|n IH]; intros i w; [reflexivity|].
  cbn [forEach_from]. rewrite bind_get, bind_run.
  destruct (read i w) as [a|].
  - specialize (Hf a w). destruct (f a w) as [[[[]|e] w1] t1];
      unfold world_of in *; simpl in *.
    + specialize (IH (S i) w1). destruct (forEach_from read f (S i) n w1) as [[o2 w2] t2].
      simpl in *. congruence.
    + exact Hf.
  - unfold ret. specialize (IH (S i) w).
    destruct (forEach_from read f (S i) n w) as [[o2 w2] t2]. exact IH.
Qed.

Lemma fire_keeps_router (event : string) (data : Val) (w : World) :
  (∀ cb, keeps_registry cb) →
  router (world_of (SmartHomeMQTT._fire event data w)) = router w.
Proof.
  intros Hkeep. unfold SmartHomeMQTT._fire. rewrite bind_get.
  destruct (_callbacks (router w) !! event) as [cbs|].
  - unfold forEach. apply forEach_from_keeps_router.
    intros cb w'. rewrite invoke_run. apply Hkeep.
  - destruct (inherited event); reflexivity.
Qed.

Lemma client_on_connect_run (w : World) :
  client (router w) = true →
  let t := topics (config (router w)) in
  let fan := SmartHomeMQTT._fire "onConnect" VUndefined
               (set_router (SmartHomeMQTT.set_connected true (router w)) w) in
  SmartHomeMQTT.client_on_connect w
  = (outcome_of fan, world_of fan,
     [EConsole "log" "[MQTT] Connected";
      ESubscribe (sensors t); ESubscribe (alarmState t); ESubscribe (personCount t)]
       ++ trace_of fan).
Proof.
  intros Hclient t fan. subst fan t.
  unfold SmartHomeMQTT.client_on_connect, SmartHomeMQTT.client_subscribe.
  repeat (run; rewrite ?Hclient).
  destruct (SmartHomeMQTT._fire _ _ _) as [[o2 w2] t2]. reflexivity.
Qed.

Lemma client_on_close_run (w : World) :
  let fan := SmartHomeMQTT._fire "onDisconnect" VUndefined
               (set_router (SmartHomeMQTT.set_connected false (router w)) w) in
  SmartHomeMQTT.client_on_close w
  = (outcome_of fan, world_of fan, EConsole "log" "[MQTT] Disconnected" :: trace_of fan).
Proof.
  intros fan. subst fan. unfold SmartHomeMQTT.client_on_close. run.
  destruct (SmartHomeMQTT._fire _ _ _) as [[o2 w2] t2]. reflexivity.
Qed.

(** X3: the connection flag follows the transport, whatever the
    listeners do short of touching the client.  After the "close" event
    the client is marked as not connected, also when a listener of
    "onDisconnect" raised, and every command is then dropped with a
    warning: nothing is published and nothing changes.  After the
    "connect" event the client is marked as connected, also when a
    listener of "onConnect" raised.  Creating the connection does not
    mark the client as connected: a command given between [connect] and
    the first "connect" event is dropped too. *)
Theorem connection_flag_follows_the_transport (w : World) (target command params : Val) :
  (∀ cb, keeps_registry cb) →
  let closed := world_of (SmartHomeMQTT.client_on_close w) in
  let opened := world_of (SmartHomeMQTT.client_on_connect w) in
  let created := world_of (SmartHomeMQTT.connect w) in
  connected (router closed) = false
  ∧ SmartHomeMQTT.publishCommand target command params closed
    = (Ret tt, closed, [EConsole "warn" "[MQTT] Not connected, cannot send command"])
  ∧ (client (router w) = true →
       client (router opened) = true ∧ connected (router opened) = true)
  ∧ client (router created) = true
  ∧ connected (router created) = connected (router w)
  ∧ (connected (router w) = false →
       SmartHomeMQTT.publishCommand target command params created
       = (Ret tt, created, [EConsole "warn" "[MQTT] Not connected, cannot send command"])).
Proof.
  intros Hkeep closed opened created.
  assert (Hclosed : connected (router closed) = false).
  { subst closed. rewrite client_on_close_run. unfold world_of at 1. simpl.
    rewrite fire_keeps_router by exact Hkeep. reflexivity. }
  assert (Hdrop : ∀ w', connected (router w') = false →
            SmartHomeMQTT.publishCommand target command params w'
            = (Ret tt, w', [EConsole "warn" "[MQTT] Not connected, cannot send command"])).
  { intros w' Hoff. unfold SmartHomeMQTT.publishCommand. rewrite bind_get, Hoff.
    rewrite orb_true_r. reflexivity. }
  split; [exact Hclosed|]. split; [apply Hdrop, Hclosed|]. split.
  { intros Hclient. subst opened. rewrite client_on_connect_run by exact Hclient.
    unfold world_of at 1 3. simpl.
    rewrite fire_keeps_router by exact Hkeep. simpl. split; [exact Hclient|reflexivity]. }
  split; [reflexivity|]. split; [reflexivity|].
  intros Hoff. apply Hdrop. exact Hoff.
Qed.

End Lifecycle.

Lemma application_listeners_keep_registry (platform : Platform) (cb : cbid) :
  keeps_registry (listeners := App.listeners) cb.
Proof. intros data w. apply (application_listeners_page_only cb data w). Qed.

Lemma connection_flag_follows_the_transport_witness :
  connected (router (world_of (SmartHomeMQTT.client_on_close
                                 (listeners := App.listeners (platform := Sample.platform))
                                 Sample.online))) = false
  ∧ published (trace_of (SmartHomeMQTT.publishCommand (platform := Sample.platform)
                           (VStr "PI2") (VStr "timer_stop") VUndefined
                           (world_of (SmartHomeMQTT.client_on_close
                                        (listeners := App.listeners (platform := Sample.platform))
                                        Sample.online)))) = [].
Proof.
  pose proof (connection_flag_follows_the_transport (platform := Sample.platform)
                (listeners := App.listeners (platform := Sample.platform))
                Sample.online (VStr "PI2") (VStr "timer_stop") VUndefined
                (application_listeners_keep_registry Sample.platform)) as (Hoff & Hdrop & _).
  split; [exact Hoff|]. rewrite Hdrop. reflexivity.
Defined.

(** ** Routing by topic *)

Section Routing.
Context {platform : Platform} {listeners : Listeners}.

(** A message that parses: the value is built in the store and handed to
    the router, and what the router raises is logged. *)
Lemma client_on_message_parsed (topic payload : string) (j : Json) (w : World) :
  JSON_parse payload = Some j →
  let run := SmartHomeMQTT._handleMessage topic (fst (alloc_json j (heap w)))
               (set_heap (snd (alloc_json j (heap w))) w) in
  SmartHomeMQTT.client_on_message topic payload w
  = match outcome_of run with
    | Ret _ => (Ret tt, world_of run, trace_of run)
    | Throw _ => (Ret tt, world_of run, trace_of run ++ [EConsole "warn" "[MQTT] Parse error:"])
    end.
Proof.
  intros Hparse run. subst run. unfold SmartHomeMQTT.client_on_message. rewrite Hparse.
  unfold try_catch. rewrite bind_get.
  destruct (alloc_json j (heap w)) as [data h]. rewrite bind_run. unfold modify.
  cbn [fst snd].
  destruct (SmartHomeMQTT._handleMessage topic data (set_heap h w)) as [[[[]|e] w1] t1];
    reflexivity.
Qed.

Lemma handle_other_topic (hostname topic : string) (data : Val) (w : World) :
  config (router w) = CONFIG hostname →
  ¬ In topic ["iot/sensors"; "iot/alarm/state"; "iot/home/person_count"] →
  SmartHomeMQTT._handleMessage topic data w = (Ret tt, w, []).
Proof.
  intros Hconf Hnot. unfold SmartHomeMQTT._handleMessage. rewrite bind_get, Hconf.
  cbn [topics CONFIG sensors alarmState personCount].
  destruct (String.eqb_spec topic "iot/sensors") as [->|_]; [exfalso; apply Hnot; simpl; tauto|].
  destruct (String.eqb_spec topic "iot/alarm/state") as [->|_];
    [exfalso; apply Hnot; simpl; tauto|].
  destruct (String.eqb_spec topic "iot/home/person_count") as [->|_];
    [exfalso; apply Hnot; simpl; tauto|].
  reflexivity.
Qed.

End Routing.


(** ** Batches that stop early *)

Section Abort.
Context {listeners : Listeners}.
Hypothesis Hkeep : ∀ cb, keeps_registry cb.

Lemma invoke_all_returns (data : Val) (cbs : list cbid) :
  Forall (λ cb, returns_on cb data) cbs →
  ∀ w, ∃ w' T,
    invoke_all cbs data w = (Ret tt, w', T)
    ∧ router w' = router w ∧ heap w' = heap w
    ∧ invocations T = (λ cb, (cb, data, heap w)) <$> cbs.
Proof.
  induction cbs as [|cb cbs IH]; intros Hret w.
  - exists w, []. repeat split.
  - apply Forall_cons in Hret as [Hcb Hrest].
    destruct (Hcb w) as (w1 & t1 & Hrun & Hh1).
    pose proof (Hkeep cb data w) as Hr1. rewrite Hrun in Hr1. unfold world_of in Hr1.
    simpl in Hr1.
    destruct (IH Hrest w1) as (w2 & T2 & Hrun2 & Hr2 & Hh2 & Hinv).
    exists w2, (EInvoke cb data (heap w) t1 :: T2).
    rewrite invoke_all_cons, Hrun. unfold outcome_of, world_of, trace_of. simpl.
    rewrite Hrun2. simpl.
    repeat split; [congruence | congruence |].
    unfold invocations in *. simpl. rewrite Hinv, Hh1. reflexivity.
Qed.

Lemma all_keep_registry (cbs : list cbid) : Forall keeps_registry cbs.
Proof. apply Forall_forall. intros cb _. apply Hkeep. Qed.

Lemma each_item_returns (device : Val) (cbs : list cbid) (l : loc) (o : Obj) (w : World) :
  _callbacks (router w) !! "onSensorData" = Some cbs →
  Forall (λ cb, returns_on cb (VRef l)) cbs →
  heap w !! l = Some o →
  ∃ w' T,
    SmartHomeMQTT.each_item device (VRef l) w = (Ret tt, w', T)
    ∧ router w' = router w
    ∧ heap w' = resolve device (heap w) l
    ∧ invocations T = (λ cb, (cb, VRef l, resolve device (heap w) l)) <$> cbs.
Proof.
  intros Hreg Hret Hl.
  assert (Hres : resolve device (heap w) l
                 = <[l := mkObj (elems o)
                            (assoc_set "device" (or_else (field o "device") device)
                               (props o))]> (heap w)).
  { unfold resolve. rewrite Hl. reflexivity. }
  destruct (invoke_all_returns (VRef l) cbs Hret
              (set_heap (resolve device (heap w) l) w))
    as (w' & T & Hrun & Hr & Hh & Hinv).
  exists w', T.
  unfold SmartHomeMQTT.each_item.
  mrun (GetV_run l o "device" w Hl). mrun (PutV_run l o "device").
  - rewrite <- Hres.
    rewrite (fire_invoke_all "onSensorData" (VRef l)
               (set_heap (resolve device (heap w) l) w) cbs Hreg (all_keep_registry cbs)).
    rewrite Hrun. repeat split; assumption.
  - exact Hl.
Qed.

(** The items that are delivered before the loop meets anything else: a
    prefix [good] of the array, each element an object on which every
    listener returns. *)
Lemma items_prefix (device : Val) (cbs : list cbid) (la : loc) (es : list Val)
    (good : list loc) :
  ∀ (i : nat) (w : World),
    _callbacks (router w) !! "onSensorData" = Some cbs →
    (∃ aps, heap w !! la = Some (mkObj (Some es) aps)) →
    (∀ j l, good !! j = Some l → es !! (i + j)%nat = Some (VRef l)) →
    Forall (λ l, is_Some (heap w !! l)) good →
    Forall (λ l, Forall (λ cb, returns_on cb (VRef l)) cbs) good →
    ∃ w' T,
      router w' = router w
      ∧ heap w' = resolve_all device (heap w) good
      ∧ invocations T = batch_invocations cbs device (heap w) good
      ∧ ∀ n,
          forEach_from (item_at la) (SmartHomeMQTT.each_item device) i (length good + n) w
          = let r := forEach_from (item_at la) (SmartHomeMQTT.each_item device)
                       (i + length good) n w' in
            (outcome_of r, world_of r, T ++ trace_of r).
Proof.
  induction good as [|l good IH]; intros i w Hreg Harr Hes Halloc Hret.
  - exists w, []. repeat split. intros n. simpl. rewrite Nat.add_0_r.
    destruct (forEach_from _ _ i n w) as [[o2 w2] t2]. reflexivity.
  - apply Forall_cons in Halloc as [[o Hl] Halloc].
    apply Forall_cons in Hret as [Hretl Hret].
    assert (Hi : es !! i = Some (VRef l)).
    { specialize (Hes 0%nat l eq_refl). rewrite Nat.add_0_r in Hes. exact Hes. }
    destruct (each_item_returns device cbs l o w Hreg Hretl Hl)
      as (w1 & T1 & Hrun1 & Hr1 & Hh1 & Hinv1).
    destruct (IH (S i) w1) as (w2 & T2 & Hr2 & Hh2 & Hinv2 & Hloop).
    + rewrite Hr1. exact Hreg.
    + rewrite Hh1. apply resolve_keeps_elems. exact Harr.
    + intros j l' Hj. specialize (Hes (S j) l' Hj).
      replace (S i + j)%nat with (i + S j)%nat by lia. exact Hes.
    + rewrite Hh1. eapply Forall_impl; [exact Halloc|].
      intros l'. apply resolve_keeps_allocated.
    + exact Hret.
    + exists w2, (T1 ++ T2). split; [congruence|]. split; [rewrite Hh2, Hh1; reflexivity|].
      split; [rewrite invocations_app, Hinv1, Hinv2, Hh1; reflexivity|].
      intros n. cbn [length Nat.add forEach_from]. rewrite bind_get.
      unfold item_at at 1. destruct Harr as [aps Hla]. rewrite Hla. simpl. rewrite Hi.
      rewrite bind_run, Hrun1, Hloop.
      replace (S i + length good)%nat with (i + S (length good))%nat by lia.
      destruct (forEach_from _ _ _ n w2) as [[o3 w3] t3].
      unfold outcome_of, world_of, trace_of. simpl. rewrite app_assoc. reflexivity.
Qed.

Lemma each_item_no_object (device : Val) (v : Val) (w : World) :
  no_object (heap w) v →
  SmartHomeMQTT.each_item device v w = (Throw TypeError, w, []).
Proof.
  intros Hno. unfold SmartHomeMQTT.each_item, GetV, PutV. rewrite bind_run, bind_get.
  destruct v as [| | | | |l]; try reflexivity.
  unfold lift, get_prop. rewrite (Hno l eq_refl). reflexivity.
Qed.

Lemma resolve_all_length (device : Val) (ls : list loc) :
  ∀ h, length (resolve_all device h ls) = length h.
Proof.
  intros h. apply (resolve_all_inv (λ h', length h' = length h)); [|reflexivity].
  intros h' l Hlen. unfold resolve. destruct (h' !! l); [|exact Hlen].
  rewrite length_insert. exact Hlen.
Qed.

Lemma no_object_same_length (h h' : Heap) (v : Val) :
  length h' = length h → no_object h v → no_object h' v.
Proof.
  intros Hlen Hno l Hv. specialize (Hno l Hv).
  apply lookup_ge_None. apply lookup_ge_None in Hno. lia.
Qed.

(** The sensor branch of the router, up to the first element of [items]
    that is not known to be delivered. *)
Lemma handle_sensors_prefix (w : World) (ld la : loc) (od : Obj) (es : list Val)
    (aps : list (string * Val)) (good : list loc) (tail : list Val) (cbs : list cbid) :
  _callbacks (router w) !! "onSensorData" = Some cbs →
  heap w !! ld = Some od →
  field od "items" = VRef la →
  heap w !! la = Some (mkObj (Some es) aps) →
  es = (VRef <$> good) ++ tail →
  Forall (λ l, is_Some (heap w !! l)) good →
  Forall (λ l, Forall (λ cb, returns_on cb (VRef l)) cbs) good →
  ∃ w' T,
    router w' = router w
    ∧ heap w' = resolve_all (field od "device") (heap w) good
    ∧ invocations T = batch_invocations cbs (field od "device") (heap w) good
    ∧ SmartHomeMQTT._handleMessage (sensors (topics (config (router w)))) (VRef ld) w
      = let r := forEach_from (item_at la) (SmartHomeMQTT.each_item (field od "device"))
                   (length good) (length tail) w' in
        (outcome_of r, world_of r, T ++ trace_of r).
Proof.
  intros Hreg Hld Hitems Hla Hes Halloc Hret.
  destruct (items_prefix (field od "device") cbs la es good 0 w Hreg)
    as (w' & T & Hr & Hh & Hinv & Hloop); [eauto| |exact Halloc|exact Hret|].
  { intros j l Hj. rewrite Hes. simpl.
    rewrite lookup_app_l by (rewrite length_fmap; eapply lookup_lt_Some; exact Hj).
    rewrite list_lookup_fmap, Hj. reflexivity. }
  exists w', T. split; [exact Hr|]. split; [exact Hh|]. split; [exact Hinv|].
  unfold SmartHomeMQTT._handleMessage. rewrite bind_get, String.eqb_refl.
  mrun (GetV_run ld od "items" w Hld). rewrite Hitems. simpl truthy. cbv iota.
  rewrite bind_ret. mrun (GetV_run ld od "device" w Hld).
  unfold SmartHomeMQTT.Array_forEach. rewrite bind_get, Hla. unfold forEach.
  assert (Hlen : length es = (length good + length tail)%nat)
    by (rewrite Hes, length_app, length_fmap; reflexivity).
  rewrite Hlen. unfold item_at in *. rewrite (Hloop (length tail)). simpl Nat.add.
  destruct (forEach_from _ _ (length good) (length tail) w') as [[o3 w3] t3].
  reflexivity.
Qed.

Lemma fire_raises (event : string) (data : Val) (w w1 w2 : World)
    (pre post : list cbid) (c : cbid) (e : Exn) (t1 t2 : list Event) :
  _callbacks (router w) !! event = Some (pre ++ c :: post) →
  invoke_all pre data w = (Ret tt, w1, t1) →
  call_listener c data w1 = (Throw e, w2, t2) →
  SmartHomeMQTT._fire event data w = (Throw e, w2, t1 ++ [EInvoke c data (heap w1) t2]).
Proof.
  intros Hreg Hpre Hc.
  unfold SmartHomeMQTT._fire, forEach. unfold bind at 1. simpl. rewrite Hreg.
  rewrite (forEach_from_raise event data c post e w2 t2 pre 0 w w1 t1 _ Hreg
             (drop_0 _) (all_keep_registry pre) Hpre Hc).
  reflexivity.
Qed.

(** X5: an element of [items] that is not an object ends the batch.
    When the items are an array whose first elements are objects on which
    the listeners return, followed by an element that is none (null, a
    number, a string, a boolean), the objects before it are delivered as
    usual, and the router then raises a TypeError: the elements after it
    are delivered to no listener. *)
Theorem batch_stops_at_an_item_that_is_no_object (w : World) (ld la : loc) (od : Obj)
    (aps : list (string * Val)) (good : list loc) (bad : Val) (rest : list Val)
    (cbs : list cbid) :
  _callbacks (router w) !! "onSensorData" = Some cbs →
  heap w !! ld = Some od →
  field od "items" = VRef la →
  heap w !! la = Some (mkObj (Some ((VRef <$> good) ++ bad :: rest)) aps) →
  Forall (λ l, is_Some (heap w !! l)) good →
  Forall (λ l, Forall (λ cb, returns_on cb (VRef l)) cbs) good →
  no_object (heap w) bad →
  let run := SmartHomeMQTT._handleMessage (sensors (topics (config (router w))))
               (VRef ld) w in
  outcome_of run = Throw TypeError
  ∧ invocations (trace_of run) = batch_invocations cbs (field od "device") (heap w) good
  ∧ fst <$> invocations (trace_of run) = notifications cbs good
  ∧ heap (world_of run) = resolve_all (field od "device") (heap w) good.
Proof.
  intros Hreg Hld Hitems Hla Halloc Hret Hbad run.
  destruct (handle_sensors_prefix w ld la od _ aps good (bad :: rest) cbs
              Hreg Hld Hitems Hla eq_refl Halloc Hret)
    as (w' & T & Hr & Hh & Hinv & Hrun).
  assert (Harr : ∃ aps', heap w' !! la
                         = Some (mkObj (Some ((VRef <$> good) ++ bad :: rest)) aps')).
  { rewrite Hh.
    apply (resolve_all_inv
             (λ h, ∃ aps', h !! la = Some (mkObj (Some ((VRef <$> good) ++ bad :: rest)) aps'))).
    - intros h l. apply resolve_keeps_elems.
    - eauto. }
  assert (Hloop : forEach_from (item_at la) (SmartHomeMQTT.each_item (field od "device"))
                    (length good) (length (bad :: rest)) w'
                  = (Throw TypeError, w', [])).
  { cbn [length forEach_from]. rewrite bind_get. unfold item_at at 1.
    destruct Harr as [aps' Hla']. rewrite Hla'. simpl.
    rewrite lookup_app_r by (rewrite length_fmap; lia).
    rewrite length_fmap, Nat.sub_diag. simpl.
    rewrite bind_run, each_item_no_object; [reflexivity|].
    apply (no_object_same_length (heap w)); [|exact Hbad].
    rewrite Hh. apply resolve_all_length. }
  subst run. rewrite Hrun, Hloop. unfold outcome_of, world_of, trace_of. simpl.
  rewrite app_nil_r.
  split; [reflexivity|]. split; [exact Hinv|].
  split; [rewrite Hinv; apply batch_invocations_notifications|exact Hh].
Qed.

(** X6: a listener that raises ends the batch.  When the items are an
    array of objects and, on one of them, a listener raises after the
    listeners registered before it have returned, the router raises that
    error at once: the objects before the item were delivered to every
    listener, the item itself was delivered to the listeners up to the one
    that raised, and neither the listeners registered after it nor the
    items after it are reached. *)
Theorem batch_stops_at_a_listener_that_raises (w : World) (ld la l : loc) (od : Obj)
    (aps : list (string * Val)) (good : list loc) (rest : list Val)
    (pre post : list cbid) (c : cbid) (e : Exn) :
  _callbacks (router w) !! "onSensorData" = Some (pre ++ c :: post) →
  heap w !! ld = Some od →
  field od "items" = VRef la →
  heap w !! la = Some (mkObj (Some ((VRef <$> good) ++ VRef l :: rest)) aps) →
  Forall (λ l, is_Some (heap w !! l)) (good ++ [l]) →
  Forall (λ l, Forall (λ cb, returns_on cb (VRef l)) (pre ++ c :: post)) good →
  Forall (λ cb, returns_on cb (VRef l)) pre →
  (∀ w0, outcome_of (call_listener c (VRef l) w0) = Throw e) →
  let run := SmartHomeMQTT._handleMessage (sensors (topics (config (router w))))
               (VRef ld) w in
  outcome_of run = Throw e
  ∧ fst <$> invocations (trace_of run)
    = notifications (pre ++ c :: post) good
        ++ ((λ cb, (cb, VRef l)) <$> pre) ++ [(c, VRef l)].
Proof.
  intros Hreg Hld Hitems Hla Halloc Hret Hpre Hraise run.
  apply Forall_app in Halloc as [Halloc Hl]. apply Forall_cons in Hl as [Hl _].
  destruct (handle_sensors_prefix w ld la od _ aps good (VRef l :: rest) (pre ++ c :: post)
              Hreg Hld Hitems Hla eq_refl Halloc Hret)
    as (w' & T & Hr & Hh & Hinv & Hrun).
  set (device := field od "device") in *.
  assert (Harr : ∃ aps', heap w' !! la
                         = Some (mkObj (Some ((VRef <$> good) ++ VRef l :: rest)) aps')).
  { rewrite Hh.
    apply (resolve_all_inv
             (λ h, ∃ aps', h !! la
                           = Some (mkObj (Some ((VRef <$> good) ++ VRef l :: rest)) aps'))).
    - intros h l0. apply resolve_keeps_elems.
    - eauto. }
  assert (Hl' : is_Some (heap w' !! l)).
  { rewrite Hh. apply (resolve_all_inv (λ h, is_Some (h !! l))); [|exact Hl].
    intros h l0. apply resolve_keeps_allocated. }
  destruct Hl' as [o Hlo].
  set (w1 := set_heap (<[l := mkObj (elems o)
                              (assoc_set "device" (or_else (field o "device") device)
                                 (props o))]> (heap w')) w').
  destruct (invoke_all_returns (VRef l) pre Hpre w1) as (w2 & T2 & Hrun2 & Hr2 & Hh2 & Hinv2).
  pose proof (Hraise w2) as Hc.
  destruct (call_listener c (VRef l) w2) as [[oc w3] t3] eqn:Hcall.
  unfold outcome_of in Hc. simpl in Hc. subst oc.
  assert (Hitem : SmartHomeMQTT.each_item device (VRef l) w'
                  = (Throw e, w3, T2 ++ [EInvoke c (VRef l) (heap w2) t3])).
  { unfold SmartHomeMQTT.each_item.
    mrun (GetV_run l o "device" w' Hlo). mrun (PutV_run l o "device"); [|exact Hlo].
    fold w1.
    rewrite (fire_raises "onSensorData" (VRef l) w1 w2 w3 pre post c e T2 t3);
      [reflexivity| |exact Hrun2|exact Hcall].
    unfold w1. simpl. rewrite Hr. exact Hreg. }
  assert (Hloop : forEach_from (item_at la) (SmartHomeMQTT.each_item device)
                    (length good) (length (VRef l :: rest)) w'
                  = (Throw e, w3, T2 ++ [EInvoke c (VRef l) (heap w2) t3])).
  { cbn [length forEach_from]. rewrite bind_get. unfold item_at at 1.
    destruct Harr as [aps' Hla']. rewrite Hla'. simpl.
    rewrite lookup_app_r by (rewrite length_fmap; lia).
    rewrite length_fmap, Nat.sub_diag. simpl.
    rewrite bind_run, Hitem. reflexivity. }
  subst run. rewrite Hrun, Hloop. unfold outcome_of, trace_of. simpl.
  split; [reflexivity|].
  rewrite !invocations_app, !fmap_app, Hinv, Hinv2, batch_invocations_notifications.
  rewrite <- list_fmap_compose. reflexivity.
Qed.

End Abort.

Lemma loggers_keep_registry (cb : cbid) : keeps_registry (listeners := Sample.loggers) cb.
Proof. intros data w. reflexivity. Qed.

Lemma loggers_return (cbs : list cbid) (data : Val) :
  Forall (λ cb, returns_on (listeners := Sample.loggers) cb data) cbs.
Proof.
  apply Forall_forall. intros cb _ w. exists w, [EConsole "log" "seen"]. split; reflexivity.
Qed.

Lemma batch_stops_at_an_item_that_is_no_object_witness :
  let w := Cases.with_broken_batch in
  heap w !! 2%nat
  = Some (mkObj (Some ((VRef <$> [0%nat]) ++ VNum (of_Z 5) :: [VRef 1%nat])) [])
  ∧ no_object (heap w) (VNum (of_Z 5))
  ∧ outcome_of (SmartHomeMQTT._handleMessage (listeners := Sample.loggers)
                  "iot/sensors" (VRef 3%nat) w) = Throw TypeError
  ∧ fst <$> invocations (trace_of (SmartHomeMQTT._handleMessage (listeners := Sample.loggers)
                                     "iot/sensors" (VRef 3%nat) w))
    = notifications [0%nat; 1%nat; 2%nat] [0%nat].
Proof.
  intros w.
  assert (Hno : no_object (heap w) (VNum (of_Z 5))) by (intros l H; discriminate H).
  split; [vm_compute; reflexivity|]. split; [exact Hno|].
  pose proof (batch_stops_at_an_item_that_is_no_object (listeners := Sample.loggers)
                loggers_keep_registry w 3%nat 2%nat
                (mkObj None [("device", VStr "PI1"); ("items", VRef 2%nat)]) []
                [0%nat] (VNum (of_Z 5)) [VRef 1%nat] [0%nat; 1%nat; 2%nat]) as H.
  destruct H as (Ho & _ & Hn & _).
  - vm_compute. reflexivity.
  - vm_compute. reflexivity.
  - reflexivity.
  - vm_compute. reflexivity.
  - constructor; [vm_compute; eauto|constructor].
  - constructor; [apply loggers_return|constructor].
  - exact Hno.
  - split; [exact Ho|exact Hn].
Defined.

Lemma picky_keep_registry (cb : cbid) : keeps_registry (listeners := Cases.picky) cb.
Proof.
  intros data w. unfold call_listener, Cases.picky.
  destruct cb as [|[|cb]]; try reflexivity.
  destruct data as [| | | | |[|[|l]]]; reflexivity.
Qed.

Lemma batch_stops_at_a_listener_that_raises_witness :
  let w := Sample.with_batch in
  _callbacks (router w) !! "onSensorData" = Some ([0%nat] ++ 1%nat :: [2%nat])
  ∧ (∀ w0, outcome_of (call_listener (Listeners := Cases.picky) 1%nat (VRef 1%nat) w0)
           = Throw (Thrown (VStr "boom")))
  ∧ outcome_of (SmartHomeMQTT._handleMessage (listeners := Cases.picky)
                  "iot/sensors" (VRef 3%nat) w) = Throw (Thrown (VStr "boom"))
  ∧ fst <$> invocations (trace_of (SmartHomeMQTT._handleMessage (listeners := Cases.picky)
                                     "iot/sensors" (VRef 3%nat) w))
    = [(0%nat, VRef 0%nat); (1%nat, VRef 0%nat); (2%nat, VRef 0%nat);
       (0%nat, VRef 1%nat); (1%nat, VRef 1%nat)].
Proof.
  intros w.
  assert (Hraise : ∀ w0, outcome_of (call_listener (Listeners := Cases.picky) 1%nat
                                       (VRef 1%nat) w0) = Throw (Thrown (VStr "boom")))
    by (intros w0; reflexivity).
  split; [vm_compute; reflexivity|]. split; [exact Hraise|].
  apply (batch_stops_at_a_listener_that_raises (listeners := Cases.picky)
           picky_keep_registry w 3%nat 2%nat 1%nat Sample.envelope []
           [0%nat] [] [0%nat] [2%nat] 1%nat (Thrown (VStr "boom"))).
  - vm_compute. reflexivity.
  - reflexivity.
  - reflexivity.
  - vm_compute. reflexivity.
  - constructor; [vm_compute; eauto|]. constructor; [vm_compute; eauto|constructor].
  - constructor; [|constructor].
    apply Forall_forall. intros cb _ w0. exists w0, [EConsole "log" "seen"].
    unfold call_listener, Cases.picky. destruct cb as [|[|cb]]; split; reflexivity.
  - constructor; [|constructor]. intros w0. exists w0, [EConsole "log" "seen"].
    split; reflexivity.
  - exact Hraise.
Defined.

(** ** Payloads that are not envelopes *)

Section Envelopes.
Context {platform : Platform} {listeners : Listeners}.

Lemma handle_no_object (data : Val) (w : World) :
  no_object (heap w) data →
  ∃ h', SmartHomeMQTT._handleMessage (sensors (topics (config (router w)))) data w
        = (Throw TypeError, set_heap h' w, []).
Proof.
  intros Hno. unfold SmartHomeMQTT._handleMessage. rewrite bind_get, String.eqb_refl.
  assert (Hthrow : ∀ k, (data = VUndefined ∨ data = VNull ∨ ∃ l, data = VRef l) →
            GetV data k w = (Throw TypeError, w, [])).
  { intros k [->|[->|[l ->]]]; try reflexivity.
    unfold GetV, get_prop. rewrite bind_get. unfold lift. rewrite (Hno l eq_refl).
    reflexivity. }
  destruct data as [| |b|n|s|l] eqn:Hdata;
    try (exists (heap w); rewrite bind_run, Hthrow by eauto; rewrite set_heap_id;
         reflexivity);
    exists (heap w ++ [mkObj (Some [data]) []]); subst data.
  all: unfold GetV at 1; rewrite bind_run, bind_get; unfold lift at 1; simpl get_prop;
    cbv iota beta; simpl truthy; cbv iota.
  all: mrun alloc_run.
  all: unfold GetV at 1; rewrite bind_run, bind_get; unfold lift at 1; simpl get_prop;
    cbv iota beta.
  all: unfold SmartHomeMQTT.Array_forEach; rewrite bind_get; cbn [heap set_heap];
    rewrite lookup_fresh; unfold forEach; cbn [length forEach_from];
    rewrite bind_get; cbn [heap set_heap]; rewrite lookup_fresh;
    cbn [elems mbind option_bind]; simpl lookup;
    rewrite bind_run, each_item_no_object by (intros l H; discriminate H);
    reflexivity.
Qed.

Lemma handle_items_no_array (ld : loc) (od : Obj) (w : World) :
  heap w !! ld = Some od →
  truthy (field od "items") = true →
  is_array (heap w) (field od "items") = false →
  SmartHomeMQTT._handleMessage (sensors (topics (config (router w)))) (VRef ld) w
  = (Throw TypeError, w, []).
Proof.
  intros Hld Htruthy Harr.
  unfold SmartHomeMQTT._handleMessage. rewrite bind_get, String.eqb_refl.
  mrun (GetV_run ld od "items" w Hld). rewrite Htruthy, bind_ret.
  mrun (GetV_run ld od "device" w Hld).
  unfold SmartHomeMQTT.Array_forEach. rewrite bind_get.
  destruct (field od "items") as [| | | | |la]; try reflexivity.
  simpl in Harr. destruct (heap w !! la) as [[[es|] aps]|]; [discriminate| |]; reflexivity.
Qed.

(** X7: a sensor message that parses but is no envelope reaches no
    listener.  When the decoded payload is not an object (a number, a
    string, a boolean, null), or is an object whose [items] are truthy
    without being an array, the handler of the message logs the warning
    "Parse error" and returns: no listener is called, nothing is
    published, and the client, the page and the record of times are as
    before. *)
Theorem malformed_envelope_reaches_no_listener (payload : string) (j : Json) (w : World) :
  JSON_parse payload = Some j →
  malformed_envelope (snd (alloc_json j (heap w))) (fst (alloc_json j (heap w))) →
  ∃ h',
    SmartHomeMQTT.client_on_message (sensors (topics (config (router w)))) payload w
    = (Ret tt, set_heap h' w, [EConsole "warn" "[MQTT] Parse error:"]).
Proof.
  intros Hparse Hbad. rewrite (client_on_message_parsed _ payload j w Hparse).
  destruct (alloc_json j (heap w)) as [data h]. cbn [fst snd] in *.
  destruct Hbad as [Hno|(ld & od & -> & Hld & Htruthy & Harr)].
  - destruct (handle_no_object data (set_heap h w) Hno) as [h' Hrun].
    exists h'. simpl in Hrun. rewrite Hrun. reflexivity.
  - exists h.
    pose proof (handle_items_no_array ld od (set_heap h w) Hld Htruthy Harr) as Hrun.
    simpl in Hrun. rewrite Hrun. reflexivity.
Qed.

End Envelopes.

Lemma malformed_envelope_reaches_no_listener_witness :
  JSON_parse (Platform := Sample.platform) "7" = Some (JNum (of_Z 7))
  ∧ malformed_envelope (heap Sample.started) (VNum (of_Z 7))
  ∧ ∃ h',
      SmartHomeMQTT.client_on_message (platform := Sample.platform)
        (listeners := App.listeners (platform := Sample.platform)) "iot/sensors" "7"
        Sample.started
      = (Ret tt, set_heap h' Sample.started, [EConsole "warn" "[MQTT] Parse error:"]).
Proof.
  assert (Hbad : malformed_envelope (heap Sample.started) (VNum (of_Z 7)))
    by (left; intros l H; discriminate H).
  split; [reflexivity|]. split; [exact Hbad|].
  exact (malformed_envelope_reaches_no_listener (platform := Sample.platform)
           (listeners := App.listeners (platform := Sample.platform))
           "7" (JNum (of_Z 7)) Sample.started eq_refl Hbad).
Defined.

(** ** Class lists *)

Section ClassLists.

Lemma append_assoc (s1 s2 s3 : string) : (s1 +:+ s2) +:+ s3 = s1 +:+ (s2 +:+ s3).
Proof.
  induction s1 as [|a s1 IH]; [reflexivity|].
  change (String a ((s1 +:+ s2) +:+ s3) = String a (s1 +:+ (s2 +:+ s3))).
  f_equal. exact IH.
Qed.

Lemma append_nil_r (s : string) : s +:+ "" = s.
Proof.
  induction s as [|a s IH]; [reflexivity|].
  change (String a (s +:+ "") = String a s). f_equal. exact IH.
Qed.

Lemma is_token_spec (t : string) :
  is_token t = true →
  t ≠ "" ∧ forallb (λ a, negb (is_ascii_whitespace a)) (list_ascii_of_string t) = true.
Proof.
  unfold is_token. intros H. apply andb_prop in H as [H1 H2]. split; [|exact H2].
  intros ->. discriminate H1.
Qed.

(** Splitting runs over a stretch without white space. *)
Lemma split_with_token (t : string) :
  forallb (λ a, negb (is_ascii_whitespace a)) (list_ascii_of_string t) = true →
  ∀ rest cur,
    split_with is_ascii_whitespace (t +:+ rest) cur
    = split_with is_ascii_whitespace rest (cur +:+ t).
Proof.
  induction t as [|a t IH]; intros Hws rest cur.
  - change ("" +:+ rest) with rest. rewrite append_nil_r. reflexivity.
  - simpl in Hws. apply andb_prop in Hws as [Ha Ht].
    change (String a t +:+ rest) with (String a (t +:+ rest)). cbn [split_with].
    destruct (is_ascii_whitespace a); [discriminate|].
    rewrite (IH Ht). f_equal. rewrite append_assoc. reflexivity.
Qed.

Lemma split_join (ts : list string) :
  Forall (λ t, is_token t = true) ts →
  List.filter (λ t, negb (String.eqb t "")) (split_with is_ascii_whitespace (join " " ts) "")
  = ts.
Proof.
  induction ts as [|t ts IH]; intros Hts; [reflexivity|].
  apply Forall_cons in Hts as [Ht Hts]. apply is_token_spec in Ht as [Hne Hws].
  assert (Hkeep : negb (String.eqb t "") = true).
  { destruct (String.eqb_spec t ""); [contradiction|reflexivity]. }
  destruct ts as [|t2 ts].
  - change (join " " [t]) with t. rewrite <- (append_nil_r t) at 1.
    rewrite (split_with_token t Hws). change ("" +:+ t) with t.
    cbn [split_with List.filter]. rewrite Hkeep. reflexivity.
  - change (join " " (t :: t2 :: ts)) with (t +:+ (" " +:+ join " " (t2 :: ts))).
    rewrite (split_with_token t Hws). change ("" +:+ t) with t.
    change (split_with is_ascii_whitespace (" " +:+ join " " (t2 :: ts)) t)
      with (t :: split_with is_ascii_whitespace (join " " (t2 :: ts)) "").
    cbn [List.filter]. rewrite Hkeep. f_equal. apply IH. exact Hts.
Qed.

Lemma filter_all {A} (f : A → bool) (l : list A) :
  Forall (λ x, f x = true) l → List.filter f l = l.
Proof.
  induction 1 as [|x l Hx _ IH]; [reflexivity|]. simpl. rewrite Hx, IH. reflexivity.
Qed.

Lemma dedup_strings_NoDup (l : list string) : NoDup l → dedup_strings l = l.
Proof.
  induction 1 as [|x l Hx _ IH]; [reflexivity|]. simpl. rewrite IH. f_equal.
  apply filter_all. apply Forall_forall. intros y Hy.
  destruct (String.eqb_spec x y) as [->|_]; [contradiction|reflexivity].
Qed.

Lemma In_filter_iff {A} (f : A → bool) (l : list A) (x : A) :
  In x (List.filter f l) ↔ In x l ∧ f x = true.
Proof. apply filter_In. Qed.

Lemma dedup_strings_In (l : list string) (x : string) : In x (dedup_strings l) ↔ In x l.
Proof.
  induction l as [|y l IH]; [reflexivity|]. simpl. rewrite In_filter_iff, IH.
  destruct (String.eqb_spec y x) as [->|Hne]; simpl; [tauto|].
  split; [tauto|]. intros [H|H]; [contradiction|]. right. split; [exact H|reflexivity].
Qed.

Lemma NoDup_filter' {A} (f : A → bool) (l : list A) : NoDup l → NoDup (List.filter f l).
Proof.
  induction 1 as [|x l Hx _ IH]; [constructor|]. simpl. destruct (f x); [|exact IH].
  constructor; [|exact IH]. rewrite list_elem_of_In, In_filter_iff, <- list_elem_of_In. tauto.
Qed.

Lemma dedup_strings_is_NoDup (l : list string) : NoDup (dedup_strings l).
Proof.
  induction l as [|x l IH]; [constructor|]. simpl. constructor.
  - rewrite list_elem_of_In, In_filter_iff. intros [_ H].
    rewrite String.eqb_refl in H. discriminate H.
  - apply NoDup_filter'. exact IH.
Qed.

(** The pieces of a split have no white space. *)
Lemma split_with_pieces (s : string) :
  ∀ cur,
    forallb (λ a, negb (is_ascii_whitespace a)) (list_ascii_of_string cur) = true →
    Forall (λ t, forallb (λ a, negb (is_ascii_whitespace a)) (list_ascii_of_string t) = true)
           (split_with is_ascii_whitespace s cur).
Proof.
  induction s as [|a s IH]; intros cur Hcur.
  - simpl. constructor; [exact Hcur|constructor].
  - simpl. destruct (is_ascii_whitespace a) eqn:Ha.
    + constructor; [exact Hcur|]. apply IH. reflexivity.
    + apply IH. clear IH. induction cur as [|b cur IHc]; simpl in *.
      * rewrite Ha. reflexivity.
      * apply andb_prop in Hcur as [Hb Hc]. rewrite Hb. simpl. apply IHc. exact Hc.
Qed.

Lemma tokens_clean (cn : string) :
  Forall (λ t, is_token t = true) (tokens cn) ∧ NoDup (tokens cn).
Proof.
  unfold tokens. split; [|apply dedup_strings_is_NoDup].
  apply Forall_forall. intros t Ht.
  apply list_elem_of_In, dedup_strings_In, In_filter_iff in Ht as [Hin Hne].
  unfold is_token. rewrite Hne. simpl.
  pose proof (split_with_pieces cn "" eq_refl) as Hp. rewrite Forall_forall in Hp.
  apply Hp, list_elem_of_In, Hin.
Qed.

(** Reading back the class names that were written. *)
Lemma tokens_join (ts : list string) :
  Forall (λ t, is_token t = true) ts → NoDup ts → tokens (join " " ts) = ts.
Proof.
  intros Hts Hnd. unfold tokens. rewrite (split_join ts Hts).
  apply dedup_strings_NoDup. exact Hnd.
Qed.

Lemma tokens_classList_add (c cn : string) :
  is_token c = true →
  tokens (classList_add c cn)
  = if one_of c (tokens cn) then tokens cn else tokens cn ++ [c].
Proof.
  intros Hc. unfold classList_add. destruct (tokens_clean cn) as [Hts Hnd].
  destruct (one_of c (tokens cn)) eqn:Hin.
  - apply tokens_join; assumption.
  - apply tokens_join.
    + apply Forall_app. split; [exact Hts|]. constructor; [exact Hc|constructor].
    + apply NoDup_app. split; [exact Hnd|]. split; [|apply NoDup_singleton].
      intros x Hx Hxc. apply list_elem_of_singleton in Hxc. subst x.
      apply list_elem_of_In, one_of_In in Hx. congruence.
Qed.

Lemma tokens_classList_remove (c cn : string) :
  tokens (classList_remove c cn)
  = List.filter (λ t, negb (String.eqb t c)) (tokens cn).
Proof.
  unfold classList_remove. destruct (tokens_clean cn) as [Hts Hnd].
  apply tokens_join.
  - apply Forall_forall. intros t Ht. rewrite Forall_forall in Hts. apply Hts.
    apply list_elem_of_In, In_filter_iff in Ht as [Ht _]. apply list_elem_of_In, Ht.
  - apply NoDup_filter'. exact Hnd.
Qed.

Lemma filter_absent (c : string) (ts : list string) :
  one_of c ts = false → List.filter (λ t, negb (String.eqb t c)) ts = ts.
Proof.
  intros Habs. apply filter_all, Forall_forall. intros t Ht.
  destruct (String.eqb_spec t c) as [->|_]; [|reflexivity].
  apply list_elem_of_In, one_of_In in Ht. congruence.
Qed.

Lemma tokens_classList_toggle (c cn : string) (force : bool) :
  is_token c = true →
  tokens (classList_toggle c force cn)
  = if force then (if one_of c (tokens cn) then tokens cn else tokens cn ++ [c])
    else List.filter (λ t, negb (String.eqb t c)) (tokens cn).
Proof.
  intros Hc. unfold classList_toggle.
  destruct (one_of c (tokens cn)) eqn:Hin, force.
  - reflexivity.
  - apply tokens_classList_remove.
  - pose proof (tokens_classList_add c cn Hc) as H. unfold classList_add in H.
    rewrite Hin in H. exact H.
  - symmetry. apply filter_absent. exact Hin.
Qed.





End ClassLists.

(** ** The kitchen timer *)

Section Timer.
Context {platform : Platform}.

Lemma alter_present {A} (f : A → A) (id : string) (m : gmap string A) (x : A) :
  m !! id = Some x → alter f id m = <[id := f x]> m.
Proof.
  intros Hx. apply map_eq. intros k. destruct (decide (id = k)) as [<-|Hne].
  - rewrite lookup_alter_eq, lookup_insert_eq, Hx. reflexivity.
  - rewrite lookup_alter_ne, lookup_insert_ne by exact Hne. reflexivity.
Qed.




End Timer.

(** ** Motion sensors *)

Section Motion.
Context {platform : Platform}.

Lemma length_append (s1 s2 : string) :
  String.length (s1 +:+ s2) = (String.length s1 + String.length s2)%nat.
Proof.
  induction s1 as [|a s1 IH]; [reflexivity|].
  change (S (String.length (s1 +:+ s2)) = S (String.length s1 + String.length s2)).
  f_equal. exact IH.
Qed.

Lemma card_is_not_state (id : string) : "card-" +:+ id ≠ id +:+ "-state".
Proof.
  intros H. apply (f_equal String.length) in H. rewrite !length_append in H.
  simpl in H. lia.
Qed.

Lemma one_of_toggle (c cn : string) (force : bool) :
  is_token c = true → one_of c (tokens (classList_toggle c force cn)) = force.
Proof.
  intros Hc. rewrite tokens_classList_toggle by exact Hc. destruct force.
  - destruct (one_of c (tokens cn)) eqn:Hin; [exact Hin|].
    apply one_of_In, in_or_app. right. left. reflexivity.
  - destruct (one_of c _) eqn:H; [|reflexivity].
    apply one_of_In, In_filter_iff in H as [_ H]. rewrite String.eqb_refl in H.
    discriminate H.
Qed.

Lemma others_toggle (c cn t : string) (force : bool) :
  is_token c = true → t ≠ c →
  In t (tokens (classList_toggle c force cn)) ↔ In t (tokens cn).
Proof.
  intros Hc Hne. rewrite tokens_classList_toggle by exact Hc. destruct force.
  - destruct (one_of c (tokens cn)); [reflexivity|].
    rewrite in_app_iff. simpl. split; [|tauto]. intros [H|[H|[]]]; [exact H|congruence].
  - rewrite In_filter_iff. destruct (String.eqb_spec t c); [contradiction|]. simpl. tauto.
Qed.

Lemma updateMotion_run (s : string) (value : Val) (w : World) :
  let id := toLowerCase_string s in
  Dashboard._updateMotion (VStr s) value w
  = (Ret tt,
     set_document
       (alter (λ e, set_className
                      (classList_toggle "sensor-active" (Dashboard.active value) (className e))
                      e)
              ("card-" +:+ id)
          (alter (λ e, set_className
                         ("badge mt-1 "
                            +:+ (if Dashboard.active value then "bg-danger" else "bg-secondary"))
                         (set_textContent
                            (if Dashboard.active value then "MOTION" else "CLEAR") e))
                 (id +:+ "-state") (document w))) w,
     []).
Proof.
  intros id. unfold Dashboard._updateMotion, getElementById, update_element, toLowerCase.
  mstep. fold id.
  destruct (document w !! (id +:+ "-state")) as [st|] eqn:Hst;
    destruct (document w !! ("card-" +:+ id)) as [card|] eqn:Hcard; mstep.
  - reflexivity.
  - rewrite (alter_id' _ _ ("card-" +:+ id)); [reflexivity|].
    rewrite lookup_alter_ne by (intros H; symmetry in H; apply (card_is_not_state id H)).
    exact Hcard.
  - rewrite (alter_id' _ _ (id +:+ "-state") Hst). reflexivity.
  - rewrite (alter_id' _ _ (id +:+ "-state") Hst).
    rewrite (alter_id' _ _ ("card-" +:+ id) Hcard). rewrite set_document_id. reflexivity.
Qed.

(** X9: a motion card is marked active exactly while motion is
    reported.  Only the number 1 and the boolean true report motion: the
    string "1", the number 2, 0, false and null do not.  After the update
    for a motion sensor, the card of the sensor (when the page has it)
    carries the class sensor-active if and only if the value reports
    motion, whatever classes it carried before, and keeps its other
    classes and its text; the badge of the sensor (when the page has it)
    reads MOTION on bg-danger, or CLEAR on bg-secondary; no other element
    changes, and the call returns. *)
Theorem motion_card_is_active_while_motion_is_reported (s : string) (value : Val)
    (w : World) :
  let id := toLowerCase_string s in
  let run := Dashboard._updateMotion (VStr s) value w in
  let detected := Dashboard.active value in
  outcome_of run = Ret tt
  ∧ (∀ card, document w !! ("card-" +:+ id) = Some card →
       ∃ card', document (world_of run) !! ("card-" +:+ id) = Some card'
                ∧ has_class "sensor-active" card' = detected
                ∧ (∀ t, t ≠ "sensor-active" →
                     In t (tokens (className card')) ↔ In t (tokens (className card)))
                ∧ textContent card' = textContent card)
  ∧ (∀ badge, document w !! (id +:+ "-state") = Some badge →
       document (world_of run) !! (id +:+ "-state")
       = Some (set_className
                 ("badge mt-1 " +:+ (if detected then "bg-danger" else "bg-secondary"))
                 (set_textContent (if detected then "MOTION" else "CLEAR") badge)))
  ∧ (∀ k, k ≠ "card-" +:+ id → k ≠ id +:+ "-state" →
       document (world_of run) !! k = document w !! k)
  ∧ Dashboard.active (VNum (of_Z 1)) = true
  ∧ Dashboard.active (VBool true) = true
  ∧ Forall (λ v, Dashboard.active v = false)
      [VStr "1"; VNum (of_Z 2); VNum zero; VBool false; VNull; VUndefined; VStr "true"].
Proof.
  intros id run detected. subst run. rewrite updateMotion_run. fold id. fold detected.
  unfold outcome_of, world_of. simpl.
  split; [reflexivity|]. split.
  { intros card Hcard. rewrite lookup_alter_eq.
    rewrite lookup_alter_ne by (intros H; symmetry in H; apply (card_is_not_state id H)).
    rewrite Hcard. simpl. eexists. split; [reflexivity|].
    unfold has_class. simpl.
    split; [apply one_of_toggle; reflexivity|].
    split; [intros t Ht; apply others_toggle; [reflexivity|exact Ht]|reflexivity]. }
  split.
  { intros badge Hbadge.
    rewrite lookup_alter_ne by apply card_is_not_state.
    rewrite lookup_alter_eq, Hbadge. reflexivity. }
  split.
  { intros k Hk1 Hk2. rewrite !lookup_alter_ne by congruence. reflexivity. }
  split; [reflexivity|]. split; [reflexivity|]. repeat constructor.
Qed.

End Motion.

(** ** The alarm badge *)

Section Alarm.
Context {platform : Platform}.

Lemma badge_is_not_card : "alarm-card" ≠ "alarm-state".
Proof. discriminate. Qed.

(** The update for a state that is a string, on a page that has the badge
    and the card, up to the choice of the styles. *)
Lemma updateAlarmState_string (s : string) (w : World) (el card : Element) :
  document w !! "alarm-state" = Some el →
  document w !! "alarm-card" = Some card →
  let reset :=
    set_document (<["alarm-card" := set_className "card h-100" card]>
                    (<["alarm-state" := set_className "badge fs-6" (set_textContent s el)]>
                       (document w))) w in
  Dashboard.updateAlarmState (VStr s) w
  = match snd <$> List.find (λ p, String.eqb (fst p) s) Dashboard.alarm_map with
    | Some (badge, border) =>
        (Ret tt,
         set_document
           (<["alarm-card" :=
                set_className (if String.eqb border "" then "card h-100"
                               else classList_add border "card h-100") card]>
              (<["alarm-state" :=
                   set_className (fold_left (λ cn c, classList_add c cn) (split_space badge)
                                    "badge fs-6") (set_textContent s el)]>
                 (document w))) w,
         [])
    | None =>
        if inherited s then (Throw TypeError, reset, [])
        else
          (Ret tt,
           set_document
             (<["alarm-card" := set_className "card h-100" card]>
                (<["alarm-state" := set_className "badge fs-6 bg-secondary"
                                      (set_textContent s el)]>
                   (document w))) w,
           [])
    end.
Proof.
  intros Hel Hcard reset. subst reset.
  assert (Hcard1 : ∀ x, <["alarm-state" := x]> (document w) !! "alarm-card" = Some card)
    by (intros x; rewrite lookup_insert_ne by (symmetry; apply badge_is_not_card);
        exact Hcard).
  assert (Hel2 : ∀ x y, <["alarm-card" := y]> (<["alarm-state" := x]> (document w))
                        !! "alarm-state" = Some x)
    by (intros x y; rewrite lookup_insert_ne by apply badge_is_not_card;
        apply lookup_insert_eq).
  assert (Hswap : ∀ x y z,
            <["alarm-state" := z]> (<["alarm-card" := y]> (<["alarm-state" := x]> (document w)))
            = <["alarm-card" := y]> (<["alarm-state" := z]> (document w))).
  { intros x y z.
    rewrite (insert_insert_ne _ "alarm-state" "alarm-card")
      by (symmetry; apply badge_is_not_card).
    rewrite insert_insert_eq. reflexivity. }
  unfold Dashboard.updateAlarmState, getElementById, update_element.
  cbn [typeof String.eqb Ascii.eqb Bool.eqb].
  mstep. rewrite Hel, Hcard. mstep.
  change (ToString (heap w) (VStr s)) with s.
  change (text_of (heap w) (VStr s)) with s.
  destruct (snd <$> List.find (λ p, String.eqb (fst p) s) Dashboard.alarm_map)
    as [[badge border]|]; [|destruct (inherited s)]; mstep.
  1: destruct (String.eqb border ""); cbn [negb]; mstep.
  all: cbn [document set_document className set_className set_textContent];
    rewrite (alter_present _ "alarm-state" _ _ Hel);
    rewrite (alter_present _ "alarm-card" _ _ (Hcard1 _));
    rewrite ?(alter_present _ "alarm-state" _ _ (Hel2 _ _)), ?Hswap;
    try reflexivity.
  rewrite (alter_present _ "alarm-card" _ (set_className "card h-100" card))
    by apply lookup_insert_eq.
  rewrite insert_insert_eq. reflexivity.
Qed.

(** The update for an object that carries a state which is a non-empty
    string is the update for that string. *)
Lemma updateAlarmState_object (l : loc) (o : Obj) (s : string) (w : World) :
  heap w !! l = Some o →
  field o "state" = VStr s →
  s ≠ "" →
  Dashboard.updateAlarmState (VRef l) w = Dashboard.updateAlarmState (VStr s) w.
Proof.
  intros Hl Hs Hne. unfold Dashboard.updateAlarmState.
  cbn [typeof String.eqb Ascii.eqb Bool.eqb].
  rewrite (bind_run (bind (GetV (VRef l) "state") _)), bind_run, (GetV_run l o "state" w Hl).
  rewrite Hs. unfold or_else. simpl truthy.
  destruct (String.eqb_spec s "") as [Heq|_]; [contradiction|]. simpl negb. cbv iota.
  rewrite (bind_run (ret (VStr s))). unfold ret at 1 2. reflexivity.
Qed.

(** X10: the alarm badge shows the state with the styles of the table.
    For each of the five states of the table, on a page that has the
    badge and the card, the badge reads the state and its classes are
    "badge fs-6" followed by the badge classes of the state, and the
    classes of the card are "card h-100" followed by the border class of
    the state, which is "alarm-" and the state in lower case.  The
    classes that the badge and the card had before are dropped, so that
    the styles of an earlier state never add up.  The payload may be the
    state itself or an object that carries it as [state]: both give the
    same page. *)
Theorem alarm_badge_shows_the_state (s badge border : string) (w : World)
    (el card : Element) (l : loc) (o : Obj) :
  document w !! "alarm-state" = Some el →
  document w !! "alarm-card" = Some card →
  In (s, (badge, border)) Dashboard.alarm_map →
  heap w !! l = Some o →
  field o "state" = VStr s →
  Dashboard.updateAlarmState (VStr s) w
  = (Ret tt,
     set_document
       (<["alarm-card" := set_className ("card h-100 " +:+ border) card]>
          (<["alarm-state" := set_className ("badge fs-6 " +:+ badge) (set_textContent s el)]>
             (document w))) w,
     [])
  ∧ Dashboard.updateAlarmState (VRef l) w = Dashboard.updateAlarmState (VStr s) w
  ∧ border = "alarm-" +:+ toLowerCase_string s.
Proof.
  intros Hel Hcard Hin Hl Hs.
  pose proof (updateAlarmState_string s w el card Hel Hcard) as Hrun. cbv zeta in Hrun.
  assert (Hne : s ≠ "").
  { simpl in Hin.
    destruct Hin as [H|[H|[H|[H|[H|[]]]]]]; injection H as <- _ _; discriminate. }
  split; [|split; [apply (updateAlarmState_object l o s w Hl Hs Hne)|]].
  - rewrite Hrun. simpl in Hin.
    destruct Hin as [H|[H|[H|[H|[H|[]]]]]]; injection H as <- <- <-; reflexivity.
  - simpl in Hin.
    destruct Hin as [H|[H|[H|[H|[H|[]]]]]]; injection H as <- <- <-; reflexivity.
Qed.

(** X11: what the alarm badge does with a state that the table does not
    have.  For a state that is a string outside the table, on a page that
    has the badge and the card: the badge reads the state on the classes
    "badge fs-6 bg-secondary" and the card has the classes "card h-100",
    without a border class; except that a state named like a member that
    every object inherits (constructor, toString, ...) makes the call
    raise a TypeError after the badge and the card were reset.  On a page
    without the badge the call changes nothing, whatever it is given. *)
Theorem alarm_badge_falls_back_to_grey (s : string) (data : Val) (w : World)
    (el card : Element) :
  document w !! "alarm-state" = Some el →
  document w !! "alarm-card" = Some card →
  ¬ In s (fst <$> Dashboard.alarm_map) →
  (inherited s = false →
     Dashboard.updateAlarmState (VStr s) w
     = (Ret tt,
        set_document
          (<["alarm-card" := set_className "card h-100" card]>
             (<["alarm-state" := set_className "badge fs-6 bg-secondary"
                                   (set_textContent s el)]>
                (document w))) w,
        []))
  ∧ (inherited s = true →
       Dashboard.updateAlarmState (VStr s) w
       = (Throw TypeError,
          set_document
            (<["alarm-card" := set_className "card h-100" card]>
               (<["alarm-state" := set_className "badge fs-6" (set_textContent s el)]>
                  (document w))) w,
          []))
  ∧ (∀ w', document w' !! "alarm-state" = None →
       world_of (Dashboard.updateAlarmState data w') = w'
       ∧ trace_of (Dashboard.updateAlarmState data w') = []).
Proof.
  intros Hel Hcard Hout.
  pose proof (updateAlarmState_string s w el card Hel Hcard) as Hrun. cbv zeta in Hrun.
  assert (Hfind : snd <$> List.find (λ p, String.eqb (fst p) s) Dashboard.alarm_map = None).
  { destruct (List.find _ _) as [p|] eqn:Hf; [|reflexivity].
    apply find_some in Hf as [Hp Heq]. apply String.eqb_eq in Heq. exfalso. apply Hout.
    rewrite <- Heq. apply list_elem_of_In, list_elem_of_fmap. exists p.
    split; [reflexivity|apply list_elem_of_In, Hp]. }
  rewrite Hfind in Hrun.
  split; [intros Hi; rewrite Hi in Hrun; exact Hrun|].
  split; [intros Hi; rewrite Hi in Hrun; exact Hrun|].
  intros w' Hnone. unfold Dashboard.updateAlarmState, getElementById, GetV.
  destruct (String.eqb (typeof data) "string").
  - mstep. rewrite Hnone. split; reflexivity.
  - unfold bind, get, lift, ret.
    destruct (get_prop (heap w') data "state") as [v|e]; [|split; reflexivity].
    rewrite Hnone. split; reflexivity.
Qed.

End Alarm.

(** ** The device of a reading *)

Section Device.
Context {platform : Platform}.


End Device.

(** ** The elements that a reading writes to *)

Section Footprint.
Context {platform : Platform}.

Lemma writes_only_ret {A} (ids : list string) (a : A) : writes_only ids (ret a).
Proof. intros w id _. reflexivity. Qed.

Lemma writes_only_throw {A} (ids : list string) (e : Exn) :
  writes_only ids (throw (A := A) e).
Proof. intros w id _. reflexivity. Qed.

Lemma writes_only_get (ids : list string) : writes_only ids get.
Proof. intros w id _. reflexivity. Qed.

Lemma writes_only_lift {A} (ids : list string) (o : Outcome A) : writes_only ids (lift o).
Proof. intros w id _. reflexivity. Qed.

Lemma writes_only_bind {A B} (ids : list string) (m : M A) (k : A → M B) :
  writes_only ids m → (∀ a, writes_only ids (k a)) → writes_only ids (bind m k).
Proof.
  intros Hm Hk w id Hid. specialize (Hm w id Hid). rewrite bind_run.
  destruct (m w) as [[[a|e] w1] t1]; unfold world_of in *; simpl in *; [|exact Hm].
  specialize (Hk a w1 id Hid). destruct (k a w1) as [[o2 w2] t2].
  unfold world_of in *; simpl in *. congruence.
Qed.

Lemma writes_only_bind_ret {A B} (ids : list string) (a : A) (k : A → M B) :
  writes_only ids (k a) → writes_only ids (bind (ret a) k).
Proof. intros Hk w id Hid. rewrite bind_ret. apply Hk. exact Hid. Qed.

Lemma writes_only_bind_throw {A B} (ids : list string) (e : Exn) (k : A → M B) :
  writes_only ids (bind (throw e) k).
Proof. intros w id Hid. reflexivity. Qed.

Lemma writes_only_update (ids : list string) (id : string) (f : Element → Element) :
  In id ids → writes_only ids (update_element id f).
Proof.
  intros Hin w id' Hid. unfold update_element, modify, world_of. simpl.
  apply lookup_alter_ne. intros <-. contradiction.
Qed.

Lemma writes_only_lastUpdate_set (ids : list string) (key : string) (t : Z) :
  writes_only ids (Dashboard.lastUpdate_set key t).
Proof.
  intros w id _. unfold Dashboard.lastUpdate_set.
  destruct (String.eqb key "__proto__"); reflexivity.
Qed.

End Footprint.

Create HintDb footprint.

#[local] Hint Resolve writes_only_ret writes_only_throw writes_only_get writes_only_lift
  writes_only_lastUpdate_set : footprint.

Ltac footprint_step :=
  match goal with
  | |- writes_only _ (bind _ _) => apply writes_only_bind; [|intros]
  | |- writes_only _ (update_element _ _) => apply writes_only_update; simpl; tauto
  | |- writes_only _ (match ?x with _ => _ end) => destruct x
  | |- writes_only _ _ => solve [auto with footprint]
  end.

Ltac footprint_steps := repeat footprint_step.

Section FootprintOfReducers.
Context {platform : Platform}.

Lemma writes_only_getElementById (ids : list string) (id : string) :
  writes_only ids (getElementById id).
Proof. unfold getElementById. footprint_steps. Qed.

Lemma writes_only_GetV (ids : list string) (v : Val) (k : string) :
  writes_only ids (GetV v k).
Proof. unfold GetV. footprint_steps. Qed.

Lemma writes_only_Date_now (ids : list string) : writes_only ids Dashboard.Date_now.
Proof. unfold Dashboard.Date_now. footprint_steps. Qed.

Lemma writes_only_timeAgo (ids : list string) (date : option Z) :
  writes_only ids (Dashboard._timeAgo date).
Proof.
  unfold Dashboard._timeAgo. destruct date; [|apply writes_only_ret].
  apply writes_only_bind; [apply writes_only_Date_now|intros].
  repeat match goal with |- writes_only _ (if ?b then _ else _) => destruct b end;
    apply writes_only_ret.
Qed.

End FootprintOfReducers.

#[local] Hint Resolve writes_only_getElementById writes_only_GetV writes_only_Date_now
  writes_only_timeAgo : footprint.

Section FootprintOfReadings.
Context {platform : Platform}.

Lemma writes_only_setText (ids : list string) (id : string) (text : Val) :
  In id ids → writes_only ids (Dashboard._setText id text).
Proof. intros Hin. unfold Dashboard._setText. footprint_steps. Qed.

Lemma writes_only_touch (ids : list string) (device : Val) :
  (∀ id, In id (device_elements device) → In id ids) →
  writes_only ids (Dashboard.touch device).
Proof.
  intros Hsub. unfold Dashboard.touch. destruct (truthy device); [|apply writes_only_ret].
  destruct device as [| | | |d|]; simpl in Hsub;
    try (unfold toLowerCase;
         do 3 (apply writes_only_bind; [solve [auto with footprint]|intros]);
         apply (writes_only_bind_throw ids TypeError); fail).
  unfold toLowerCase, Dashboard._updatePiStatus, toLowerCase.
  do 3 (apply writes_only_bind; [solve [auto with footprint]|intros]).
  apply (writes_only_bind_ret ids (toLowerCase_string d)).
  apply writes_only_bind; [solve [auto with footprint]|intros].
  apply writes_only_bind; [|intros].
  - apply writes_only_setText. apply Hsub. simpl. tauto.
  - apply (writes_only_bind_ret ids (toLowerCase_string d)).
    apply writes_only_bind; [solve [auto with footprint]|intros].
    match goal with |- writes_only _ (match ?x with _ => _ end) => destruct x end;
      [|apply writes_only_ret].
    apply writes_only_update. apply Hsub. simpl. tauto.
Qed.

End FootprintOfReadings.

Ltac footprint_member :=
  first [ solve [simpl; tauto]
        | match goal with
          | H : ∀ id, In id _ → In id ?ids |- In _ ?ids => apply H; simpl; tauto
          end ].

Ltac reading_step :=
  match goal with
  | |- writes_only _ (bind (lift (Ret ?a)) _) => apply (writes_only_bind_ret _ a)
  | |- writes_only _ (bind _ _) => apply writes_only_bind; [|intros]
  | |- writes_only _ (update_element _ _) => apply writes_only_update; footprint_member
  | |- writes_only _ (Dashboard._setText _ _) => apply writes_only_setText; footprint_member
  | |- writes_only _ (match ?x with _ => _ end) => destruct x
  | |- writes_only _ _ => solve [auto with footprint]
  end.

Section FootprintOfDispatch.
Context {platform : Platform}.

Lemma writes_only_dispatch (ids : list string) (item sensor value : Val) :
  (∀ id, In id (sensor_elements sensor) → In id ids) →
  writes_only ids (Dashboard.dispatch item sensor value).
Proof.
  intros Hsub. unfold Dashboard.dispatch.
  destruct sensor as [| | | |s|]; try apply writes_only_ret.
  unfold sensor_elements in Hsub.
  destruct (one_of s ["DHT1"; "DHT2"; "DHT3"]).
  { unfold Dashboard._updateDHT, toLowerCase. repeat reading_step. }
  destruct (one_of s ["DPIR1"; "DPIR2"; "DPIR3"]).
  { unfold Dashboard._updateMotion, toLowerCase. repeat reading_step. }
  destruct (one_of s ["DS1"; "DS2"]).
  { unfold Dashboard._updateDoor, toLowerCase. repeat reading_step. }
  destruct (one_of s ["DUS1"; "DUS2"]).
  { unfold Dashboard._updateDistance, toLowerCase. repeat reading_step. }
  destruct (String.eqb s "DL").
  { unfold Dashboard._updateOnOff. repeat reading_step. }
  destruct (String.eqb s "DB").
  { unfold Dashboard._updateOnOff. repeat reading_step. }
  destruct (String.eqb s "BRGB").
  { unfold Dashboard._updateRGB. repeat reading_step. }
  destruct (String.eqb s "GSG").
  { unfold Dashboard._updateGyroscope. repeat reading_step. }
  destruct (String.eqb s "4SD").
  { unfold Dashboard._updateTimer. repeat reading_step. }
  apply writes_only_ret.
Qed.

(** X13: a reading is shown on the elements of its own sensor and of
    its own device, and nowhere else.  Whatever the item is, its device
    being no string or a string of ASCII characters, and whether the call
    returns or raises, [updateSensor] writes to no element of the page
    other than the label and the status badge of the item's device and
    the elements that belong to the item's sensor by its kind (none for a
    kind that the dashboard does not know); in particular a reading of
    one sensor leaves the cards of the other sensors as they were. *)
Theorem reading_is_shown_on_its_own_elements (l : loc) (o : Obj) (w : World)
    (id : string) :
  heap w !! l = Some o →
  (∀ d, field o "device" = VStr d → ascii_text d = true) →
  ¬ In id (device_elements (field o "device") ++ sensor_elements (field o "sensor")) →
  document (world_of (Dashboard.updateSensor (VRef l) w)) !! id = document w !! id.
Proof.
  intros Hl _ Hid.
  assert (H : writes_only
                (device_elements (field o "device") ++ sensor_elements (field o "sensor"))
                (Dashboard.touch (field o "device") ;;;
                 Dashboard.dispatch (VRef l) (field o "sensor") (field o "value"))).
  { apply writes_only_bind; [|intros].
    - apply writes_only_touch. intros id' Hin. apply in_or_app. left. exact Hin.
    - apply writes_only_dispatch. intros id' Hin. apply in_or_app. right. exact Hin. }
  specialize (H w id Hid). unfold Dashboard.updateSensor.
  rewrite bind_run, (GetV_run l o "sensor" w Hl). cbv iota beta.
  rewrite bind_run, (GetV_run l o "device" w Hl). cbv iota beta.
  rewrite bind_run, (GetV_run l o "value" w Hl). cbv iota beta.
  destruct ((Dashboard.touch (field o "device") ;;;
             Dashboard.dispatch (VRef l) (field o "sensor") (field o "value")) w)
    as [[o2 w2] t2].
  exact H.
Qed.

End FootprintOfDispatch.

(** ** Instances on a concrete page *)


Lemma alarm_badge_shows_the_state_witness :
  In ("GRACE", ("bg-warning text-dark", "alarm-grace")) Dashboard.alarm_map
  ∧ Dashboard.updateAlarmState (platform := Sample.platform) (VRef 1%nat) Desk.world
    = (Ret tt,
       set_document
         (<["alarm-card" := set_className "card h-100 alarm-grace" Sample.blank]>
            (<["alarm-state" :=
                 {| textContent := "GRACE"; className := "badge fs-6 bg-warning text-dark";
                    backgroundColor := ""; icon := None |}]>
               (document Desk.world))) Desk.world,
       []).
Proof.
  assert (Hin : In ("GRACE", ("bg-warning text-dark", "alarm-grace")) Dashboard.alarm_map)
    by (simpl; tauto).
  split; [exact Hin|].
  destruct (alarm_badge_shows_the_state (platform := Sample.platform)
              "GRACE" "bg-warning text-dark" "alarm-grace" Desk.world
              {| textContent := "ARMED"; className := "badge fs-6 bg-primary";
                 backgroundColor := ""; icon := None |}
              Sample.blank 1%nat (mkObj None [("state", VStr "GRACE")])
              eq_refl eq_refl Hin eq_refl eq_refl) as (Hs & Ho & _).
  rewrite Ho. exact Hs.
Defined.

Lemma alarm_badge_falls_back_to_grey_witness :
  ¬ In "PANIC" (fst <$> Dashboard.alarm_map)
  ∧ inherited "PANIC" = false
  ∧ className <$>
      document (world_of (Dashboard.updateAlarmState (platform := Sample.platform)
                            (VStr "PANIC") Desk.world)) !! "alarm-state"
    = Some "badge fs-6 bg-secondary".
Proof.
  assert (Hout : ¬ In "PANIC" (fst <$> Dashboard.alarm_map)).
  { simpl. intros [H|[H|[H|[H|[H|[]]]]]]; discriminate H. }
  split; [exact Hout|]. split; [reflexivity|].
  destruct (alarm_badge_falls_back_to_grey (platform := Sample.platform)
              "PANIC" VNull Desk.world
              {| textContent := "ARMED"; className := "badge fs-6 bg-primary";
                 backgroundColor := ""; icon := None |}
              Sample.blank eq_refl eq_refl Hout) as (Hgrey & _).
  rewrite (Hgrey eq_refl). reflexivity.
Defined.


Lemma reading_is_shown_on_its_own_elements_witness :
  device_elements (platform := Sample.platform) (VStr "PI1")
  = ["pi1-last-update"; "pi1-status"]
  ∧ sensor_elements (platform := Sample.platform) (VStr "DS1") = ["ds1-state"; "card-ds1"]
  ∧ document (world_of (Dashboard.updateSensor (platform := Sample.platform) (VRef 0%nat)
                          Desk.reading)) !! "alarm-state"
    = document Desk.reading !! "alarm-state".
Proof.
  split; [reflexivity|]. split; [reflexivity|].
  apply (reading_is_shown_on_its_own_elements (platform := Sample.platform) 0%nat
           (mkObj None [("device", VStr "PI1"); ("sensor", VStr "DS1");
                        ("value", VNum (of_Z 1))])
           Desk.reading "alarm-state" eq_refl).
  - intros d H. injection H as <-. reflexivity.
  - simpl. intros [H|[H|[H|[H|[]]]]]; discriminate H.
Defined.

(** ** Whole numbers and their decimal text *)

Section WholeNumbers.
Context {platform : Platform}.

Lemma digits_of_uint (d : Decimal.uint) (rest : string) :
  no_digit_first rest →
  ∀ a, digits_prefix (NilEmpty.string_of_uint d +:+ rest) (Some a) = Some (uint_value d a).
Proof.
  intros Hrest.
  induction d as [|d IH|d IH|d IH|d IH|d IH|d IH|d IH|d IH|d IH|d IH]; intros a.
  - change (NilEmpty.string_of_uint Decimal.Nil +:+ rest) with rest.
    destruct rest as [|c rest]; [reflexivity|]. simpl in Hrest. simpl. rewrite Hrest.
    reflexivity.
  - change (digits_prefix (String "0" (NilEmpty.string_of_uint d +:+ rest)) (Some a)
            = Some (uint_value d (10 * a))).
    simpl digits_prefix. rewrite IH. f_equal. f_equal.
    change (default 0 (Some a)) with a.
    change (Z.of_nat (nat_of_ascii "0") - 48) with 0. lia.
  - change (digits_prefix (String "1" (NilEmpty.string_of_uint d +:+ rest)) (Some a)
            = Some (uint_value d (10 * a + 1))).
    simpl digits_prefix. rewrite IH. f_equal.
  - change (digits_prefix (String "2" (NilEmpty.string_of_uint d +:+ rest)) (Some a)
            = Some (uint_value d (10 * a + 2))).
    simpl digits_prefix. rewrite IH. f_equal.
  - change (digits_prefix (String "3" (NilEmpty.string_of_uint d +:+ rest)) (Some a)
            = Some (uint_value d (10 * a + 3))).
    simpl digits_prefix. rewrite IH. f_equal.
  - change (digits_prefix (String "4" (NilEmpty.string_of_uint d +:+ rest)) (Some a)
            = Some (uint_value d (10 * a + 4))).
    simpl digits_prefix. rewrite IH. f_equal.
  - change (digits_prefix (String "5" (NilEmpty.string_of_uint d +:+ rest)) (Some a)
            = Some (uint_value d (10 * a + 5))).
    simpl digits_prefix. rewrite IH. f_equal.
  - change (digits_prefix (String "6" (NilEmpty.string_of_uint d +:+ rest)) (Some a)
            = Some (uint_value d (10 * a + 6))).
    simpl digits_prefix. rewrite IH. f_equal.
  - change (digits_prefix (String "7" (NilEmpty.string_of_uint d +:+ rest)) (Some a)
            = Some (uint_value d (10 * a + 7))).
    simpl digits_prefix. rewrite IH. f_equal.
  - change (digits_prefix (String "8" (NilEmpty.string_of_uint d +:+ rest)) (Some a)
            = Some (uint_value d (10 * a + 8))).
    simpl digits_prefix. rewrite IH. f_equal.
  - change (digits_prefix (String "9" (NilEmpty.string_of_uint d +:+ rest)) (Some a)
            = Some (uint_value d (10 * a + 9))).
    simpl digits_prefix. rewrite IH. f_equal.
Qed.

Lemma uint_value_pos (d : Decimal.uint) :
  ∀ acc, uint_value d (Z.pos acc) = Z.pos (Pos.of_uint_acc d acc).
Proof.
  induction d as [|d IH|d IH|d IH|d IH|d IH|d IH|d IH|d IH|d IH|d IH]; intros acc;
    [reflexivity|..];
    cbn [uint_value Pos.of_uint_acc]; rewrite <- IH; f_equal; lia.
Qed.

Lemma uint_value_zero (d : Decimal.uint) : uint_value d 0 = Z.of_N (Pos.of_uint d).
Proof.
  induction d as [|d IH|d IH|d IH|d IH|d IH|d IH|d IH|d IH|d IH|d IH];
    [reflexivity|exact IH|..];
    cbn [uint_value Pos.of_uint];
    match goal with
    | |- context [uint_value ?l (10 * 0 + ?k)] => change (10 * 0 + k) with k
    end;
    rewrite uint_value_pos; reflexivity.
Qed.

Lemma uint_value_to_uint (p : positive) : uint_value (Pos.to_uint p) 0 = Z.pos p.
Proof. rewrite uint_value_zero, DecimalPos.Unsigned.of_to. reflexivity. Qed.

(** The decimal text of a positive number begins with a digit, so that
    [parseInt] reads it from its first character, up to the first
    character that is no digit. *)
Lemma parseInt_digits (d : Decimal.uint) (rest : string) (neg : bool) :
  d ≠ Decimal.Nil →
  no_digit_first rest →
  parseInt_string ((if neg then String "-" (NilEmpty.string_of_uint d)
                    else NilEmpty.string_of_uint d) +:+ rest)
  = match uint_value d 0 with
    | 0 => S754_zero neg
    | n => of_Z (if neg then - n else n)
    end.
Proof.
  intros Hd Hrest.
  pose proof (λ a, digits_of_uint d rest Hrest a) as Hdigits.
  assert (Hnone : digits_prefix (NilEmpty.string_of_uint d +:+ rest) None
                  = Some (uint_value d 0)).
  { destruct d as [|d|d|d|d|d|d|d|d|d|d]; [contradiction|..];
      match goal with
      | |- digits_prefix (NilEmpty.string_of_uint (?D d) +:+ rest) None = _ =>
          pose proof (digits_of_uint d rest Hrest) as Hd'
      end;
      match goal with
      | |- digits_prefix (?s +:+ rest) None = _ =>
          let c := eval cbn [NilEmpty.string_of_uint] in s in
          match c with
          | String ?a ?t => change (s +:+ rest) with (String a (t +:+ rest))
          end
      end;
      simpl digits_prefix; rewrite Hd'; reflexivity. }
  unfold parseInt_string.
  destruct neg.
  - change (String "-" (NilEmpty.string_of_uint d) +:+ rest)
      with (String "-" (NilEmpty.string_of_uint d +:+ rest)).
    cbn [skip_white_space]. change (is_white_space "-") with false. cbv iota.
    change (outside_ascii_first (String "-" (NilEmpty.string_of_uint d +:+ rest)))
      with false. cbv iota.
    rewrite Hnone. destruct (uint_value d 0); reflexivity.
  - destruct d as [|d|d|d|d|d|d|d|d|d|d]; [contradiction|..];
      match goal with
      | |- context [NilEmpty.string_of_uint (?D d) +:+ rest] =>
          let c := eval cbn [NilEmpty.string_of_uint] in (NilEmpty.string_of_uint (D d)) in
          match c with
          | String ?a ?t =>
              change (NilEmpty.string_of_uint (D d) +:+ rest)
                with (String a (t +:+ rest)) in *
          end
      end;
      cbn [skip_white_space];
      match goal with
      | |- context [is_white_space ?a] => change (is_white_space a) with false
      end;
      cbv iota; unfold outside_ascii_first;
      match goal with
      | |- context [is_ascii ?a] => change (is_ascii a) with true
      end;
      cbn [negb]; cbv iota; rewrite Hnone; destruct (uint_value _ 0); reflexivity.
Qed.

(** Reading back the decimal text of a whole number gives the number,
    also when other text follows the digits. *)
Lemma parseInt_Z_to_string (z : Z) (rest : string) :
  no_digit_first rest → parseInt_string (Z_to_string z +:+ rest) = of_Z z.
Proof.
  intros Hrest. destruct z as [|p|p].
  - change (Z_to_string 0 +:+ rest) with (String "0" rest).
    unfold parseInt_string. cbn [skip_white_space]. change (is_white_space "0") with false.
    cbv iota. change (outside_ascii_first (String "0" rest)) with false. cbv iota.
    simpl digits_prefix.
    destruct rest as [|c rest]; [reflexivity|]. simpl in Hrest. simpl. rewrite Hrest.
    reflexivity.
  - unfold Z_to_string, Z.to_int, NilZero.string_of_int, NilZero.string_of_uint.
    pose proof (DecimalPos.Unsigned.to_uint_nonnil p) as Hnn.
    pose proof (parseInt_digits (Pos.to_uint p) rest false Hnn Hrest) as H.
    rewrite uint_value_to_uint in H. cbv iota in H.
    destruct (Pos.to_uint p); [contradiction|..]; exact H.
  - unfold Z_to_string, Z.to_int, NilZero.string_of_int, NilZero.string_of_uint.
    pose proof (DecimalPos.Unsigned.to_uint_nonnil p) as Hnn.
    pose proof (parseInt_digits (Pos.to_uint p) rest true Hnn Hrest) as H.
    rewrite uint_value_to_uint in H. cbv iota in H.
    destruct (Pos.to_uint p); [contradiction|..]; exact H.
Qed.

End WholeNumbers.

(** ** Whole numbers as binary64 values *)

Section Exact.

Lemma iter_xO_value (k p : positive) : Z.pos (Pos.iter xO p k) = Z.pos p * 2 ^ Z.pos k.
Proof.
  revert p. induction k as [|k IH] using Pos.peano_ind; intros p.
  - simpl. lia.
  - rewrite Pos.iter_succ, Pos2Z.inj_xO, IH, Pos2Z.inj_succ, Z.pow_succ_r by lia. lia.
Qed.

Lemma iter_xO_digits (k p : positive) :
  digits2_pos (Pos.iter xO p k) = (digits2_pos p + k)%positive.
Proof.
  induction k as [|k IH] using Pos.peano_ind.
  - simpl. lia.
  - rewrite Pos.iter_succ. simpl digits2_pos. rewrite IH. lia.
Qed.

(** Rounding a mantissa of exactly 53 bits changes nothing. *)
Lemma binary_round_aux_exact (s : bool) (m : positive) (e : Z) :
  Z.pos (digits2_pos m) = 53 → -1074 <= e <= 971 →
  binary_round_aux prec emax s (Z.pos m) e loc_Exact = S754_finite s m e.
Proof.
  intros Hd He. unfold binary_round_aux.
  assert (Hshr : shr_fexp prec emax (Z.pos m) e loc_Exact
                 = (Build_shr_record (Z.pos m) false false, e)).
  { unfold shr_fexp, shr, fexp, SpecFloat.emin, prec, emax. simpl Zdigits2. rewrite Hd.
    replace (Z.max (53 + e - 53) (3 - 1024 - 53) - e) with 0 by lia. reflexivity. }
  rewrite Hshr. simpl. rewrite Hshr. simpl.
  assert (Hfit : (e <=? emax - prec) = true) by (apply Z.leb_le; unfold emax, prec; lia).
  rewrite Hfit. reflexivity.
Qed.

(** The binary64 value of a whole number of at most 53 bits: the number
    itself, its mantissa filled up to 53 bits. *)
Lemma binary_round_whole (s : bool) (p : positive) :
  Z.pos p < 2 ^ 53 →
  ∃ m e, binary_round prec emax s p 0 = S754_finite s m e
         ∧ -52 <= e <= 0 ∧ Z.pos m = Z.pos p * 2 ^ (- e).
Proof.
  intros Hp. unfold binary_round, shl_align, fexp, SpecFloat.emin, prec, emax.
  pose proof (digits2_pos_bounds p) as [Hlow _].
  assert (Hd : Z.pos (digits2_pos p) <= 53).
  { destruct (Z_le_gt_dec (Z.pos (digits2_pos p)) 53) as [H|H]; [exact H|exfalso].
    assert (2 ^ 53 <= 2 ^ (Z.pos (digits2_pos p) - 1)) by (apply Z.pow_le_mono_r; lia).
    lia. }
  replace (Z.max (Z.pos (digits2_pos p) + 0 - 53) (3 - 1024 - 53))
    with (Z.pos (digits2_pos p) - 53) by lia.
  destruct (Z.pos (digits2_pos p) - 53 - 0) as [|k|k] eqn:Hk; [|lia|].
  - exists p, 0. split; [|split; [lia|simpl; lia]].
    apply binary_round_aux_exact; lia.
  - exists (Pos.iter xO p k), (Z.pos (digits2_pos p) - 53).
    split; [|split; [lia|]].
    + apply binary_round_aux_exact; [|lia]. rewrite iter_xO_digits. lia.
    + rewrite iter_xO_value. f_equal. f_equal. lia.
Qed.

Lemma to_integer_whole (s : bool) (m : positive) (e : Z) (n : Z) :
  e <= 0 → Z.pos m = n * 2 ^ (- e) →
  to_integer (S754_finite s m e) = Some (if s then - n else n).
Proof.
  intros He Hm. unfold to_integer.
  assert (Hpow : 0 < 2 ^ (- e)) by (apply Z.pow_pos_nonneg; lia).
  destruct (0 <=? e) eqn:Hsign.
  - apply Z.leb_le in Hsign. assert (e = 0) by lia. subst e. simpl in Hm.
    f_equal. destruct s; simpl; lia.
  - replace (Z.pos m mod 2 ^ (- e)) with 0
      by (rewrite Hm; symmetry; apply Z.mod_mul; lia).
    simpl. f_equal. destruct s.
    + change (Z.neg m) with (- Z.pos m). rewrite Hm.
      replace (- (n * 2 ^ (- e))) with (- n * 2 ^ (- e)) by lia.
      apply Z.div_mul. lia.
    + rewrite Hm. apply Z.div_mul. lia.
Qed.

(** A whole number below 2^53 in magnitude is a binary64 value, and its
    text is its decimal numeral. *)
Lemma of_Z_exact (z : Z) :
  - 2 ^ 53 < z < 2 ^ 53 → z ≠ 0 →
  ∃ s m e, of_Z z = S754_finite s m e ∧ to_integer (of_Z z) = Some z.
Proof.
  intros Hz Hnz. unfold of_Z, binary_normalize. destruct z as [|p|p]; [contradiction|..].
  - destruct (binary_round_whole false p) as (m & e & Hr & He & Hm); [lia|].
    exists false, m, e. rewrite Hr. split; [reflexivity|].
    apply (to_integer_whole false m e (Z.pos p)); [lia|exact Hm].
  - destruct (binary_round_whole true p) as (m & e & Hr & He & Hm).
    { change (Z.neg p) with (- Z.pos p) in Hz. lia. }
    exists true, m, e. rewrite Hr. split; [reflexivity|].
    apply (to_integer_whole true m e (Z.pos p)); [lia|exact Hm].
Qed.

End Exact.

(** ** The person count, for every whole number *)

Section Counts.
Context {platform : Platform}.

Lemma Number_toString_whole (z : Z) :
  - 2 ^ 53 < z < 2 ^ 53 → Number_toString (of_Z z) = Z_to_string z.
Proof.
  intros Hz. destruct (Z.eq_dec z 0) as [->|Hnz]; [reflexivity|].
  destruct (of_Z_exact z Hz Hnz) as (s & m & e & Hf & Hint).
  unfold Number_toString. rewrite Hint, Hf.
  assert (Hsmall : (Z.abs z <? 2 ^ 53) = true) by (apply Z.ltb_lt; lia).
  rewrite Hsmall. reflexivity.
Qed.

Lemma of_Z_is_no_nan (z : Z) : - 2 ^ 53 < z < 2 ^ 53 → is_nan (of_Z z) = false.
Proof.
  intros Hz. destruct (Z.eq_dec z 0) as [->|Hnz]; [reflexivity|].
  destruct (of_Z_exact z Hz Hnz) as (s & m & e & Hf & _). rewrite Hf. reflexivity.
Qed.

(** X14: the person count is normalised for every whole number.  For
    every whole number below 2^53 in magnitude, the count given as a
    number, as its decimal text, as its decimal text followed by
    anything that does not start with a digit (as in "12 persons"), or
    as the [count] of an object, is shown as the decimal numeral of that
    number; the call returns and writes to the counter only. *)
Theorem person_count_shows_every_whole_number (z : Z) (rest : string) (l : loc) (o : Obj)
    (w : World) :
  - 2 ^ 53 < z < 2 ^ 53 →
  no_digit_first rest →
  heap w !! l = Some o →
  field o "count" = VNum (of_Z z) →
  let shown :=
    (Ret tt,
     set_document (alter (set_textContent (Z_to_string z)) "person-count" (document w)) w,
     @nil Event) in
  Dashboard.updatePersonCount (VNum (of_Z z)) w = shown
  ∧ Dashboard.updatePersonCount (VStr (Z_to_string z)) w = shown
  ∧ Dashboard.updatePersonCount (VStr (Z_to_string z +:+ rest)) w = shown
  ∧ Dashboard.updatePersonCount (VRef l) w = shown.
Proof.
  intros Hz Hrest Hl Hcount shown.
  assert (Hshow : ∀ data,
            Dashboard.count_of data w = (Ret (VNum (of_Z z)), w, []) →
            Dashboard.updatePersonCount data w = shown).
  { intros data Hc. rewrite (updatePersonCount_run data (VNum (of_Z z)) w Hc).
    unfold isNaN. simpl ToNumber. rewrite (of_Z_is_no_nan z Hz).
    unfold text_of, ToString, ToString_with. rewrite (Number_toString_whole z Hz).
    reflexivity. }
  assert (Htext : ∀ s, parseInt_string s = of_Z z →
            Dashboard.count_of (VStr s) w = (Ret (VNum (of_Z z)), w, [])).
  { intros s Hs. unfold Dashboard.count_of. rewrite bind_get.
    cbn [typeof String.eqb Ascii.eqb Bool.eqb andb]. unfold parseInt.
    change (ToString (heap w) (VStr s)) with s. rewrite Hs. reflexivity. }
  split; [apply Hshow; reflexivity|].
  split.
  { apply Hshow, Htext. rewrite <- (append_nil_r (Z_to_string z)).
    apply parseInt_Z_to_string. exact I. }
  split; [apply Hshow, Htext, parseInt_Z_to_string, Hrest|].
  apply Hshow. unfold Dashboard.count_of. rewrite bind_get.
  cbn [typeof String.eqb Ascii.eqb Bool.eqb andb strict_eq negb].
  mrun (GetV_run l o "count" w Hl). rewrite Hcount. reflexivity.
Qed.

End Counts.

Lemma person_count_shows_every_whole_number_witness :
  (- 2 ^ 53 < 42 < 2 ^ 53)
  ∧ no_digit_first " persons"
  ∧ Dashboard.updatePersonCount (platform := Sample.platform) (VStr "42 persons") Desk.counted
    = Dashboard.updatePersonCount (platform := Sample.platform) (VRef 0%nat) Desk.counted.
Proof.
  split; [lia|]. split; [reflexivity|].
  destruct (person_count_shows_every_whole_number (platform := Sample.platform)
              42 " persons" 0%nat (mkObj None [("count", VNum (of_Z 42))]) Desk.counted
              ltac:(lia) eq_refl eq_refl eq_refl) as (_ & _ & Htext & Hobject).
  exact (eq_trans Htext (eq_sym Hobject)).
Defined.

(** ** The text of a command *)

Section CommandText.
Context {platform : Platform}.

Lemma mapM_outcome_ext {A B} (f g : A → Outcome B) (l : list A) :
  (∀ x, In x l → f x = g x) → JSON.mapM_outcome f l = JSON.mapM_outcome g l.
Proof.
  induction l as [|x l IH]; intros H; [reflexivity|].
  simpl. rewrite (H x) by (left; reflexivity). rewrite IH; [reflexivity|].
  intros y Hy. apply H. right. exact Hy.
Qed.

Lemma insert_by_index_In (x : Z * (string * Val)) (l : list (Z * (string * Val)))
    (y : Z * (string * Val)) :
  In y (JSON.insert_by_index x l) → y = x ∨ In y l.
Proof.
  induction l as [|z l IH]; simpl.
  - intros [H|[]]. left. congruence.
  - destruct (fst x <=? fst z); simpl.
    + intros [H|H]; [left; congruence|right; exact H].
    + intros [H|H]; [right; left; exact H|].
      destruct (IH H) as [H'|H']; [left; exact H'|right; right; exact H'].
Qed.

Lemma own_properties_In (ps : list (string * Val)) (p : string * Val) :
  In p (JSON.own_properties ps) → In p ps.
Proof.
  unfold JSON.own_properties. rewrite in_app_iff. intros [H|H].
  - apply list_elem_of_In, list_elem_of_fmap in H as (y & -> & Hy).
    apply list_elem_of_In in Hy.
    assert (Hall : ∀ l : list (Z * (string * Val)),
              (∀ z, In z l → In (snd z) ps) →
              ∀ z, In z (foldr JSON.insert_by_index [] l) → In (snd z) ps).
    { induction l as [|x l IHl]; intros Hl z Hz; [destruct Hz|].
      simpl in Hz. apply insert_by_index_In in Hz as [->|Hz].
      - apply Hl. left. reflexivity.
      - apply IHl; [|exact Hz]. intros z' Hz'. apply Hl. right. exact Hz'. }
    apply (Hall _) in Hy; [exact Hy|].
    intros z Hz.
    apply list_elem_of_In, list_elem_of_omap in Hz as (q & Hq & Hsome).
    destruct (JSON.array_index (fst q)); [|discriminate].
    injection Hsome as <-. apply list_elem_of_In, Hq.
  - apply filter_In in H as [H _]. exact H.
Qed.

(** The text of a primitive value depends neither on the store nor on
    the depth that is left. *)
Lemma serialize_primitive (f f' : nat) (h h' : Heap) (v : Val) :
  primitive v → JSON.SerializeJSONProperty f h v = JSON.SerializeJSONProperty f' h' v.
Proof.
  intros Hv. destruct v as [| | | | |l]; try (destruct f, f'; reflexivity).
  exfalso. apply (Hv l). reflexivity.
Qed.

Lemma serialize_primitive_returns (f : nat) (h : Heap) (v : Val) :
  primitive v → ∃ o, JSON.SerializeJSONProperty f h v = Ret o.
Proof.
  intros Hv. destruct v as [| | | | |l]; try (destruct f; eexists; reflexivity).
  exfalso. apply (Hv l). reflexivity.
Qed.

Lemma mapM_outcome_returns {A B} (f : A → Outcome B) (l : list A) :
  (∀ x, In x l → ∃ b, f x = Ret b) → ∃ bs, JSON.mapM_outcome f l = Ret bs.
Proof.
  induction l as [|x l IH]; intros H; [eexists; reflexivity|].
  destruct (H x) as [b Hb]; [left; reflexivity|].
  destruct IH as [bs Hbs]; [intros y Hy; apply H; right; exact Hy|].
  exists (b :: bs). simpl. rewrite Hb, Hbs. reflexivity.
Qed.

(** A flat object has a text, the same in every store that holds it. *)
Lemma stringify_flat (h : Heap) (l : loc) :
  flat_object h l →
  ∃ text,
    JSON.stringify h (VRef l) = Ret (Some text)
    ∧ ∀ ext f, JSON.SerializeJSONProperty (S f) (h ++ ext) (VRef l) = Ret (Some text).
Proof.
  intros (ps & Hl & Hflat). rewrite Forall_forall in Hflat.
  assert (Hprim : ∀ p, In p (JSON.own_properties ps) → primitive (snd p)).
  { intros p Hp. apply Hflat, list_elem_of_In, own_properties_In, Hp. }
  destruct (mapM_outcome_returns
              (λ p, match JSON.SerializeJSONProperty 0 h (snd p) with
                    | Ret o => Ret ((λ t, JSON.QuoteJSONString (fst p) +:+ ":" +:+ t) <$> o)
                    | Throw e => Throw e
                    end) (JSON.own_properties ps)) as [parts Hparts].
  { intros p Hp. destruct (serialize_primitive_returns 0 h (snd p) (Hprim p Hp)) as [o Ho].
    rewrite Ho. eexists. reflexivity. }
  exists ("{" +:+ join "," (omap id parts) +:+ "}").
  assert (Hany : ∀ f h', h' !! l = Some (mkObj None ps) →
            JSON.SerializeJSONProperty (S f) h' (VRef l)
            = Ret (Some ("{" +:+ join "," (omap id parts) +:+ "}"))).
  { intros f h' Hl'. cbn [JSON.SerializeJSONProperty]. rewrite Hl'.
    rewrite (mapM_outcome_ext _
               (λ p, match JSON.SerializeJSONProperty 0 h (snd p) with
                     | Ret o => Ret ((λ t, JSON.QuoteJSONString (fst p) +:+ ":" +:+ t) <$> o)
                     | Throw e => Throw e
                     end)).
    - rewrite Hparts. reflexivity.
    - intros p Hp. rewrite (serialize_primitive f 0 h' h (snd p) (Hprim p Hp)).
      reflexivity. }
  split.
  - unfold JSON.stringify. destruct (length h) as [|f] eqn:Hlen.
    + apply lookup_lt_Some in Hl. lia.
    + apply Hany. exact Hl.
  - intros ext f. apply Hany. rewrite lookup_app_l by (eapply lookup_lt_Some; exact Hl).
    exact Hl.
Qed.

Lemma publishCommand_connected (target command params : Val) (w : World) :
  client (router w) = true →
  connected (router w) = true →
  SmartHomeMQTT.publishCommand target command params w
  = match JSON.stringify (snd (command_object target command params (heap w)))
            (fst (command_object target command params (heap w))) with
    | Ret (Some text) =>
        (Ret tt, set_heap (snd (command_object target command params (heap w))) w,
         [EPublish (webCommand (topics (config (router w)))) text;
          EConsole "log"
            ("[MQTT] Command -> "
               +:+ ToString (snd (command_object target command params (heap w))) target
               +:+ ": "
               +:+ ToString (snd (command_object target command params (heap w))) command)])
    | Ret None =>
        (Throw TypeError, set_heap (snd (command_object target command params (heap w))) w, [])
    | Throw e =>
        (Throw e, set_heap (snd (command_object target command params (heap w))) w, [])
    end.
Proof.
  intros Hclient Hconn.
  unfold command_object, SmartHomeMQTT.publishCommand, SmartHomeMQTT.client_publish.
  destruct (truthy params); run; rewrite ?Hclient, ?Hconn; simpl; run;
    rewrite ?length_app; simpl;
    (destruct (JSON.stringify _ _) as [[text|]|e]; simpl; rewrite ?Hclient; reflexivity).
Qed.

Lemma command_members (target command params : Val) :
  JSON.own_properties [("target", target); ("command", command); ("params", params)]
  = [("target", target); ("command", command); ("params", params)].
Proof. reflexivity. Qed.

Lemma serialize_object (f : nat) (h : Heap) (l : loc) (ps : list (string * Val)) :
  h !! l = Some (mkObj None ps) →
  JSON.SerializeJSONProperty (S f) h (VRef l)
  = match JSON.mapM_outcome
            (λ p, match JSON.SerializeJSONProperty f h (snd p) with
                  | Ret o => Ret ((λ t, JSON.QuoteJSONString (fst p) +:+ ":" +:+ t) <$> o)
                  | Throw e => Throw e
                  end) (JSON.own_properties ps) with
    | Ret parts => Ret (Some ("{" +:+ join "," (omap id parts) +:+ "}"))
    | Throw e => Throw e
    end.
Proof. intros Hl. cbn [JSON.SerializeJSONProperty]. rewrite Hl. reflexivity. Qed.

Lemma serialize_string (f : nat) (h : Heap) (s : string) :
  JSON.SerializeJSONProperty f h (VStr s) = Ret (Some (JSON.QuoteJSONString s)).
Proof. destruct f; reflexivity. Qed.

(** The text of the command object, given the text of its parameters in
    the store that holds the object. *)
Lemma stringify_command (t c : string) (p : Val) (h : Heap) (f : nat) (ptext : string) :
  length h = S f →
  JSON.SerializeJSONProperty (S f) (h ++ [mkObj None [("target", VStr t); ("command", VStr c);
                                                       ("params", p)]]) p
  = Ret (Some ptext) →
  JSON.stringify (h ++ [mkObj None [("target", VStr t); ("command", VStr c); ("params", p)]])
    (VRef (length h))
  = Ret (Some (command_text t c ptext)).
Proof.
  intros Hlen Hp. unfold JSON.stringify. rewrite length_app. cbn [length].
  replace (length h + 1)%nat with (S (S f)) by lia.
  rewrite (serialize_object (S f) _ _ _ (lookup_fresh h _)).
  rewrite command_members. remember (S f) as f' eqn:Hf'.
  cbn [JSON.mapM_outcome snd fst]. rewrite !serialize_string, Hp. reflexivity.
Qed.

Lemma publishCommand_dropped (target command params : Val) (w : World) :
  client (router w) && connected (router w) = false →
  SmartHomeMQTT.publishCommand target command params w
  = (Ret tt, w, [EConsole "warn" "[MQTT] Not connected, cannot send command"]).
Proof.
  intros Hoff. unfold SmartHomeMQTT.publishCommand. rewrite bind_get.
  destruct (client (router w)), (connected (router w)); try discriminate; reflexivity.
Qed.

(** Publishing with parameters that are a flat object. *)
Lemma publish_flat (t c : string) (l : loc) (w : World) :
  flat_object (heap w) l →
  ∃ ptext,
    JSON.stringify (heap w) (VRef l) = Ret (Some ptext)
    ∧ SmartHomeMQTT.publishCommand (VStr t) (VStr c) (VRef l) w
      = if client (router w) && connected (router w)
        then (Ret tt,
              set_heap (heap w ++ [mkObj None [("target", VStr t); ("command", VStr c);
                                               ("params", VRef l)]]) w,
              [EPublish (webCommand (topics (config (router w)))) (command_text t c ptext);
               EConsole "log" ("[MQTT] Command -> " +:+ t +:+ ": " +:+ c)])
        else (Ret tt, w, [EConsole "warn" "[MQTT] Not connected, cannot send command"]).
Proof.
  intros Hflat.
  destruct (stringify_flat (heap w) l Hflat) as (ptext & Htext & Hext).
  exists ptext. split; [exact Htext|].
  destruct (client (router w) && connected (router w)) eqn:Hon;
    [|apply publishCommand_dropped; exact Hon].
  apply andb_prop in Hon as [Hclient Hconn].
  rewrite (publishCommand_connected _ _ _ w Hclient Hconn). unfold command_object.
  cbn [truthy fst snd].
  destruct Hflat as (ps & Hl & _).
  destruct (length (heap w)) as [|f] eqn:Hlen; [apply lookup_lt_Some in Hl; lia|].
  rewrite <- Hlen.
  rewrite (stringify_command t c (VRef l) (heap w) f ptext Hlen (Hext _ f)).
  reflexivity.
Qed.

Lemma stringify_empty_object (h : Heap) (ext : Heap) (f : nat) :
  JSON.SerializeJSONProperty (S f) ((h ++ [mkObj None []]) ++ ext) (VRef (length h))
  = Ret (Some "{}").
Proof.
  rewrite (serialize_object f _ _ []); [reflexivity|].
  rewrite lookup_app_l by (rewrite length_app; simpl; lia). apply lookup_fresh.
Qed.

(** X15: the text of a command.  For a target and a command that are
    strings and parameters that are missing (or falsy) or an object
    literal with primitive members, a connected client publishes one
    message on the command topic and returns; the text is an object with
    the members target, command and params, in this order, the strings
    quoted as JSON strings, and with the text of the parameters, which is
    the text they have on their own, or {} for missing ones. *)
Theorem command_is_published_as_json (t c : string) (params : Val) (w : World) :
  client (router w) = true →
  connected (router w) = true →
  truthy params = false ∨ (∃ l, params = VRef l ∧ flat_object (heap w) l) →
  ∃ ptext,
    (truthy params = false → ptext = "{}")
    ∧ (truthy params = true → JSON.stringify (heap w) params = Ret (Some ptext))
    ∧ outcome_of (SmartHomeMQTT.publishCommand (VStr t) (VStr c) params w) = Ret tt
    ∧ published (trace_of (SmartHomeMQTT.publishCommand (VStr t) (VStr c) params w))
      = [(webCommand (topics (config (router w))), command_text t c ptext)].
Proof.
  intros Hclient Hconn Hparams.
  destruct Hparams as [Hfalsy|(l & -> & Hflat)].
  - rewrite (publishCommand_connected _ _ _ w Hclient Hconn). unfold command_object.
    rewrite Hfalsy. cbn [fst snd]. exists "{}".
    split; [reflexivity|]. split; [congruence|].
    rewrite (stringify_command t c (VRef (length (heap w))) (heap w ++ [mkObj None []])
               (length (heap w)) "{}").
    + split; reflexivity.
    + rewrite length_app. simpl. lia.
    + apply stringify_empty_object.
  - destruct (publish_flat t c l w Hflat) as (ptext & Htext & Hrun).
    rewrite Hclient, Hconn in Hrun. cbn [andb] in Hrun.
    exists ptext. split; [discriminate|]. split; [intros _; exact Htext|].
    rewrite Hrun. split; reflexivity.
Qed.

End CommandText.

Lemma command_is_published_as_json_witness :
  client (router Desk.ordering) = true
  ∧ connected (router Desk.ordering) = true
  ∧ flat_object (heap Desk.ordering) 0%nat
  ∧ ∃ ptext,
      JSON.stringify (platform := Sample.platform) (heap Desk.ordering) (VRef 0%nat)
      = Ret (Some ptext)
      ∧ published (trace_of (SmartHomeMQTT.publishCommand (platform := Sample.platform)
                               (VStr "PI2") (VStr "timer_add") (VRef 0%nat) Desk.ordering))
        = [(webCommand (topics (config (router Desk.ordering))),
            command_text "PI2" "timer_add" ptext)].
Proof.
  assert (Hflat : flat_object (heap Desk.ordering) 0%nat).
  { exists [("seconds", VNum (of_Z 30))]. split; [reflexivity|].
    constructor; [intros l H; discriminate H|constructor]. }
  split; [reflexivity|]. split; [reflexivity|]. split; [exact Hflat|].
  destruct (command_is_published_as_json (platform := Sample.platform)
              "PI2" "timer_add" (VRef 0%nat) Desk.ordering eq_refl eq_refl
              (or_intror (ex_intro _ 0%nat (conj eq_refl Hflat))))
    as (ptext & _ & Htext & _ & Hpub).
  exists ptext. split; [exact (Htext eq_refl)|exact Hpub].
Defined.

(** ** The buttons *)

Section Buttons.
Context {platform : Platform}.

Lemma digit_needs_no_escape (a : ascii) :
  Controls.is_digit a = true → JSON.quote_char a = String a "".
Proof.
  intros H. destruct a as [[] [] [] [] [] [] [] []]; vm_compute in H;
    try discriminate H; reflexivity.
Qed.

Lemma four_digits_spec (pin : string) :
  Controls.four_digits pin = true ↔
  ∃ a b c d, pin = String a (String b (String c (String d "")))
             ∧ Controls.is_digit a = true ∧ Controls.is_digit b = true
             ∧ Controls.is_digit c = true ∧ Controls.is_digit d = true.
Proof.
  split.
  - destruct pin as [|a [|b [|c [|d [|e pin]]]]]; try discriminate. simpl.
    intros H. apply andb_prop in H as [H Hd]. apply andb_prop in H as [H Hc].
    apply andb_prop in H as [Ha Hb]. exists a, b, c, d. repeat split; assumption.
  - intros (a & b & c & d & -> & Ha & Hb & Hc & Hd). simpl.
    rewrite Ha, Hb, Hc, Hd. reflexivity.
Qed.

Lemma four_digits_quoted (pin : string) :
  Controls.four_digits pin = true →
  JSON.QuoteJSONString pin = String (ascii_of_nat 34) (pin +:+ String (ascii_of_nat 34) "").
Proof.
  intros H. apply four_digits_spec in H as (a & b & c & d & -> & Ha & Hb & Hc & Hd).
  unfold JSON.QuoteJSONString. cbn [JSON.quote_chars].
  rewrite !digit_needs_no_escape by assumption. reflexivity.
Qed.

Lemma validatePin_spec (pin : string) (ui : Controls.Ui) :
  Controls._validatePin pin ui
  = if Controls.four_digits pin then (true, ui)
    else (false, Controls._showToast "Enter a 4-digit PIN" "warning" ui).
Proof.
  unfold Controls._validatePin.
  destruct (Controls.four_digits pin) eqn:H4.
  - apply four_digits_spec in H4 as (a & b & c & d & -> & _). reflexivity.
  - rewrite orb_true_r. reflexivity.
Qed.

(** The object literal that a handler passes as parameters, once it is
    in the store. *)
Lemma literal_is_flat (ps : list (string * Val)) (w : World) :
  Forall (λ p, primitive (snd p)) ps →
  flat_object (heap (set_heap (heap w ++ [mkObj None ps]) w)) (length (heap w)).
Proof. intros Hps. exists ps. split; [apply lookup_fresh|exact Hps]. Qed.

(** A handler that publishes a command with a literal of primitive
    parameters and then goes on. *)
Lemma publish_literal {A} (t c : string) (ps : list (string * Val)) (k : M A) (w : World) :
  Forall (λ p, primitive (snd p)) ps →
  ∃ ptext h',
    JSON.stringify (heap w ++ [mkObj None ps]) (VRef (length (heap w))) = Ret (Some ptext)
    ∧ (params <- alloc (mkObj None ps) ;;
       SmartHomeMQTT.publishCommand (VStr t) (VStr c) params ;;; k) w
      = let '(o, w2, t2) := k (set_heap h' w) in
        (o, w2,
         (if client (router w) && connected (router w)
          then [EPublish (webCommand (topics (config (router w)))) (command_text t c ptext);
                EConsole "log" ("[MQTT] Command -> " +:+ t +:+ ": " +:+ c)]
          else [EConsole "warn" "[MQTT] Not connected, cannot send command"]) ++ t2).
Proof.
  intros Hps. rewrite bind_run, alloc_run.
  destruct (publish_flat t c (length (heap w)) _ (literal_is_flat ps w Hps))
    as (ptext & Htext & Hrun).
  cbn [heap set_heap router] in *.
  exists ptext. rewrite bind_run, Hrun.
  destruct (client (router w) && connected (router w)).
  - exists ((heap w ++ [mkObj None ps])
            ++ [mkObj None [("target", VStr t); ("command", VStr c);
                            ("params", VRef (length (heap w)))]]).
    split; [exact Htext|]. cbv zeta.
    match goal with |- context [k ?w1] =>
      change w1 with (set_heap ((heap w ++ [mkObj None ps])
            ++ [mkObj None [("target", VStr t); ("command", VStr c);
                            ("params", VRef (length (heap w)))]]) w) end.
    destruct (k _) as [[o w2] t2]. reflexivity.
  - exists (heap w ++ [mkObj None ps]). split; [exact Htext|]. cbv zeta.
    destruct (k _) as [[o w2] t2]. reflexivity.
Qed.

(** The text of a literal with one member. *)
Lemma stringify_one_member (h : Heap) (k : string) (v : Val) (t : string) :
  JSON.array_index k = None →
  primitive v →
  JSON.SerializeJSONProperty 0 [] v = Ret (Some t) →
  JSON.stringify (h ++ [mkObj None [(k, v)]]) (VRef (length h))
  = Ret (Some ("{" +:+ (JSON.QuoteJSONString k +:+ ":" +:+ t) +:+ "}")).
Proof.
  intros Hk Hv Ht. unfold JSON.stringify. rewrite length_app. cbn [length].
  replace (length h + 1)%nat with (S (length h)) by lia.
  rewrite (serialize_object (length h) _ _ _ (lookup_fresh h _)).
  unfold JSON.own_properties. cbn [omap list_omap fst snd List.filter]. rewrite Hk.
  cbn [fmap option_fmap option_map foldr bool_decide decide_rel].
  simpl. rewrite (serialize_primitive (length h) 0 _ [] v Hv), Ht. reflexivity.
Qed.

Lemma stringify_no_member (h : Heap) :
  JSON.stringify (h ++ [mkObj None []]) (VRef (length h)) = Ret (Some "{}").
Proof.
  unfold JSON.stringify. rewrite length_app. cbn [length].
  replace (length h + 1)%nat with (S (length h)) by lia.
  rewrite (serialize_object (length h) _ _ _ (lookup_fresh h _)). reflexivity.
Qed.

Lemma four_digits_iff (pin : string) :
  Controls.four_digits pin = true ↔
  String.length pin = 4%nat
  ∧ ∀ a, In a (list_ascii_of_string pin) → Controls.is_digit a = true.
Proof.
  rewrite four_digits_spec. split.
  - intros (a & b & c & d & -> & Ha & Hb & Hc & Hd). split; [reflexivity|].
    intros x [<-|[<-|[<-|[<-|[]]]]]; assumption.
  - intros [Hlen Hall].
    destruct pin as [|a [|b [|c [|d [|e pin]]]]]; try discriminate Hlen.
    exists a, b, c, d. split; [reflexivity|].
    repeat split; apply Hall; simpl; auto.
Qed.

Lemma of_Z_truthy (z : Z) :
  - 2 ^ 53 < z < 2 ^ 53 → truthy (VNum (of_Z z)) = negb (z =? 0).
Proof.
  intros Hz. destruct (Z.eq_dec z 0) as [->|Hnz]; [reflexivity|].
  destruct (of_Z_exact z Hz Hnz) as (s & m & e & Hf & _). rewrite Hf.
  apply Z.eqb_neq in Hnz. rewrite Hnz. reflexivity.
Qed.

Lemma serialize_whole (z : Z) :
  - 2 ^ 53 < z < 2 ^ 53 →
  JSON.SerializeJSONProperty 0 [] (VNum (of_Z z)) = Ret (Some (Z_to_string z)).
Proof.
  intros Hz. cbn [JSON.SerializeJSONProperty]. rewrite (Number_toString_whole z Hz).
  destruct (Z.eq_dec z 0) as [->|Hnz]; [reflexivity|].
  destruct (of_Z_exact z Hz Hnz) as (s & m & e & Hf & _). rewrite Hf. reflexivity.
Qed.

Lemma number_is_primitive (n : number) : primitive (VNum n).
Proof. intros l H. discriminate H. Qed.

Lemma string_is_primitive (s : string) : primitive (VStr s).
Proof. intros l H. discriminate H. Qed.

(** The click on "start", for minutes that are a whole number. *)
Lemma timer_start_run (value : string) (m : Z) (ui : Controls.Ui) (w : World) :
  Controls.timer_minutes ui = Some value →
  Controls.minutes_of value = VNum (of_Z m) →
  - 2 ^ 53 < m < 2 ^ 53 →
  let run := Controls.timer_start_click ui w in
  outcome_of run
  = Ret (Controls._showToast ("Timer started: " +:+ Z_to_string m +:+ " min") "success" ui)
  ∧ published (trace_of run)
    = if client (router w) && connected (router w)
      then [(webCommand (topics (config (router w))),
             command_text "PI2" "timer_start"
               ("{" +:+ (JSON.QuoteJSONString "minutes" +:+ ":" +:+ Z_to_string m) +:+ "}"))]
      else [].
Proof.
  intros Hfield Hmin Hm run. subst run. unfold Controls.timer_start_click.
  rewrite Hfield. cbv zeta. rewrite Hmin.
  destruct (publish_literal "PI2" "timer_start" [("minutes", VNum (of_Z m))]
              (w0 <- get ;;
               ret (Controls._showToast
                      ("Timer started: " +:+ ToString (heap w0) (VNum (of_Z m)) +:+ " min")
                      "success" ui)) w)
    as (ptext & h' & Htext & Hrun).
  { repeat constructor. apply number_is_primitive. }
  rewrite (stringify_one_member (heap w) "minutes" _ (Z_to_string m) eq_refl
             (number_is_primitive _) (serialize_whole m Hm)) in Htext.
  injection Htext as <-. rewrite Hrun. rewrite bind_get. unfold ret.
  unfold ToString, ToString_with. rewrite (Number_toString_whole m Hm).
  unfold outcome_of, trace_of. cbn [fst snd]. split; [reflexivity|].
  destruct (client (router w) && connected (router w)); reflexivity.
Qed.

(** X16: the alarm buttons refuse a PIN that is not four digits.  When
    the PIN field holds anything but exactly four decimal digits, a click
    on "arm" or "disarm" sends nothing to the client, changes nothing in
    the application, leaves the text in the field and shows the warning
    "Enter a 4-digit PIN". *)
Theorem alarm_command_needs_a_four_digit_pin (command pin : string) (ui : Controls.Ui)
    (w : World) :
  Controls.alarm_pin ui = Some pin →
  ¬ (String.length pin = 4%nat
     ∧ ∀ a, In a (list_ascii_of_string pin) → Controls.is_digit a = true) →
  Controls.alarm_click command ui w
  = (Ret (Controls._showToast "Enter a 4-digit PIN" "warning" ui), w, [])
  ∧ Controls.alarm_pin (Controls._showToast "Enter a 4-digit PIN" "warning" ui) = Some pin.
Proof.
  intros Hfield Hbad. split.
  - unfold Controls.alarm_click. rewrite Hfield, validatePin_spec.
    destruct (Controls.four_digits pin) eqn:H4; [|reflexivity].
    exfalso. apply Hbad, four_digits_iff, H4.
  - unfold Controls._showToast. destruct (Controls.toasts ui); exact Hfield.
Qed.

(** X17: the alarm buttons send a PIN of four digits.  When the PIN
    field holds exactly four decimal digits, a click on "arm" or "disarm"
    returns with the field cleared and no toast; on a connected client it
    publishes one message on the command topic, the JSON text of the
    target "PI1", the command and the PIN as a string.  On a client that
    is not connected nothing is published, and the field is cleared all
    the same. *)
Theorem alarm_command_carries_the_pin (command pin : string) (ui : Controls.Ui) (w : World) :
  Controls.alarm_pin ui = Some pin →
  String.length pin = 4%nat →
  (∀ a, In a (list_ascii_of_string pin) → Controls.is_digit a = true) →
  let run := Controls.alarm_click command ui w in
  outcome_of run = Ret (Controls.set_alarm_pin "" ui)
  ∧ published (trace_of run)
    = (if client (router w) && connected (router w)
       then [(webCommand (topics (config (router w))),
              command_text "PI1" command
                ("{" +:+ (JSON.QuoteJSONString "pin" +:+ ":"
                          +:+ String (ascii_of_nat 34) (pin +:+ String (ascii_of_nat 34) ""))
                 +:+ "}"))]
       else [])
  ∧ router (world_of run) = router w
  ∧ document (world_of run) = document w.
Proof.
  intros Hfield Hlen Hdigits run. subst run.
  assert (H4 : Controls.four_digits pin = true) by (apply four_digits_iff; auto).
  unfold Controls.alarm_click. rewrite Hfield, validatePin_spec, H4. cbn [negb].
  destruct (publish_literal "PI1" command [("pin", VStr pin)]
              (ret (Controls.set_alarm_pin "" ui)) w)
    as (ptext & h' & Htext & Hrun).
  { repeat constructor. apply string_is_primitive. }
  rewrite (stringify_one_member (heap w) "pin" _ (JSON.QuoteJSONString pin) eq_refl
             (string_is_primitive _) eq_refl) in Htext.
  injection Htext as <-. rewrite (four_digits_quoted pin H4) in Hrun.
  rewrite Hrun. unfold ret, outcome_of, trace_of, world_of. cbn [fst snd].
  split; [reflexivity|].
  split; [destruct (client (router w) && connected (router w)); reflexivity|].
  split; reflexivity.
Qed.

(** X18: the minutes of the timer.  When the minutes field starts with
    the decimal numeral of a whole number (below 2^53 in magnitude),
    followed by nothing or by anything that does not start with a digit,
    a click on "start" takes that number, negative ones too, and 5 in
    place of 0.  It shows the toast "Timer started: <minutes> min" and
    returns; on a connected client it publishes one message on the
    command topic, with the target "PI2", the command "timer_start" and
    the minutes as a number; on a client that is not connected it
    publishes nothing and shows the same toast. *)
Theorem timer_starts_with_the_minutes_of_the_field (z : Z) (rest : string)
    (ui : Controls.Ui) (w : World) :
  Controls.timer_minutes ui = Some (Z_to_string z +:+ rest) →
  - 2 ^ 53 < z < 2 ^ 53 →
  no_digit_first rest →
  let m := if z =? 0 then 5 else z in
  let run := Controls.timer_start_click ui w in
  outcome_of run
  = Ret (Controls._showToast ("Timer started: " +:+ Z_to_string m +:+ " min") "success" ui)
  ∧ published (trace_of run)
    = if client (router w) && connected (router w)
      then [(webCommand (topics (config (router w))),
             command_text "PI2" "timer_start"
               ("{" +:+ (JSON.QuoteJSONString "minutes" +:+ ":" +:+ Z_to_string m) +:+ "}"))]
      else [].
Proof.
  intros Hfield Hz Hrest m.
  apply (timer_start_run _ m ui w Hfield).
  - unfold Controls.minutes_of, or_else.
    rewrite (parseInt_Z_to_string z rest Hrest), (of_Z_truthy z Hz). subst m.
    destruct (z =? 0); reflexivity.
  - subst m. destruct (z =? 0); lia.
Qed.

(** X19: the default of the timer.  When the minutes field holds a text
    of ASCII characters that parseInt reads as no number, as the empty
    text does, a click on "start" starts a timer of 5 minutes: the toast
    says "Timer started: 5 min" and the command, when the client is
    connected, carries the number 5. *)
Theorem timer_starts_with_five_minutes_by_default (value : string) (ui : Controls.Ui)
    (w : World) :
  Controls.timer_minutes ui = Some value →
  ascii_text value = true →
  parseInt_string value = nan →
  let run := Controls.timer_start_click ui w in
  outcome_of run = Ret (Controls._showToast "Timer started: 5 min" "success" ui)
  ∧ published (trace_of run)
    = if client (router w) && connected (router w)
      then [(webCommand (topics (config (router w))),
             command_text "PI2" "timer_start"
               ("{" +:+ (JSON.QuoteJSONString "minutes" +:+ ":5") +:+ "}"))]
      else [].
Proof.
  intros Hfield _ Hnan.
  apply (timer_start_run value 5 ui w Hfield); [|lia].
  unfold Controls.minutes_of, or_else. rewrite Hnan. reflexivity.
Qed.

(** X20: the feedback of a button does not wait for the command.  The
    buttons "+30 s", "stop" and "light off" give their feedback whether
    or not the client is connected: the toasts "Added 30 seconds" and
    "Timer stopped", and the colour preview, if the page has one, turned
    to #000.  On a connected client each publishes one message, with the
    parameters {"seconds":30}, {} and {}; on a client that is not
    connected each publishes nothing. *)
Theorem feedback_does_not_wait_for_the_command (ui : Controls.Ui) (w : World) :
  let sent target command ptext :=
    if client (router w) && connected (router w)
    then [(webCommand (topics (config (router w))), command_text target command ptext)]
    else [] in
  (outcome_of (Controls.timer_add_click ui w)
   = Ret (Controls._showToast "Added 30 seconds" "info" ui)
   ∧ published (trace_of (Controls.timer_add_click ui w))
     = sent "PI2" "timer_add" ("{" +:+ (JSON.QuoteJSONString "seconds" +:+ ":30") +:+ "}"))
  ∧ (outcome_of (Controls.timer_stop_click ui w)
     = Ret (Controls._showToast "Timer stopped" "warning" ui)
     ∧ published (trace_of (Controls.timer_stop_click ui w)) = sent "PI2" "timer_stop" "{}")
  ∧ (outcome_of (Controls.rgb_off_click ui w) = Ret ui
     ∧ document (world_of (Controls.rgb_off_click ui w))
       = alter (set_backgroundColor "#000") "rgb-preview" (document w)
     ∧ published (trace_of (Controls.rgb_off_click ui w)) = sent "PI3" "rgb_off" "{}").
Proof.
  intros sent. subst sent. cbv beta. split; [|split].
  - unfold Controls.timer_add_click.
    destruct (publish_literal "PI2" "timer_add" [("seconds", VNum (of_Z 30))]
                (ret (Controls._showToast "Added 30 seconds" "info" ui)) w)
      as (ptext & h' & Htext & Hrun).
    { repeat constructor. apply number_is_primitive. }
    assert (H30 : - 2 ^ 53 < 30 < 2 ^ 53) by lia.
    rewrite (stringify_one_member (heap w) "seconds" (VNum (of_Z 30)) _ eq_refl
               (number_is_primitive _) (serialize_whole 30 H30)) in Htext.
    injection Htext as <-. rewrite Hrun. unfold ret, outcome_of, trace_of. cbn [fst snd].
    split; [reflexivity|destruct (client (router w) && connected (router w)); reflexivity].
  - unfold Controls.timer_stop_click.
    destruct (publish_literal "PI2" "timer_stop" []
                (ret (Controls._showToast "Timer stopped" "warning" ui)) w)
      as (ptext & h' & Htext & Hrun); [constructor|].
    rewrite stringify_no_member in Htext.
    injection Htext as <-. rewrite Hrun. unfold ret, outcome_of, trace_of. cbn [fst snd].
    split; [reflexivity|destruct (client (router w) && connected (router w)); reflexivity].
  - unfold Controls.rgb_off_click.
    destruct (publish_literal "PI3" "rgb_off" []
                (preview <- getElementById "rgb-preview" ;;
                 match preview with
                 | Some _ => update_element "rgb-preview" (set_backgroundColor "#000")
                 | None => ret tt
                 end ;;; ret ui) w)
      as (ptext & h' & Htext & Hrun); [constructor|].
    rewrite stringify_no_member in Htext.
    injection Htext as <-. rewrite Hrun.
    assert (Hk : (preview <- getElementById "rgb-preview" ;;
                  match preview with
                  | Some _ => update_element "rgb-preview" (set_backgroundColor "#000")
                  | None => ret tt
                  end ;;; ret ui) (set_heap h' w)
                 = (Ret ui,
                    set_document (alter (set_backgroundColor "#000") "rgb-preview"
                                    (document w)) (set_heap h' w), [])).
    { unfold getElementById. rewrite bind_run, bind_get. unfold ret at 1.
      change (document (set_heap h' w)) with (document w).
      destruct (document w !! "rgb-preview") as [el|] eqn:Hel.
      - reflexivity.
      - rewrite (alter_id' _ _ "rgb-preview" Hel).
        destruct w; reflexivity. }
    rewrite Hk. unfold outcome_of, trace_of, world_of. cbn [fst snd document set_document].
    split; [reflexivity|]. split; [reflexivity|].
    destruct (client (router w) && connected (router w)); reflexivity.
Qed.

End Buttons.

Lemma alarm_command_needs_a_four_digit_pin_witness :
  Controls.alarm_click (platform := Sample.platform) "arm" (Desk.form "12345" "")
    Sample.online
  = (Ret (Controls._showToast "Enter a 4-digit PIN" "warning" (Desk.form "12345" "")),
     Sample.online, []).
Proof.
  apply (alarm_command_needs_a_four_digit_pin (platform := Sample.platform) "arm" "12345"
           (Desk.form "12345" "") Sample.online eq_refl).
  intros [Hlen _]. discriminate Hlen.
Defined.

Lemma alarm_command_carries_the_pin_witness :
  outcome_of (Controls.alarm_click (platform := Sample.platform) "disarm"
                (Desk.form "1234" "") Sample.online)
  = Ret {| Controls.alarm_pin := Some ""; Controls.timer_minutes := Some "";
           Controls.toasts := Some [] |}.
Proof.
  apply (alarm_command_carries_the_pin (platform := Sample.platform) "disarm" "1234"
           (Desk.form "1234" "") Sample.online eq_refl eq_refl).
  intros a [<-|[<-|[<-|[<-|[]]]]]; reflexivity.
Defined.

Lemma timer_starts_with_the_minutes_of_the_field_witness :
  outcome_of (Controls.timer_start_click (platform := Sample.platform)
                (Desk.form "" "12 min") Sample.online)
  = Ret (Controls._showToast "Timer started: 12 min" "success" (Desk.form "" "12 min")).
Proof.
  apply (timer_starts_with_the_minutes_of_the_field (platform := Sample.platform) 12 " min"
           (Desk.form "" "12 min") Sample.online eq_refl); [lia|reflexivity].
Defined.

Lemma timer_starts_with_five_minutes_by_default_witness :
  published (trace_of (Controls.timer_start_click (platform := Sample.platform)
                         (Desk.form "" " soon") Sample.online))
  = [(webCommand (topics (config (router Sample.online))),
      command_text "PI2" "timer_start" ("{" +:+ (JSON.QuoteJSONString "minutes" +:+ ":5")
                                        +:+ "}"))].
Proof.
  apply (timer_starts_with_five_minutes_by_default (platform := Sample.platform) " soon"
           (Desk.form "" " soon") Sample.online eq_refl eq_refl eq_refl).
Defined.


(** ** The age of the last update *)

Section Age.
Context {platform : Platform}.

Lemma ago_by_milliseconds (now t : Z) :
  ago now t
  = if now - t <? 5000 then "Just now"
    else if now - t <? 60000 then Z_to_string ((now - t) / 1000) +:+ "s ago"
    else Z_to_string ((now - t) / 60000) +:+ "m ago".
Proof.
  unfold ago. cbv zeta.
  pose proof (Z.div_mod (now - t) 1000 ltac:(lia)) as Hdiv.
  pose proof (Z.mod_pos_bound (now - t) 1000 ltac:(lia)) as Hmod.
  assert (H5 : ((now - t) / 1000 <? 5) = (now - t <? 5000)).
  { destruct (Z.ltb_spec ((now - t) / 1000) 5), (Z.ltb_spec (now - t) 5000);
      [reflexivity|lia|lia|reflexivity]. }
  assert (H60 : ((now - t) / 1000 <? 60) = (now - t <? 60000)).
  { destruct (Z.ltb_spec ((now - t) / 1000) 60), (Z.ltb_spec (now - t) 60000);
      [reflexivity|lia|lia|reflexivity]. }
  rewrite H5, H60. rewrite Z.div_div by lia. reflexivity.
Qed.

Lemma refresh_pi_label (now : Z) (last : gmap string (option Z)) (pi : string)
    (page : gmap string Element) :
  toLowerCase_string pi +:+ "-status" ≠ toLowerCase_string pi +:+ "-last-update" →
  refresh_pi now last pi page !! (toLowerCase_string pi +:+ "-last-update")
  = match mjoin (last !! pi) with
    | Some t => set_textContent (ago now t)
                  <$> page !! (toLowerCase_string pi +:+ "-last-update")
    | None => page !! (toLowerCase_string pi +:+ "-last-update")
    end.
Proof.
  intros Hne. unfold refresh_pi. destruct (mjoin (last !! pi)); [|reflexivity].
  rewrite lookup_alter_ne by congruence. rewrite lookup_alter_eq. reflexivity.
Qed.

(** X21: the age shown for a PI.  A tick of the timer rewrites the
    "last update" label of each PI of the list PI1, PI2, PI3 that has
    been seen, if the page has the label, from the milliseconds since it
    was seen: "Just now" below 5000 (also when the clock went back),
    whole seconds followed by "s ago" below 60000, and whole minutes
    followed by "m ago" from there on. *)
Theorem last_update_label_tells_the_age (d : string) (t0 now : Z) (w : World) :
  In d ["PI1"; "PI2"; "PI3"] →
  lastUpdate w !! d = Some (Some t0) →
  let label_id := toLowerCase_string d +:+ "-last-update" in
  let age := now - t0 in
  textContent <$> document (world_of (App.tick now w)) !! label_id
  = (λ _, if age <? 5000 then "Just now"
          else if age <? 60000 then Z_to_string (age / 1000) +:+ "s ago"
          else Z_to_string (age / 60000) +:+ "m ago") <$> document w !! label_id.
Proof.
  intros Hin Hseen label_id age. subst label_id age.
  rewrite tick_run. unfold world_of, refresh_page. cbn [fst snd document set_document].
  change (lastUpdate (set_clock now w)) with (lastUpdate w).
  change (document (set_clock now w)) with (document w).
  rewrite <- ago_by_milliseconds.
  destruct Hin as [<-|[<-|[<-|[]]]].
  - rewrite !(refresh_pi_frame _ _ "PI3"), !(refresh_pi_frame _ _ "PI2") by discriminate.
    rewrite (refresh_pi_label _ _ "PI1") by discriminate. rewrite Hseen.
    cbn [mjoin option_join]. destruct (document w !! _); reflexivity.
  - rewrite !(refresh_pi_frame _ _ "PI3") by discriminate.
    rewrite (refresh_pi_label _ _ "PI2") by discriminate. rewrite Hseen.
    cbn [mjoin option_join].
    rewrite !(refresh_pi_frame _ _ "PI1") by discriminate.
    destruct (document w !! _); reflexivity.
  - rewrite (refresh_pi_label _ _ "PI3") by discriminate. rewrite Hseen.
    cbn [mjoin option_join].
    rewrite !(refresh_pi_frame _ _ "PI2"), !(refresh_pi_frame _ _ "PI1") by discriminate.
    destruct (document w !! _); reflexivity.
Qed.

End Age.

Lemma last_update_label_tells_the_age_witness :
  textContent <$>
    document (world_of (App.tick (platform := Sample.platform) (1000 + 90000)
                          (world_of (Dashboard.touch (platform := Sample.platform)
                                       (VStr "PI1") (set_clock 1000 Sample.started)))))
      !! "pi1-last-update"
  = Some "1m ago".
Proof.
  refine (eq_trans
            (last_update_label_tells_the_age (platform := Sample.platform) "PI1" 1000
               (1000 + 90000)
               (world_of (Dashboard.touch (platform := Sample.platform)
                            (VStr "PI1") (set_clock 1000 Sample.started)))
               (or_introl eq_refl) eq_refl) _).
  reflexivity.
Defined.

(** ** A batch, listener by listener *)

Section Delivery.
Context {platform : Platform} {listeners : Listeners}.

Lemma invoke_all_call_each (cbs : list cbid) (data : Val) :
  ∀ w, invoke_all cbs data w = call_each cbs data w.
Proof.
  induction cbs as [|cb cbs IH]; intros w; [reflexivity|].
  rewrite invoke_all_cons. cbn [call_each]. unfold outcome_of, world_of, trace_of.
  destruct (call_listener cb data w) as [[[[]|e] w1] t]; cbn [fst snd]; [|reflexivity].
  rewrite IH. destruct (call_each cbs data w1) as [[o2 w2] t2]. reflexivity.
Qed.

Lemma call_each_keeps (cbs : list cbid) (data : Val) :
  Forall keeps_registry cbs → Forall keeps_store cbs →
  ∀ w, router (world_of (call_each cbs data w)) = router w
       ∧ heap (world_of (call_each cbs data w)) = heap w.
Proof.
  induction cbs as [|cb cbs IH]; intros Hr Hs w; [split; reflexivity|].
  apply Forall_cons in Hr as [Hr1 Hr]. apply Forall_cons in Hs as [Hs1 Hs].
  specialize (Hr1 data w). specialize (Hs1 data w). cbn [call_each].
  unfold world_of in *.
  destruct (call_listener cb data w) as [[[[]|e] w1] t]; cbn [fst snd] in *.
  - destruct (IH Hr Hs w1) as [Hr2 Hs2]. unfold world_of in *.
    destruct (call_each cbs data w1) as [[o2 w2] t2]. cbn [fst snd] in *.
    split; congruence.
  - split; assumption.
Qed.

(** One item: its device is resolved in place, then the listeners are
    called with it. *)
Lemma each_item_call_each (device : Val) (cbs : list cbid) (l : loc) (o : Obj) (w : World) :
  _callbacks (router w) !! "onSensorData" = Some cbs →
  Forall keeps_registry cbs →
  heap w !! l = Some o →
  SmartHomeMQTT.each_item device (VRef l) w
  = call_each cbs (VRef l) (set_heap (resolve device (heap w) l) w).
Proof.
  intros Hreg Hkeep Hl.
  assert (Hres : resolve device (heap w) l
                 = <[l := mkObj (elems o)
                            (assoc_set "device" (or_else (field o "device") device)
                               (props o))]> (heap w)).
  { unfold resolve. rewrite Hl. reflexivity. }
  unfold SmartHomeMQTT.each_item.
  mrun (GetV_run l o "device" w Hl). mrun (PutV_run l o "device"); [|exact Hl].
  rewrite <- Hres.
  rewrite (fire_invoke_all "onSensorData" (VRef l)
             (set_heap (resolve device (heap w) l) w) cbs Hreg Hkeep).
  rewrite invoke_all_call_each.
  destruct (call_each cbs (VRef l) _) as [[o2 w2] t2]. reflexivity.
Qed.

(** The loop over the items of a batch, from index [i] on. *)
Lemma items_loop_deliver (device : Val) (cbs : list cbid) (la : loc) (es : list Val)
    (rest : list loc) :
  Forall keeps_registry cbs → Forall keeps_store cbs →
  ∀ (i : nat) (w : World),
    _callbacks (router w) !! "onSensorData" = Some cbs →
    (∃ aps, heap w !! la = Some (mkObj (Some es) aps)) →
    drop i es = VRef <$> rest →
    Forall (λ l, is_Some (heap w !! l)) rest →
    forEach_from (λ i w, o ← heap w !! la; es' ← elems o; es' !! i)
                 (SmartHomeMQTT.each_item device) i (length rest) w
    = deliver cbs device rest w.
Proof.
  intros Hkr Hks.
  induction rest as [|l rest IH]; intros i w Hreg Harr Hdrop Halloc; [reflexivity|].
  apply Forall_cons in Halloc as [[o Hl] Hrest].
  assert (Hi : es !! i = Some (VRef l)).
  { pose proof (lookup_drop es i 0) as H. rewrite Hdrop, Nat.add_0_r in H.
    symmetry. exact H. }
  assert (Hd : drop (S i) es = VRef <$> rest).
  { replace (S i) with (i + 1)%nat by lia.
    rewrite <- drop_drop, Hdrop. reflexivity. }
  cbn [forEach_from length deliver]. rewrite bind_get.
  destruct Harr as [aps Hla]. rewrite Hla. simpl. rewrite Hi.
  rewrite bind_run, (each_item_call_each device cbs l o w Hreg Hkr Hl).
  destruct (call_each_keeps cbs (VRef l) Hkr Hks
              (set_heap (resolve device (heap w) l) w)) as [Hr1 Hh1].
  unfold world_of in Hr1, Hh1.
  destruct (call_each cbs (VRef l) (set_heap (resolve device (heap w) l) w))
    as [[[[]|e] w1] t1]; cbn [fst snd] in Hr1, Hh1; [|reflexivity].
  rewrite (IH (S i) w1).
  - reflexivity.
  - rewrite Hr1. exact Hreg.
  - rewrite Hh1. apply resolve_keeps_elems. eauto.
  - exact Hd.
  - rewrite Hh1. eapply Forall_impl; [exact Hrest|].
    intros l'. apply resolve_keeps_allocated.
Qed.

(** The sensor branch of the router, for an envelope whose items are
    objects and listeners that keep registrations and store. *)
Lemma handle_sensors_deliver (w : World) (ld : loc) (od : Obj) (ls : list loc) (h1 : Heap)
    (cbs : list cbid) :
  _callbacks (router w) !! "onSensorData" = Some cbs →
  Forall keeps_registry cbs → Forall keeps_store cbs →
  heap w !! ld = Some od →
  envelope_items (heap w) ld = Some (ls, h1) →
  SmartHomeMQTT._handleMessage (sensors (topics (config (router w)))) (VRef ld) w
  = deliver cbs (field od "device") ls (set_heap h1 w).
Proof.
  intros Hreg Hkr Hks Hld Henv.
  unfold envelope_items in Henv. rewrite Hld in Henv.
  unfold SmartHomeMQTT._handleMessage. rewrite bind_get.
  rewrite String.eqb_refl.
  mrun (GetV_run ld od "items" w Hld).
  destruct (truthy (field od "items")) eqn:Htruthy.
  - destruct (field od "items") as [| | | | |la] eqn:Hits; try discriminate.
    destruct (heap w !! la) as [[[es|] aps]|] eqn:Hla; try discriminate.
    destruct (refs_of es) as [ls'|] eqn:Hrefs; [|discriminate].
    destruct (forallb _ ls') eqn:Hall; [|discriminate].
    injection Henv as Hls Hh1. subst ls' h1.
    apply refs_of_Some in Hrefs.
    rewrite bind_ret. mrun (GetV_run ld od "device" w Hld).
    unfold SmartHomeMQTT.Array_forEach. rewrite bind_get, Hla. unfold forEach.
    assert (Hlen : length es = length ls) by (rewrite Hrefs, length_fmap; reflexivity).
    rewrite Hlen, set_heap_id.
    rewrite (items_loop_deliver (field od "device") cbs la es ls Hkr Hks 0 w Hreg).
    + destruct (deliver cbs (field od "device") ls w) as [[o2 w2] t2]. reflexivity.
    + eauto.
    + rewrite drop_0. exact Hrefs.
    + apply Forall_forall. intros l Hl.
      rewrite forallb_forall in Hall. apply list_elem_of_In in Hl.
      specialize (Hall l Hl). apply bool_decide_eq_true in Hall. exact Hall.
  - injection Henv as Hls Hh1. subst ls h1.
    mrun (alloc_run (mkObj (Some [VRef ld]) []) w).
    set (w0 := set_heap (heap w ++ [mkObj (Some [VRef ld]) []]) w).
    assert (Hld0 : heap w0 !! ld = Some od).
    { simpl. rewrite lookup_app_l by (eapply lookup_lt_Some; eassumption). exact Hld. }
    assert (Hla0 : heap w0 !! length (heap w) = Some (mkObj (Some [VRef ld]) [])).
    { simpl. apply lookup_fresh. }
    mrun (GetV_run ld od "device" w0 Hld0).
    unfold SmartHomeMQTT.Array_forEach. rewrite bind_get, Hla0. unfold forEach.
    change (length [VRef ld]) with (length [ld]).
    rewrite (items_loop_deliver (field od "device") cbs (length (heap w)) [VRef ld] [ld]
               Hkr Hks 0 w0).
    + destruct (deliver cbs (field od "device") [ld] w0) as [[o2 w2] t2]. reflexivity.
    + exact Hreg.
    + eauto.
    + reflexivity.
    + constructor; [eauto|constructor].
Qed.

End Delivery.

(** ** What a delivery comes to *)

Section DeliveryFacts.
Context {platform : Platform} {listeners : Listeners}.

Lemma call_each_keeps_store (cbs : list cbid) (data : Val) :
  Forall keeps_store cbs →
  ∀ w, heap (world_of (call_each cbs data w)) = heap w.
Proof.
  induction cbs as [|cb cbs IH]; intros Hs w; [reflexivity|].
  apply Forall_cons in Hs as [Hs1 Hs].
  specialize (Hs1 data w). cbn [call_each]. unfold world_of in *.
  destruct (call_listener cb data w) as [[[[]|e] w1] t]; cbn [fst snd] in *; [|exact Hs1].
  specialize (IH Hs w1). unfold world_of in IH.
  destruct (call_each cbs data w1) as [[o2 w2] t2]. cbn [fst snd] in *. congruence.
Qed.

(** Every event of a fan-out is the call of a registered listener, run
    on the store that the fan-out began with. *)
Lemma call_each_calls (cbs : list cbid) (l : loc) :
  Forall keeps_store cbs →
  ∀ w, Forall (λ e, ∃ cb, In cb cbs ∧ call_of cb l (heap w) e)
         (trace_of (call_each cbs (VRef l) w)).
Proof.
  induction cbs as [|cb cbs IH]; intros Hs w; [constructor|].
  apply Forall_cons in Hs as [Hs1 Hs].
  assert (Hrec : call_of cb l (heap w)
                   (EInvoke cb (VRef l) (heap w)
                      (trace_of (call_listener cb (VRef l) w)))).
  { exists w. split; reflexivity. }
  specialize (Hs1 (VRef l) w). cbn [call_each]. unfold world_of, trace_of in *.
  destruct (call_listener cb (VRef l) w) as [[[[]|e] w1] t]; cbn [fst snd] in *.
  - specialize (IH Hs w1). unfold trace_of in IH.
    destruct (call_each cbs (VRef l) w1) as [[o2 w2] t2]. cbn [fst snd] in *.
    constructor.
    + exists cb. split; [left; reflexivity|exact Hrec].
    + eapply Forall_impl; [exact IH|]. intros e (cb' & Hin & Hcall).
      exists cb'. split; [right; exact Hin|]. rewrite <- Hs1. exact Hcall.
  - constructor; [|constructor]. exists cb. split; [left; reflexivity|exact Hrec].
Qed.

(** The listeners called by a fan-out are the registered ones, in the
    order of registration: all of them when it returns. *)
Lemma call_each_notified (cbs : list cbid) (data : Val) :
  ∀ w, ∃ rest,
    (λ cb, (cb, data)) <$> cbs
    = (fst <$> invocations (trace_of (call_each cbs data w))) ++ rest
    ∧ (outcome_of (call_each cbs data w) = Ret tt → rest = []).
Proof.
  induction cbs as [|cb cbs IH]; intros w.
  - exists []. split; reflexivity.
  - cbn [call_each]. unfold outcome_of, trace_of in *.
    destruct (call_listener cb data w) as [[[[]|e] w1] t]; cbn [fst snd].
    + destruct (IH w1) as (rest & Heq & Hret).
      destruct (call_each cbs data w1) as [[o2 w2] t2]. cbn [fst snd] in *.
      exists rest. split; [|exact Hret].
      change (invocations (EInvoke cb data (heap w) t :: t2))
        with ((cb, data, heap w) :: invocations t2).
      rewrite !fmap_cons. cbn [fst app]. f_equal. exact Heq.
    + exists ((λ cb, (cb, data)) <$> cbs). split; [reflexivity|]. discriminate.
Qed.

Lemma deliver_notified (cbs : list cbid) (device : Val) (ls : list loc) :
  ∀ w, ∃ rest,
    notifications cbs ls
    = (fst <$> invocations (trace_of (deliver cbs device ls w))) ++ rest
    ∧ (outcome_of (deliver cbs device ls w) = Ret tt → rest = []).
Proof.
  induction ls as [|l ls IH]; intros w.
  - exists []. split; reflexivity.
  - change (notifications cbs (l :: ls))
      with (((λ cb, (cb, VRef l)) <$> cbs) ++ notifications cbs ls).
    cbn [deliver].
    destruct (call_each_notified cbs (VRef l) (set_heap (resolve device (heap w) l) w))
      as (r1 & Heq1 & Hret1).
    unfold outcome_of, trace_of in *.
    destruct (call_each cbs (VRef l) (set_heap (resolve device (heap w) l) w))
      as [[[[]|e] w1] t1]; cbn [fst snd] in *.
    + rewrite (Hret1 eq_refl), app_nil_r in Heq1.
      destruct (IH w1) as (r2 & Heq2 & Hret2).
      destruct (deliver cbs device ls w1) as [[o2 w2] t2]. cbn [fst snd] in *.
      exists r2. split; [|exact Hret2].
      rewrite invocations_app, fmap_app, <- app_assoc, Heq1, Heq2. reflexivity.
    + exists (r1 ++ notifications cbs ls). split; [|discriminate].
      rewrite app_assoc, <- Heq1. reflexivity.
Qed.

(** A batch that returns leaves every item resolved. *)
Lemma deliver_heap (cbs : list cbid) (device : Val) (ls : list loc) :
  Forall keeps_store cbs →
  ∀ w, outcome_of (deliver cbs device ls w) = Ret tt →
       heap (world_of (deliver cbs device ls w)) = resolve_all device (heap w) ls.
Proof.
  intros Hs. induction ls as [|l ls IH]; intros w Hret; [reflexivity|].
  cbn [deliver] in *.
  pose proof (call_each_keeps_store cbs (VRef l) Hs
                (set_heap (resolve device (heap w) l) w)) as Hh.
  unfold outcome_of, world_of in *.
  destruct (call_each cbs (VRef l) (set_heap (resolve device (heap w) l) w))
    as [[[[]|e] w1] t1]; cbn [fst snd] in *; [|discriminate].
  specialize (IH w1).
  destruct (deliver cbs device ls w1) as [[o2 w2] t2]. cbn [fst snd] in *.
  rewrite (IH Hret), Hh. reflexivity.
Qed.

(** *** The device that an item ends up with *)

Lemma pending_resolve (device : Val) (h1 h : Heap) (l l' : loc) :
  pending device h1 l h → pending device h1 l (resolve device h l').
Proof.
  intros [Ha Hq]. split; [apply resolve_keeps_allocated; exact Ha|].
  destruct (decide (l' = l)) as [->|Hne].
  - right. rewrite field_at_resolve_same by exact Ha. unfold or_else.
    destruct Hq as [-> | ->]; [reflexivity|].
    destruct (truthy (field_at h1 l "device")) eqn:Hown.
    + rewrite Hown. reflexivity.
    + destruct (truthy device); reflexivity.
  - rewrite field_at_resolve_other by exact Hne. exact Hq.
Qed.

Lemma pending_resolved (device : Val) (h1 h : Heap) (l : loc) :
  pending device h1 l h →
  field_at (resolve device h l) l "device"
  = (if truthy (field_at h1 l "device") then field_at h1 l "device" else device).
Proof.
  intros [Ha Hq]. rewrite field_at_resolve_same by exact Ha. unfold or_else.
  destruct Hq as [-> | ->]; [reflexivity|].
  destruct (truthy (field_at h1 l "device")) eqn:Hown.
  - rewrite Hown. reflexivity.
  - destruct (truthy device); reflexivity.
Qed.

Lemma resolved_stays (device : Val) (l : loc) (v : Val) (ls : list loc) :
  or_else v device = v →
  ∀ h, is_Some (h !! l) → field_at h l "device" = v →
       field_at (resolve_all device h ls) l "device" = v.
Proof.
  intros Hv. induction ls as [|l' ls IH]; intros h Ha Hf; [exact Hf|].
  cbn [resolve_all fold_left]. apply IH.
  - apply resolve_keeps_allocated. exact Ha.
  - destruct (decide (l' = l)) as [->|Hne].
    + rewrite field_at_resolve_same by exact Ha. rewrite Hf. exact Hv.
    + rewrite field_at_resolve_other by exact Hne. exact Hf.
Qed.

Lemma resolve_all_resolved (device : Val) (h1 : Heap) (l : loc) (ls : list loc) :
  In l ls →
  ∀ h, pending device h1 l h →
       field_at (resolve_all device h ls) l "device"
       = (if truthy (field_at h1 l "device") then field_at h1 l "device" else device).
Proof.
  induction ls as [|l' ls IH]; intros Hin h Hp; [destruct Hin|].
  cbn [resolve_all fold_left].
  destruct (decide (l' = l)) as [->|Hne].
  - apply (resolved_stays device l).
    + unfold or_else. destruct (truthy (field_at h1 l "device")) eqn:Hown.
      * rewrite Hown. reflexivity.
      * destruct (truthy device); reflexivity.
    + apply resolve_keeps_allocated. exact (proj1 Hp).
    + apply (pending_resolved device h1 h l Hp).
  - apply IH.
    + destruct Hin as [Heq|Hin]; [contradiction|exact Hin].
    + apply pending_resolve. exact Hp.
Qed.

(** Every event of a batch is the call of a registered listener with an
    item of the batch, run on a store in which the item carries its own
    device when that is truthy, and the device of the envelope when it
    is not. *)
Lemma deliver_calls (cbs : list cbid) (device : Val) (h1 : Heap) (all : list loc) :
  Forall keeps_store cbs →
  ∀ (ls : list loc) (w : World),
    (∀ l, In l ls → In l all) →
    (∀ l, In l all → pending device h1 l (heap w)) →
    Forall (λ e, ∃ cb l h,
                In cb cbs ∧ In l all ∧ call_of cb l h e
                ∧ field_at h l "device"
                  = (if truthy (field_at h1 l "device") then field_at h1 l "device"
                     else device))
           (trace_of (deliver cbs device ls w)).
Proof.
  intros Hs. induction ls as [|l ls IH]; intros w Hsub Hp; [constructor|].
  cbn [deliver].
  pose proof (call_each_calls cbs l Hs (set_heap (resolve device (heap w) l) w)) as Hcalls.
  pose proof (call_each_keeps_store cbs (VRef l) Hs
                (set_heap (resolve device (heap w) l) w)) as Hh.
  assert (Hl : In l all) by (apply Hsub; left; reflexivity).
  assert (Hhere : Forall (λ e, ∃ cb l0 h,
                     In cb cbs ∧ In l0 all ∧ call_of cb l0 h e
                     ∧ field_at h l0 "device"
                       = (if truthy (field_at h1 l0 "device")
                          then field_at h1 l0 "device" else device))
                    (trace_of (call_each cbs (VRef l)
                                 (set_heap (resolve device (heap w) l) w)))).
  { eapply Forall_impl; [exact Hcalls|]. intros e (cb & Hcb & Hcall).
    exists cb, l, (resolve device (heap w) l).
    split; [exact Hcb|]. split; [exact Hl|]. split; [exact Hcall|].
    apply pending_resolved, Hp, Hl. }
  unfold world_of, trace_of in *.
  destruct (call_each cbs (VRef l) (set_heap (resolve device (heap w) l) w))
    as [[[[]|e] w1] t1]; cbn [fst snd] in *; [|exact Hhere].
  specialize (IH w1).
  destruct (deliver cbs device ls w1) as [[o2 w2] t2]. cbn [fst snd] in *.
  apply Forall_app. split; [exact Hhere|]. apply IH.
  - intros l0 Hl0. apply Hsub. right. exact Hl0.
  - intros l0 Hl0. rewrite Hh. apply pending_resolve, Hp, Hl0.
Qed.

Lemma pending_at_start (device : Val) (h1 h : Heap) (ld : loc) (ls : list loc) (l : loc) :
  envelope_items h ld = Some (ls, h1) → In l ls → pending device h1 l h1.
Proof.
  intros Henv Hin. split; [|left; reflexivity].
  pose proof (envelope_items_allocated _ _ _ _ Henv) as Ha.
  rewrite Forall_forall in Ha. apply Ha, list_elem_of_In, Hin.
Qed.

End DeliveryFacts.

Lemma application_listeners_keep_store (platform : Platform) (cb : cbid) :
  keeps_store (listeners := App.listeners) cb.
Proof. intros data w. apply (application_listeners_page_only cb data w). Qed.

(** ** C3, C10: the items of a batch *)

Section BatchClaims.
Context {platform : Platform} {listeners : Listeners}.

(** C3 (as the code has it): for a sensor payload that is an object
    whose items, if it has any, are an array of objects, and listeners
    that leave the client's registrations and the store alone: a payload
    without [items] is a batch of the one item that it is itself; the
    handling of the message is, item by item in array order, the
    resolution of the item's device in the store followed by the calls of
    the listeners with the item, and it ends with the first call that
    raises, so that the listeners called are those of a beginning of the
    batch, and all of them when the handling returns; at every call the
    item carries its own device if that is truthy and the device of the
    envelope if not, which is a non-empty string when the envelope's is
    one and the items' own are strings or missing. *)
Theorem batch_items_in_order (w : World) (ld : loc) (od : Obj) (ls : list loc)
    (h1 : Heap) (cbs : list cbid) :
  _callbacks (router w) !! "onSensorData" = Some cbs →
  Forall keeps_registry cbs →
  Forall keeps_store cbs →
  heap w !! ld = Some od →
  envelope_items (heap w) ld = Some (ls, h1) →
  let device := field od "device" in
  let run := SmartHomeMQTT._handleMessage (sensors (topics (config (router w))))
               (VRef ld) w in
  (truthy (field od "items") = false → ls = [ld])
  ∧ run = deliver cbs device ls (set_heap h1 w)
  ∧ (∃ rest, notifications cbs ls = (fst <$> invocations (trace_of run)) ++ rest
             ∧ (outcome_of run = Ret tt → rest = []))
  ∧ Forall (λ e, ∃ cb l h,
                In cb cbs ∧ In l ls ∧ call_of cb l h e
                ∧ field_at h l "device"
                  = (if truthy (field_at h1 l "device") then field_at h1 l "device"
                     else device))
           (trace_of run)
  ∧ (∀ d, device = VStr d → d ≠ "" →
       Forall (λ l, string_or_missing (field_at h1 l "device")) ls →
       Forall (λ e, ∃ cb l h, call_of cb l h e ∧ named (field_at h l "device"))
              (trace_of run)).
Proof.
  intros Hreg Hkr Hks Hld Henv device run.
  assert (Hrun : run = deliver cbs device ls (set_heap h1 w))
    by (apply handle_sensors_deliver; assumption).
  assert (Hcalls : Forall (λ e, ∃ cb l h,
                     In cb cbs ∧ In l ls ∧ call_of cb l h e
                     ∧ field_at h l "device"
                       = (if truthy (field_at h1 l "device") then field_at h1 l "device"
                          else device))
                     (trace_of run)).
  { rewrite Hrun. apply (deliver_calls cbs device h1 ls Hks ls (set_heap h1 w)).
    - intros l Hl. exact Hl.
    - intros l Hl. apply (pending_at_start device h1 (heap w) ld ls l Henv Hl). }
  split; [apply (envelope_items_flat _ _ _ _ _ Hld Henv)|].
  split; [exact Hrun|].
  split; [rewrite Hrun; apply deliver_notified|].
  split; [exact Hcalls|].
  intros d Hd Hne Hown. eapply Forall_impl; [exact Hcalls|].
  intros e (cb & l & h & _ & Hl & Hcall & Hdev). exists cb, l, h.
  split; [exact Hcall|]. rewrite Hdev, Hd.
  rewrite Forall_forall in Hown.
  apply (or_else_named (field_at h1 l "device") d); [|exact Hne].
  apply Hown, list_elem_of_In, Hl.
Qed.

(** C10 (as the code has it): inheritance goes by falsiness, for an
    envelope whose items are objects and listeners that leave the
    client's registrations and the store alone.  Absent, null and the
    empty string are falsy.  Every call of a listener with an item of the
    batch is the call of a registered listener, run on a store in which
    the item carries the device of the envelope if its own was falsy and
    its own if that was truthy; the item is handed over as the reference
    of the one object in the store.  When the handling returns, the
    object in the store carries that device, and every registered
    listener was called with the item. *)
Theorem device_resolved_in_place (w : World) (ld : loc) (od : Obj) (ls : list loc)
    (h1 : Heap) (cbs : list cbid) (l : loc) :
  _callbacks (router w) !! "onSensorData" = Some cbs →
  Forall keeps_registry cbs →
  Forall keeps_store cbs →
  heap w !! ld = Some od →
  envelope_items (heap w) ld = Some (ls, h1) →
  In l ls →
  let device := field od "device" in
  let own := field_at h1 l "device" in
  let resolved := if truthy own then own else device in
  let run := SmartHomeMQTT._handleMessage (sensors (topics (config (router w))))
               (VRef ld) w in
  Forall (λ v, truthy v = false) [VUndefined; VNull; VStr ""]
  ∧ run = deliver cbs device ls (set_heap h1 w)
  ∧ Forall (λ e, ∀ cb h t,
                e = EInvoke cb (VRef l) h t →
                In cb cbs ∧ call_of cb l h e ∧ field_at h l "device" = resolved)
           (trace_of run)
  ∧ (outcome_of run = Ret tt →
       field_at (heap (world_of run)) l "device" = resolved
       ∧ ∀ cb, In cb cbs → In (cb, VRef l) (fst <$> invocations (trace_of run))).
Proof.
  intros Hreg Hkr Hks Hld Henv Hin device own resolved run.
  assert (Hrun : run = deliver cbs device ls (set_heap h1 w))
    by (apply handle_sensors_deliver; assumption).
  split; [repeat constructor|]. split; [exact Hrun|]. split.
  - eapply Forall_impl.
    + rewrite Hrun. apply (deliver_calls cbs device h1 ls Hks ls (set_heap h1 w)).
      * intros l0 Hl0. exact Hl0.
      * intros l0 Hl0. apply (pending_at_start device h1 (heap w) ld ls l0 Henv Hl0).
    + intros e (cb' & l' & h' & Hcb & _ & Hcall & Hdev) cb h t He.
      destruct Hcall as (w0 & Hw0 & Hrec). rewrite Hrec in He.
      injection He as <- <- <- Ht.
      split; [exact Hcb|]. split; [|exact Hdev].
      exists w0. split; [exact Hw0|]. rewrite Hrec. reflexivity.
  - intros Hret. split.
    + rewrite Hrun in Hret |- *. rewrite (deliver_heap cbs device ls Hks _ Hret).
      apply (resolve_all_resolved device h1 l ls Hin).
      apply (pending_at_start device h1 (heap w) ld ls l Henv Hin).
    + intros cb Hcb.
      destruct (deliver_notified cbs device ls (set_heap h1 w)) as (rest & Heq & Hnil).
      rewrite <- Hrun in Heq, Hnil. rewrite (Hnil Hret), app_nil_r in Heq.
      rewrite <- Heq. unfold notifications. apply in_flat_map. exists l.
      split; [exact Hin|].
      apply list_elem_of_In, list_elem_of_fmap. exists cb.
      split; [reflexivity|apply list_elem_of_In; exact Hcb].
Qed.

End BatchClaims.

(** ** C2: items of an unknown kind, in the application *)

Section UnknownKindInTheApplication.
Context {platform : Platform}.

(** C2 (as the code has it): in the application, the handling of a batch
    whose items are objects is, item by item in array order, the
    resolution of the item's device followed by the calls of the
    registered sensor-data listeners with the item, whatever its kind,
    until a call raises; the listeners called are those of a beginning of
    the batch, and all of them when the handling returns.  It is the
    dashboard that drops a kind it does not know: for an item of such a
    kind, the listener that the application registers, [updateSensor],
    does what it does for the device of the item alone, the dispatcher
    doing nothing. *)
Theorem unknown_kind_is_left_to_the_listeners (w : World) (ld : loc) (od : Obj)
    (ls : list loc) (h1 : Heap) (cbs : list cbid) :
  _callbacks (router w) !! "onSensorData" = Some cbs →
  heap w !! ld = Some od →
  envelope_items (heap w) ld = Some (ls, h1) →
  let run := SmartHomeMQTT._handleMessage (listeners := App.listeners)
               (sensors (topics (config (router w)))) (VRef ld) w in
  run = deliver (listeners := App.listeners) cbs (field od "device") ls (set_heap h1 w)
  ∧ (∃ rest, notifications cbs ls = (fst <$> invocations (trace_of run)) ++ rest
             ∧ (outcome_of run = Ret tt → rest = []))
  ∧ (∀ l o w',
       heap w' !! l = Some o →
       known_kind (field o "sensor") = false →
       call_listener (Listeners := App.listeners) 2%nat (VRef l) w'
       = Dashboard.touch (field o "device") w')
  ∧ (∀ item sensor value w',
       known_kind sensor = false →
       Dashboard.dispatch item sensor value w' = (Ret tt, w', [])).
Proof.
  intros Hreg Hld Henv run.
  assert (Hkr : Forall (keeps_registry (listeners := App.listeners)) cbs).
  { apply Forall_forall. intros cb _. exact (application_listeners_keep_registry platform cb). }
  assert (Hks : Forall (keeps_store (listeners := App.listeners)) cbs).
  { apply Forall_forall. intros cb _. exact (application_listeners_keep_store platform cb). }
  assert (Hrun : run = deliver (listeners := App.listeners) cbs (field od "device") ls
                         (set_heap h1 w)).
  { exact (handle_sensors_deliver (listeners := App.listeners) w ld od ls h1 cbs
             Hreg Hkr Hks Hld Henv). }
  split; [exact Hrun|].
  split.
  { rewrite Hrun.
    exact (deliver_notified (listeners := App.listeners) cbs (field od "device") ls
             (set_heap h1 w)). }
  split.
  { intros l o w' Hl Hk.
    change (Dashboard.updateSensor (VRef l) w' = Dashboard.touch (field o "device") w').
    exact (updateSensor_unknown l o w' Hl Hk). }
  intros item sensor value w' Hk. exact (dispatch_unknown item sensor value w' Hk).
Qed.

End UnknownKindInTheApplication.

(** ** Instances of the batch theorems *)

Lemma batch_items_in_order_witness :
  envelope_items (heap Cases.app_with_batch) 3%nat
  = Some ([0%nat; 1%nat], heap Cases.app_with_batch)
  ∧ SmartHomeMQTT._handleMessage
      (listeners := App.listeners (platform := Sample.platform))
      "iot/sensors" (VRef 3%nat) Cases.app_with_batch
    = deliver (listeners := App.listeners (platform := Sample.platform))
        [2%nat] (field Sample.envelope "device") [0%nat; 1%nat]
        (set_heap (heap Cases.app_with_batch) Cases.app_with_batch).
Proof.
  split; [vm_compute; reflexivity|].
  refine (proj1 (proj2
    (batch_items_in_order
       (listeners := App.listeners (platform := Sample.platform))
       Cases.app_with_batch 3%nat Sample.envelope [0%nat; 1%nat]
       (heap Cases.app_with_batch) [2%nat] _ _ _ _ _))).
  - vm_compute. reflexivity.
  - constructor; [apply application_listeners_keep_registry|constructor].
  - constructor; [apply application_listeners_keep_store|constructor].
  - vm_compute. reflexivity.
  - vm_compute. reflexivity.
Defined.

Lemma device_resolved_in_place_witness :
  In 1%nat [0%nat; 1%nat]
  ∧ truthy (field_at (heap Cases.app_with_batch) 1%nat "device") = false
  ∧ field_at
      (heap (world_of (SmartHomeMQTT._handleMessage
                         (listeners := App.listeners (platform := Sample.platform))
                         "iot/sensors" (VRef 3%nat) Cases.app_with_batch)))
      1%nat "device"
    = VStr "PI1".
Proof.
  split; [right; left; reflexivity|]. split; [reflexivity|].
  refine (proj1 (proj2 (proj2 (proj2
    (device_resolved_in_place
       (listeners := App.listeners (platform := Sample.platform))
       Cases.app_with_batch 3%nat Sample.envelope [0%nat; 1%nat]
       (heap Cases.app_with_batch) [2%nat] 1%nat _ _ _ _ _ _))) _)).
  - vm_compute. reflexivity.
  - constructor; [apply application_listeners_keep_registry|constructor].
  - constructor; [apply application_listeners_keep_store|constructor].
  - vm_compute. reflexivity.
  - vm_compute. reflexivity.
  - right; left; reflexivity.
  - vm_compute. reflexivity.
Defined.

Lemma unknown_kind_is_left_to_the_listeners_witness :
  known_kind (field_at (heap Cases.app_with_batch) 0%nat "sensor") = false
  ∧ SmartHomeMQTT._handleMessage
      (listeners := App.listeners (platform := Sample.platform))
      "iot/sensors" (VRef 3%nat) Cases.app_with_batch
    = deliver (listeners := App.listeners (platform := Sample.platform))
        [2%nat] (field Sample.envelope "device") [0%nat; 1%nat]
        (set_heap (heap Cases.app_with_batch) Cases.app_with_batch).
Proof.
  split; [reflexivity|].
  refine (proj1
    (unknown_kind_is_left_to_the_listeners (platform := Sample.platform)
       Cases.app_with_batch 3%nat Sample.envelope [0%nat; 1%nat]
       (heap Cases.app_with_batch) [2%nat] _ _ _)).
  - vm_compute. reflexivity.
  - vm_compute. reflexivity.
  - vm_compute. reflexivity.
Defined.

(** C3 as stated fails: in the application, on a page with the colour
    preview, the batch from PI1 of a colour item without a value and a
    door item is well formed, and yet the door item (at the reference 1)
    is never handed to the reducer: the reducer raises on the colour
    item, which ends the batch, and the door is not shown. *)
Lemma reducer_is_not_handed_the_item_after_a_raise :
  let '(data, w) := Sample.decoded Cases.stalled_batch Sample.started in
  let run := SmartHomeMQTT._handleMessage
               (listeners := App.listeners (platform := Sample.platform))
               "iot/sensors" data w in
  envelope_items (heap w) 3%nat = Some ([0%nat; 1%nat], heap w)
  ∧ field_at (heap w) 3%nat "device" = VStr "PI1"
  ∧ field_at (heap w) 1%nat "sensor" = VStr "DS1"
  ∧ _callbacks (router w) !! "onSensorData" = Some [2%nat]
  ∧ outcome_of run = Throw TypeError
  ∧ fst <$> invocations (trace_of run) = [(2%nat, VRef 0%nat)]
  ∧ textContent <$> document w !! "ds1-state" = Some ""
  ∧ textContent <$> document (world_of run) !! "ds1-state" = Some "".
Proof. vm_compute. repeat split; reflexivity. Qed.

(** C10 as stated fails: in the application, on a page with the colour
    preview, the second item of this batch from PI1 comes with the device
    null, and still has it after the batch was handled: the reducer
    raises on the first item (whose empty device was replaced by PI1),
    which ends the batch before the second item is resolved, and no
    listener is called with it. *)
Lemma item_after_a_raise_is_not_resolved :
  let '(data, w) := Sample.decoded Cases.halted_batch Sample.started in
  let run := SmartHomeMQTT._handleMessage
               (listeners := App.listeners (platform := Sample.platform))
               "iot/sensors" data w in
  envelope_items (heap w) 3%nat = Some ([0%nat; 1%nat], heap w)
  ∧ field_at (heap w) 3%nat "device" = VStr "PI1"
  ∧ field_at (heap w) 0%nat "device" = VStr ""
  ∧ field_at (heap w) 1%nat "device" = VNull
  ∧ field_at (heap (world_of run)) 0%nat "device" = VStr "PI1"
  ∧ field_at (heap (world_of run)) 1%nat "device" = VNull
  ∧ fst <$> invocations (trace_of run) = [(2%nat, VRef 0%nat)].
Proof. vm_compute. repeat split; reflexivity. Qed.

(** ** Routing by topic *)

Section RoutingByTopic.
Context {platform : Platform} {listeners : Listeners}.

(** X4: a message is routed by its topic alone.  With the topics of
    [CONFIG] and listeners that leave the client's registrations alone, a
    message that parses is handed, as the one decoded value and without
    any normalisation, to the listeners of "onAlarmState" when it arrived
    on the alarm topic and to those of "onPersonCount" when it arrived on
    the person-count topic: they are called one after the other in
    registration order until one raises, each once when none does, and a
    raise is logged as a parse error; on any topic other than the three
    subscribed ones (the command topic among them) the message reaches no
    listener at all, and only the decoded value is left in the store. *)
Theorem message_is_routed_by_its_topic (hostname payload : string) (j : Json) (w : World)
    (alarm persons : list cbid) :
  config (router w) = CONFIG hostname →
  JSON_parse payload = Some j →
  _callbacks (router w) !! "onAlarmState" = Some alarm →
  _callbacks (router w) !! "onPersonCount" = Some persons →
  Forall keeps_registry alarm →
  Forall keeps_registry persons →
  let '(data, h) := alloc_json j (heap w) in
  let handle (topic : string) := SmartHomeMQTT.client_on_message topic payload w in
  let called (cbs : list cbid) := call_each cbs data (set_heap h w) in
  let logged (r : Outcome unit * World * list Event) :=
    (Ret tt, world_of r,
     trace_of r ++ match outcome_of r with
                   | Ret _ => []
                   | Throw _ => [EConsole "warn" "[MQTT] Parse error:"]
                   end) in
  handle "iot/alarm/state" = logged (called alarm)
  ∧ handle "iot/home/person_count" = logged (called persons)
  ∧ (outcome_of (called alarm) = Ret tt →
       fst <$> invocations (trace_of (handle "iot/alarm/state"))
       = (λ cb, (cb, data)) <$> alarm)
  ∧ (outcome_of (called persons) = Ret tt →
       fst <$> invocations (trace_of (handle "iot/home/person_count"))
       = (λ cb, (cb, data)) <$> persons)
  ∧ (∀ topic, ¬ In topic ["iot/sensors"; "iot/alarm/state"; "iot/home/person_count"] →
       handle topic = (Ret tt, set_heap h w, []))
  ∧ handle "iot/web/command" = (Ret tt, set_heap h w, []).
Proof.
  intros Hconf Hparse Halarm Hpersons Hk1 Hk2.
  pose proof (λ topic, client_on_message_parsed topic payload j w Hparse) as Hrun.
  destruct (alloc_json j (heap w)) as [data h]. cbn [fst snd] in Hrun. cbv zeta.
  assert (Hother : ∀ topic,
            ¬ In topic ["iot/sensors"; "iot/alarm/state"; "iot/home/person_count"] →
            SmartHomeMQTT.client_on_message topic payload w = (Ret tt, set_heap h w, [])).
  { intros topic Hnot. rewrite Hrun.
    rewrite (handle_other_topic hostname topic data (set_heap h w) Hconf Hnot).
    reflexivity. }
  assert (Ha : SmartHomeMQTT._handleMessage "iot/alarm/state" data (set_heap h w)
               = call_each alarm data (set_heap h w)).
  { unfold SmartHomeMQTT._handleMessage. rewrite bind_get. cbv zeta.
    change (router (set_heap h w)) with (router w). rewrite Hconf.
    change (SmartHomeMQTT._fire "onAlarmState" data (set_heap h w)
            = call_each alarm data (set_heap h w)).
    rewrite (fire_invoke_all "onAlarmState" data (set_heap h w) alarm Halarm Hk1).
    apply invoke_all_call_each. }
  assert (Hp : SmartHomeMQTT._handleMessage "iot/home/person_count" data (set_heap h w)
               = call_each persons data (set_heap h w)).
  { unfold SmartHomeMQTT._handleMessage. rewrite bind_get. cbv zeta.
    change (router (set_heap h w)) with (router w). rewrite Hconf.
    change (SmartHomeMQTT._fire "onPersonCount" data (set_heap h w)
            = call_each persons data (set_heap h w)).
    rewrite (fire_invoke_all "onPersonCount" data (set_heap h w) persons Hpersons Hk2).
    apply invoke_all_call_each. }
  assert (Hlog : ∀ r : Outcome unit * World * list Event,
            match outcome_of r with
            | Ret _ => (Ret tt, world_of r, trace_of r)
            | Throw _ => (Ret tt, world_of r,
                          trace_of r ++ [EConsole "warn" "[MQTT] Parse error:"])
            end
            = (Ret tt, world_of r,
               trace_of r ++ match outcome_of r with
                             | Ret _ => []
                             | Throw _ => [EConsole "warn" "[MQTT] Parse error:"]
                             end)).
  { intros [[[[]|e] w1] t1]; unfold outcome_of, world_of, trace_of; cbn [fst snd];
      [rewrite app_nil_r|]; reflexivity. }
  assert (Hcalled : ∀ cbs,
            outcome_of (call_each cbs data (set_heap h w)) = Ret tt →
            fst <$> invocations
                      (trace_of (call_each cbs data (set_heap h w))
                       ++ match outcome_of (call_each cbs data (set_heap h w)) with
                          | Ret _ => []
                          | Throw _ => [EConsole "warn" "[MQTT] Parse error:"]
                          end)
            = (λ cb, (cb, data)) <$> cbs).
  { intros cbs Hret.
    destruct (call_each_notified cbs data (set_heap h w)) as (rest & Heq & Hnil).
    rewrite Hret, app_nil_r. rewrite (Hnil Hret), app_nil_r in Heq.
    symmetry. exact Heq. }
  split; [rewrite Hrun, Ha; apply Hlog|].
  split; [rewrite Hrun, Hp; apply Hlog|].
  split; [intros Hret; rewrite Hrun, Ha, Hlog; apply (Hcalled alarm Hret)|].
  split; [intros Hret; rewrite Hrun, Hp, Hlog; apply (Hcalled persons Hret)|].
  split; [exact Hother|].
  apply Hother. intros [H|[H|[H|[]]]]; discriminate H.
Qed.

End RoutingByTopic.

Lemma message_is_routed_by_its_topic_witness :
  JSON_parse (Platform := Sample.platform) "7" = Some (JNum (of_Z 7))
  ∧ _callbacks (router Sample.online) !! "onPersonCount" = Some [4%nat]
  ∧ textContent <$>
      document (world_of (SmartHomeMQTT.client_on_message (platform := Sample.platform)
                            (listeners := App.listeners (platform := Sample.platform))
                            "iot/home/person_count" "7" Sample.online))
        !! "person-count"
    = Some "7"
  ∧ SmartHomeMQTT.client_on_message (platform := Sample.platform)
      (listeners := App.listeners (platform := Sample.platform))
      "iot/web/command" "7" Sample.online
    = (Ret tt, Sample.online, []).
Proof.
  split; [reflexivity|]. split; [reflexivity|].
  assert (Hkeep : ∀ cb, Forall (keeps_registry
                                  (listeners := App.listeners (platform := Sample.platform)))
                          [cb]).
  { intros cb. constructor; [apply application_listeners_keep_registry|constructor]. }
  pose proof (message_is_routed_by_its_topic (platform := Sample.platform)
                (listeners := App.listeners (platform := Sample.platform))
                "" "7" (JNum (of_Z 7)) Sample.online [3%nat] [4%nat]
                eq_refl eq_refl eq_refl eq_refl (Hkeep 3%nat) (Hkeep 4%nat))
    as H.
  cbn [alloc_json] in H. cbv zeta in H.
  destruct H as (_ & Hpersons & _ & _ & _ & Hcommand).
  split; [rewrite Hpersons; vm_compute; reflexivity|exact Hcommand].
Defined.
